(** * PDAO registration / login backend and cascading address picker

    A shallow embedding of the TypeScript sources of the repository:

    - [backend/models/User.ts]            Zod schemas, the Mongoose schema, its
                                          pre-save hooks and the helper functions;
    - [backend/validators/authValidators.ts]  the express-validator chains and the
                                          [validate] middleware;
    - [backend/controllers/userController.ts] the [register] and [login] handlers;
    - [backend/utils/validation.ts], [backend/utils/transform.ts]
                                          the serialization helpers;
    - the address picker component (React state and its event handlers).

    JavaScript values are modelled by the inductive type [value]; objects are
    association lists in insertion order.  Strings are ASCII strings, numbers
    are integers, and a [Date] is its time value in milliseconds since the
    epoch ([None] for an invalid date).  The behaviour of the libraries the
    code calls (validator.js predicates, Zod's e-mail pattern, bcrypt, the
    token signer, [Date.parse]) is collected in the record [Lib]. *)

From Stdlib Require Import String Ascii List ZArith Lia Bool Arith.
From Stdlib Require Import DecimalString.
Import ListNotations.
Local Open Scope string_scope.
Set Warnings "-register-all".

(* ================================================================== *)
(** * JavaScript strings *)
(* ================================================================== *)

Fixpoint filter_str (f : ascii -> bool) (s : string) : string :=
  match s with
  | EmptyString => EmptyString
  | String c r => if f c then String c (filter_str f r) else filter_str f r
  end.

Fixpoint forallb_str (f : ascii -> bool) (s : string) : bool :=
  match s with
  | EmptyString => true
  | String c r => f c && forallb_str f r
  end.

Fixpoint map_str (f : ascii -> ascii) (s : string) : string :=
  match s with
  | EmptyString => EmptyString
  | String c r => String (f c) (map_str f r)
  end.

Fixpoint rev_str_acc (s acc : string) : string :=
  match s with
  | EmptyString => acc
  | String c r => rev_str_acc r (String c acc)
  end.

Definition rev_str (s : string) : string := rev_str_acc s EmptyString.

(** [\d] *)
Definition isDigit (c : ascii) : bool :=
  let n := nat_of_ascii c in (48 <=? n)%nat && (n <=? 57)%nat.

(** [[A-Z]] *)
Definition isUpper (c : ascii) : bool :=
  let n := nat_of_ascii c in (65 <=? n)%nat && (n <=? 90)%nat.

(** [[A-Z0-9]] *)
Definition isUpperAlnum (c : ascii) : bool := isUpper c || isDigit c.

(** [\s] restricted to ASCII: space, tab, line feed, vertical tab, form feed,
    carriage return. *)
Definition isSpace (c : ascii) : bool :=
  let n := nat_of_ascii c in
  (n =? 32)%nat || ((9 <=? n)%nat && (n <=? 13)%nat).

Definition lower_char (c : ascii) : ascii :=
  if isUpper c then ascii_of_nat (nat_of_ascii c + 32) else c.

(** [s.toLowerCase()] *)
Definition toLowerCase (s : string) : string := map_str lower_char s.

Fixpoint ltrim (s : string) : string :=
  match s with
  | EmptyString => EmptyString
  | String c r => if isSpace c then ltrim r else s
  end.

Definition rtrim (s : string) : string := rev_str (ltrim (rev_str s)).

(** [s.trim()] and validator.js [trim(s)] *)
Definition trim (s : string) : string := rtrim (ltrim s).

(** [s.startsWith(p)] *)
Definition startsWith (s p : string) : bool := String.prefix p s.

(** [s.substring(n)] *)
Definition substring_from (n : nat) (s : string) : string :=
  String.substring n (String.length s - n) s.

(** [s.substring(0, n)] *)
Definition substring_upto (n : nat) (s : string) : string :=
  String.substring 0 n s.

(** [s.replace(/\D/g, "")] *)
Definition strip_non_digits (s : string) : string := filter_str isDigit s.

(** [xs.join(sep)] for a list of strings *)
Fixpoint join (sep : string) (xs : list string) : string :=
  match xs with
  | [] => ""
  | [x] => x
  | x :: r => x ++ sep ++ join sep r
  end.

(** [/^09\d{9}$/] *)
Definition re_phone (s : string) : bool :=
  match s with
  | String c1 (String c2 rest) =>
      Ascii.eqb c1 "0" && Ascii.eqb c2 "9"
      && (String.length rest =? 9)%nat && forallb_str isDigit rest
  | _ => false
  end.

(** [/^\d{4}$/] *)
Definition re_zip (s : string) : bool :=
  (String.length s =? 4)%nat && forallb_str isDigit s.

(** [/^\d{4}-\d{2}-\d{2}$/] *)
Definition re_date (s : string) : bool :=
  match s with
  | String y1 (String y2 (String y3 (String y4 (String d1
      (String m1 (String m2 (String d2 (String a1 (String a2 EmptyString))))))))) =>
      isDigit y1 && isDigit y2 && isDigit y3 && isDigit y4 && Ascii.eqb d1 "-"
      && isDigit m1 && isDigit m2 && Ascii.eqb d2 "-" && isDigit a1 && isDigit a2
  | _ => false
  end.

(** Does [s] consist of [prefix], eight digits, a dash and five characters of
    [[A-Z0-9]]?  With [prefix = "PDAO-"] this is [/^PDAO-\d{8}-[A-Z0-9]{5}$/]. *)
Definition re_id (pre s : string) : bool :=
  startsWith s pre
  && (let r := substring_from (String.length pre) s in
      (String.length r =? 14)%nat
      && forallb_str isDigit (substring_upto 8 r)
      && String.eqb (String.substring 8 1 r) "-"
      && forallb_str isUpperAlnum (substring_from 9 r)).

Definition re_user_id : string -> bool := re_id "PDAO-".
Definition re_form_id : string -> bool := re_id "FORM-".

(* ================================================================== *)
(** * Contact-number normalisation (models/User.ts) *)
(* ================================================================== *)

(** The body of the [if (user.contact_number)] block of the second pre-save
    hook, as a function of the field's value. *)
Definition presave_contact (contact_number : string) : string :=
  let cleaned := strip_non_digits contact_number in
  let cleaned :=
    if negb (startsWith cleaned "0") && negb (startsWith cleaned "63")
    then "0" ++ cleaned else cleaned in
  let cleaned :=
    if startsWith cleaned "63" && (12 <=? String.length cleaned)%nat
    then "0" ++ substring_from 2 cleaned else cleaned in
  let cleaned :=
    if (11 <? String.length cleaned)%nat
    then substring_upto 11 cleaned else cleaned in
  cleaned.

(** The body of the [if (transformed.contact_number)] block of
    [transformForMongoose]. *)
Definition transform_contact (contact_number : string) : string :=
  let phone := strip_non_digits contact_number in
  let phone :=
    if startsWith phone "63" && (12 <=? String.length phone)%nat
    then "0" ++ substring_from 2 phone else phone in
  let phone :=
    if negb (startsWith phone "0") && (String.length phone =? 10)%nat
    then "0" ++ phone else phone in
  substring_upto 11 phone.

(** The validator of the [contact_number] path of the Mongoose schema:
    [/^09\d{9}$/.test(v) && v.length === 11]. *)
Definition contact_validator (v : string) : bool :=
  re_phone v && (String.length v =? 11)%nat.

(* ================================================================== *)
(** * JavaScript values and objects *)
(* ================================================================== *)

(** A request body is JSON: it holds no [VUndefined] and no [VDate]; both
    appear once the code has processed it. *)
Inductive value : Type :=
| VUndefined
| VNull
| VBool (b : bool)
| VNum (n : Z)
| VStr (s : string)
| VDate (t : option Z)
| VArr (l : list value)
| VObj (o : list (string * value)).

Definition obj : Type := list (string * value).

(** [o[k]] for an own property; [undefined] when the key is absent. *)
Fixpoint get (k : string) (o : obj) : value :=
  match o with
  | [] => VUndefined
  | (k', v) :: r => if String.eqb k k' then v else get k r
  end.

(** [k in o] *)
Fixpoint has (k : string) (o : obj) : bool :=
  match o with
  | [] => false
  | (k', _) :: r => String.eqb k k' || has k r
  end.

(** [o[k] = v]: an existing key keeps its position, a new one is appended. *)
Fixpoint set (k : string) (v : value) (o : obj) : obj :=
  match o with
  | [] => [(k, v)]
  | (k', v') :: r =>
      if String.eqb k k' then (k, v) :: r else (k', v') :: set k v r
  end.

(** [delete o[k]] *)
Definition del (k : string) (o : obj) : obj :=
  filter (fun p => negb (String.eqb k (fst p))) o.

(** [v[k]] for a key that is neither an index nor ["length"] (the only keys
    the program uses): defined on objects, [undefined] elsewhere. *)
Definition prop (k : string) (v : value) : value :=
  match v with
  | VObj o => get k o
  | _ => VUndefined
  end.

(** Truthiness, as [if (v)] and [!v] read it. *)
Definition truthy (v : value) : bool :=
  match v with
  | VUndefined | VNull => false
  | VBool b => b
  | VNum n => negb (n =? 0)%Z
  | VStr s => negb (String.eqb s "")
  | VDate _ | VArr _ | VObj _ => true
  end.

Definition is_undefined (v : value) : bool :=
  match v with VUndefined => true | _ => false end.

Definition is_string (v : value) : bool :=
  match v with VStr _ => true | _ => false end.

(** [v === VStr s] *)
Definition is_str (s : string) (v : value) : bool :=
  match v with VStr s' => String.eqb s' s | _ => false end.

(** Structural equality of values. *)
Fixpoint value_eqb (a b : value) {struct a} : bool :=
  match a, b with
  | VUndefined, VUndefined => true
  | VNull, VNull => true
  | VBool x, VBool y => Bool.eqb x y
  | VNum x, VNum y => (x =? y)%Z
  | VStr x, VStr y => String.eqb x y
  | VDate None, VDate None => true
  | VDate (Some x), VDate (Some y) => (x =? y)%Z
  | VArr xs, VArr ys =>
      (fix go (xs ys : list value) : bool :=
         match xs, ys with
         | [], [] => true
         | x :: xs', y :: ys' => value_eqb x y && go xs' ys'
         | _, _ => false
         end) xs ys
  | VObj xs, VObj ys =>
      (fix go (xs ys : obj) : bool :=
         match xs, ys with
         | [], [] => true
         | (k, x) :: xs', (k', y) :: ys' =>
             String.eqb k k' && value_eqb x y && go xs' ys'
         | _, _ => false
         end) xs ys
  | _, _ => false
  end.

(** The values that JSON can carry: no [undefined] and no [Date], at any
    depth. *)
Fixpoint is_json (v : value) : bool :=
  match v with
  | VUndefined | VDate _ => false
  | VNull | VBool _ | VNum _ | VStr _ => true
  | VArr l => forallb is_json l
  | VObj o => forallb (fun p => is_json (snd p)) o
  end.

(** Decimal notation of an integer: [String(n)]. *)
Definition string_of_Z (n : Z) : string := NilZero.string_of_int (Z.to_int n).

(** The own enumerable properties that a spread [{...v}] or a rest pattern
    copies: those of an object, the indexed elements of an array or a string,
    none for the other values. *)
Fixpoint indexed (i : nat) (l : list value) : obj :=
  match l with
  | [] => []
  | v :: r => (string_of_Z (Z.of_nat i), v) :: indexed (S i) r
  end.

Fixpoint chars (s : string) : list value :=
  match s with
  | EmptyString => []
  | String c r => VStr (String c EmptyString) :: chars r
  end.

Definition spread (v : value) : obj :=
  match v with
  | VObj o => o
  | VArr l => indexed 0 l
  | VStr s => indexed 0 (chars s)
  | _ => []
  end.

(** [_.get(o, path)] of lodash for a path written ["a.b"]: a key of that
    very name wins, otherwise the segments are followed. *)
Fixpoint walk (segs : list string) (v : value) : value :=
  match segs with
  | [] => v
  | k :: r => walk r (prop k v)
  end.

Definition lodash_get (segs : list string) (v : value) : value :=
  match v with
  | VObj o => if has (join "." segs) o then get (join "." segs) o else walk segs v
  | _ => VUndefined
  end.

(** [_.set(o, path, x)]: intermediate values that are not objects are
    replaced by fresh objects; a root that is not an object is left as it is.
    (An array met on the way is an object for lodash and would receive a
    named property, which no later reader of the body observes; the model
    leaves the array unchanged.) *)
Fixpoint set_path (segs : list string) (x : value) (v : value) : value :=
  match segs with
  | [] => x
  | k :: r =>
      match v with
      | VObj o => VObj (set k (set_path r x (get k o)) o)
      | VArr l => VArr l
      | _ => VObj [(k, set_path r x VUndefined)]
      end
  end.

Definition lodash_set (segs : list string) (x : value) (v : value) : value :=
  match v with
  | VObj o =>
      if has (join "." segs) o then VObj (set (join "." segs) x o)
      else set_path segs x v
  | _ => v
  end.

(** Split a field name at its dots: ["address.street"] gives
    [["address"; "street"]]. *)
Fixpoint split_dot_acc (s acc : string) : list string :=
  match s with
  | EmptyString => [rev_str acc]
  | String c r =>
      if Ascii.eqb c "." then rev_str acc :: split_dot_acc r EmptyString
      else split_dot_acc r (String c acc)
  end.

Definition split_dot (s : string) : list string := split_dot_acc s EmptyString.

(* ================================================================== *)
(** * Dates *)
(* ================================================================== *)

(** Days since 1970-01-01 of a civil date (proleptic Gregorian calendar),
    [m] in 1..12. *)
Definition days_from_civil (y m d : Z) : Z :=
  let y' := if (m <=? 2)%Z then (y - 1)%Z else y in
  let era := (y' / 400)%Z in
  let yoe := (y' - era * 400)%Z in
  let mp := if (m <=? 2)%Z then (m + 9)%Z else (m - 3)%Z in
  let doy := ((153 * mp + 2) / 5 + d - 1)%Z in
  let doe := (yoe * 365 + yoe / 4 - yoe / 100 + doy)%Z in
  (era * 146097 + doe - 719468)%Z.

(** The civil date [(year, month 1..12, day)] of a day number. *)
Definition civil_from_days (z : Z) : Z * Z * Z :=
  let z := (z + 719468)%Z in
  let era := (z / 146097)%Z in
  let doe := (z - era * 146097)%Z in
  let yoe := ((doe - doe / 1460 + doe / 36524 - doe / 146096) / 365)%Z in
  let y := (yoe + era * 400)%Z in
  let doy := (doe - (365 * yoe + yoe / 4 - yoe / 100))%Z in
  let mp := ((5 * doy + 2) / 153)%Z in
  let d := (doy - (153 * mp + 2) / 5 + 1)%Z in
  let m := if (mp <? 10)%Z then (mp + 3)%Z else (mp - 9)%Z in
  (if (m <=? 2)%Z then (y + 1)%Z else y, m, d).

Definition ms_per_day : Z := 86400000.

(** The local civil date of a time value.  [zone t] is the offset of local
    time from UTC at the instant [t], in milliseconds, as the rules of the
    server's time zone give it for that instant (the [LocalTZA] of the
    language): it changes with daylight saving and with the history of the
    zone. *)
Definition local_civil (zone : Z -> Z) (t : Z) : Z * Z * Z :=
  civil_from_days ((t + zone t) / ms_per_day)%Z.

(** [d.getFullYear()], [d.getMonth()] (0..11) and [d.getDate()]. *)
Definition getFullYear (zone : Z -> Z) (t : Z) : Z :=
  fst (fst (local_civil zone t)).
Definition getMonth (zone : Z -> Z) (t : Z) : Z :=
  (snd (fst (local_civil zone t)) - 1)%Z.
Definition getDate (zone : Z -> Z) (t : Z) : Z := snd (local_civil zone t).

(** Left-pad the decimal notation of a natural number with zeros. *)
Fixpoint pad_left (n : nat) (s : string) : string :=
  match n with
  | O => s
  | S n' => if (String.length s <=? n')%nat then pad_left n' ("0" ++ s) else s
  end.

Definition digits (width : nat) (n : Z) : string :=
  pad_left width (string_of_Z n).

(** [d.toISOString().split("T")[0].replace(/-/g, "")] for a year in
    0..9999: the UTC date as eight digits. *)
Definition dateStr (t : Z) : string :=
  let '(y, m, d) := civil_from_days (t / ms_per_day)%Z in
  digits 4 y ++ digits 2 m ++ digits 2 d.

(** [d.toISOString()] for a valid date with a year in 0..9999. *)
Definition toISOString (t : Z) : string :=
  let '(y, m, d) := civil_from_days (t / ms_per_day)%Z in
  let r := (t mod ms_per_day)%Z in
  digits 4 y ++ "-" ++ digits 2 m ++ "-" ++ digits 2 d ++ "T"
  ++ digits 2 (r / 3600000)%Z ++ ":" ++ digits 2 ((r / 60000) mod 60)%Z ++ ":"
  ++ digits 2 ((r / 1000) mod 60)%Z ++ "." ++ digits 3 (r mod 1000)%Z ++ "Z".

(* ================================================================== *)
(** * The libraries the code calls *)
(* ================================================================== *)

(** What the program takes from its environment: the offset of the
    server's time zone from UTC at each instant, in milliseconds,
    [Date.parse], the string predicates of validator.js that the
    express-validator chains use, Zod's e-mail and URL patterns, bcrypt and
    the token signer.  [zod_default_parsed] tells how the installed Zod treats
    [.default(d)] on an absent input: Zod 3 parses [d] with the inner schema,
    Zod 4 returns [d] as it is; the repository does not pin the version. *)
Record Lib : Type := {
  tz : Z -> Z;
  Date_parse : string -> option Z;
  isEmail : string -> bool;
  normalizeEmail : string -> option string;
  isISO8601 : string -> bool;
  zod_email : string -> bool;
  zod_url : string -> bool;
  zod_default_parsed : bool;
  bcrypt_hash : string -> string -> string;
  bcrypt_compare : string -> string -> bool;
  jwt_sign : string -> string -> Z -> string
}.

(** The values a handler draws while it runs: the current time, the salt
    of [bcrypt.genSalt], the five characters
    [Math.random().toString(36).substring(2, 7).toUpperCase()] and the fresh
    [ObjectId]. *)
Record Draw : Type := {
  now : Z;
  salt : string;
  random5 : string;
  objectId : string
}.

(** [String(v)] as express-validator's [toString] computes it before a
    standard validator or sanitizer runs. *)
Fixpoint toString (v : value) : string :=
  match v with
  | VUndefined | VNull => ""
  | VBool true => "true"
  | VBool false => "false"
  | VNum n => string_of_Z n
  | VStr s => s
  | VDate (Some t) => toISOString t
  | VDate None => ""
  | VArr l => join "," (map toString l)
  | VObj _ => "[object Object]"
  end.

(** [new Date(v)]: the time value, [None] for an invalid date. *)
Definition new_Date (lib : Lib) (v : value) : option Z :=
  match v with
  | VUndefined => None
  | VNull => Some 0%Z
  | VBool b => Some (if b then 1%Z else 0%Z)
  | VNum n => Some n
  | VStr s => Date_parse lib s
  | VDate t => t
  | VArr _ | VObj _ => Date_parse lib (toString v)
  end.

(** [a > b] and [a <= b] on dates; both are false when [a] is invalid. *)
Definition date_gt (a : option Z) (b : Z) : bool :=
  match a with Some x => (b <? x)%Z | None => false end.

Definition date_le (a : option Z) (b : Z) : bool :=
  match a with Some x => (x <=? b)%Z | None => false end.

(** validator.js [escape]: the ampersand, both quotes, the angle brackets,
    the slash, the backslash and the backtick become HTML entities. *)
Fixpoint escape (s : string) : string :=
  match s with
  | EmptyString => EmptyString
  | String c r =>
      (if Ascii.eqb c "&" then "&amp;"
       else if Ascii.eqb c (ascii_of_nat 34) then "&quot;"
       else if Ascii.eqb c "'" then "&#x27;"
       else if Ascii.eqb c "<" then "&lt;"
       else if Ascii.eqb c ">" then "&gt;"
       else if Ascii.eqb c "/" then "&#x2F;"
       else if Ascii.eqb c "\" then "&#x5C;"
       else if Ascii.eqb c "`" then "&#96;"
       else String c EmptyString) ++ escape r
  end.

(* ================================================================== *)
(** * express-validator: chains and their runner *)
(* ================================================================== *)

Inductive std_validator : Type :=
| IsEmpty
| IsLength (min : nat) (max : option nat)
| IsEmail
| IsISO8601
| IsIn (values : list string)
| Matches (re : string -> bool).

Inductive std_sanitizer : Type :=
| Trim
| Escape
| NormalizeEmail.

(** An item of a chain's stack.  A custom validator is given by the message
    of the error it throws ([None] when it returns [true]). *)
Inductive item : Type :=
| Validation (v : std_validator) (negated : bool) (message : option string)
| Custom (f : Lib -> Z -> value -> option string) (message : option string)
| Sanitization (s : std_sanitizer)
| CustomSanitization (f : value -> value).

Record chain : Type := {
  field : string;
  optional_ : bool;
  stack : list item
}.

(** The builder methods, in the order the source chains them. *)
Definition body (f : string) : chain :=
  {| field := f; optional_ := false; stack := [] |}.

Definition push (it : item) (c : chain) : chain :=
  {| field := field c; optional_ := optional_ c; stack := (stack c ++ [it])%list |}.

Definition notEmpty : chain -> chain := push (Validation IsEmpty true None).
Definition isLength (min : nat) (max : option nat) : chain -> chain :=
  push (Validation (IsLength min max) false None).
Definition isEmail_ : chain -> chain := push (Validation IsEmail false None).
Definition isISO8601_ : chain -> chain := push (Validation IsISO8601 false None).
Definition isIn (values : list string) : chain -> chain :=
  push (Validation (IsIn values) false None).
Definition matches (re : string -> bool) : chain -> chain :=
  push (Validation (Matches re) false None).
Definition custom (f : Lib -> Z -> value -> option string) : chain -> chain :=
  push (Custom f None).
Definition trim_ : chain -> chain := push (Sanitization Trim).
Definition escape_ : chain -> chain := push (Sanitization Escape).
Definition normalizeEmail_ : chain -> chain := push (Sanitization NormalizeEmail).

(** [.toLowerCase()] is the custom sanitizer
    [value => typeof value === "string" ? value.toLowerCase() : value]. *)
Definition toLowerCase_ : chain -> chain :=
  push (CustomSanitization
          (fun v => match v with VStr s => VStr (toLowerCase s) | _ => v end)).

(** [.default(d)] is the custom sanitizer that replaces [undefined], [null]
    and [""] by [d]. *)
Definition default_ (d : value) : chain -> chain :=
  push (CustomSanitization
          (fun v => match v with
                    | VUndefined | VNull => d
                    | VStr s => if String.eqb s "" then d else v
                    | _ => v
                    end)).

Definition optional : chain -> chain :=
  fun c => {| field := field c; optional_ := true; stack := stack c |}.

(** [.withMessage(m)] sets the message of the last validator of the stack. *)
Fixpoint set_last_message (m : string) (rev_stack : list item) : list item :=
  match rev_stack with
  | [] => []
  | Validation v n _ :: r => Validation v n (Some m) :: r
  | Custom f _ :: r => Custom f (Some m) :: r
  | it :: r => it :: set_last_message m r
  end.

Definition withMessage (m : string) : chain -> chain :=
  fun c => {| field := field c; optional_ := optional_ c;
              stack := rev (set_last_message m (rev (stack c))) |}.

Notation "c .> f" := (f c) (at level 50, left associativity, only parsing).

(** One entry of [validationResult(req).array()]. *)
Record field_error : Type := {
  err_type : string;
  err_path : string;
  err_msg : string;
  err_value : value
}.

Definition std_validate (lib : Lib) (v : std_validator) (str : string) : bool :=
  match v with
  | IsEmpty => (String.length str =? 0)%nat
  | IsLength min max =>
      (min <=? String.length str)%nat
      && match max with Some m => (String.length str <=? m)%nat | None => true end
  | IsEmail => isEmail lib str
  | IsISO8601 => isISO8601 lib str
  | IsIn values => existsb (String.eqb str) values
  | Matches re => re str
  end.

Definition std_sanitize (lib : Lib) (s : std_sanitizer) (str : string) : value :=
  match s with
  | Trim => VStr (trim str)
  | Escape => VStr (escape str)
  | NormalizeEmail =>
      match normalizeEmail lib str with
      | Some e => VStr e
      | None => VBool false
      end
  end.

Definition field_err (path msg : string) (v : value) : field_error :=
  {| err_type := "field"; err_path := path; err_msg := msg; err_value := v |}.

Definition message_or (m : option string) (d : string) : string :=
  match m with Some s => s | None => d end.

(** What one item does to the current value of the field: the new value and
    the errors it adds.  A standard validator or sanitizer treats an array
    element by element. *)
Definition run_item (lib : Lib) (time : Z) (path : string) (it : item)
    (v : value) : value * list field_error :=
  match it with
  | Validation sv negated message =>
      let values := match v with VArr l => l | _ => [v] end in
      (v, flat_map
            (fun x =>
               if Bool.eqb (negb (std_validate lib sv (toString x))) (negb negated)
               then [field_err path (message_or message "Invalid value") x]
               else [])
            values)
  | Custom f message =>
      match f lib time v with
      | Some thrown => (v, [field_err path (message_or message thrown) v])
      | None => (v, [])
      end
  | Sanitization s =>
      match v with
      | VArr l => (VArr (map (fun x => std_sanitize lib s (toString x)) l), [])
      | _ => (std_sanitize lib s (toString v), [])
      end
  | CustomSanitization f => (f v, [])
  end.

(** The runner: the items run in order on the field's instance; an optional
    chain skips an item while the instance is [undefined]; a changed value is
    written back to the request body. *)
Fixpoint run_stack (lib : Lib) (time : Z) (c : chain) (items : list item)
    (req_body : value) (instance : value) : value * list field_error :=
  match items with
  | [] => (req_body, [])
  | it :: rest =>
      if optional_ c && is_undefined instance
      then run_stack lib time c rest req_body instance
      else
        let '(newValue, errs) := run_item lib time (field c) it instance in
        let reqValue := lodash_get (split_dot (field c)) req_body in
        let req_body' :=
          if negb (value_eqb reqValue newValue)
          then lodash_set (split_dot (field c)) newValue req_body
          else req_body in
        let '(b, es) := run_stack lib time c rest req_body' newValue in
        (b, (errs ++ es)%list)
  end.

Definition run_chain (lib : Lib) (time : Z) (c : chain) (req_body : value)
  : value * list field_error :=
  run_stack lib time c (stack c) req_body
            (lodash_get (split_dot (field c)) req_body).

(** The chains of a route run one after the other on the same request. *)
Fixpoint run_chains (lib : Lib) (time : Z) (cs : list chain) (req_body : value)
  : value * list field_error :=
  match cs with
  | [] => (req_body, [])
  | c :: rest =>
      let '(b, errs) := run_chain lib time c req_body in
      let '(b', es) := run_chains lib time rest b in
      (b', (errs ++ es)%list)
  end.

(* ================================================================== *)
(** * validators/authValidators.ts *)
(* ================================================================== *)

Definition dob_not_in_future : Lib -> Z -> value -> option string :=
  fun lib time value =>
    let dob := new_Date lib value in
    if date_gt dob time
    then Some "Date of birth cannot be in the future"
    else None.

Definition registerValidator : list chain := [
  body "first_name"
    .> notEmpty .> withMessage "First name is required"
    .> isLength 1 (Some 50) .> withMessage "First name must be 1-50 characters"
    .> trim_ .> escape_;

  body "middle_name"
    .> optional .> default_ (VStr "")
    .> isLength 0 (Some 50) .> withMessage "Middle name cannot exceed 50 characters"
    .> trim_ .> escape_;

  body "last_name"
    .> notEmpty .> withMessage "Last name is required"
    .> isLength 1 (Some 50) .> withMessage "Last name must be 1-50 characters"
    .> trim_ .> escape_;

  body "suffix"
    .> optional .> default_ (VStr "")
    .> isIn ["Jr."; "Sr."; "II"; "III"; "IV"; "V"; ""]
    .> withMessage "Invalid suffix format"
    .> trim_ .> escape_;

  body "email"
    .> notEmpty .> withMessage "Email is required"
    .> isEmail_ .> withMessage "Must be a valid email"
    .> normalizeEmail_ .> toLowerCase_ .> trim_;

  body "password"
    .> notEmpty .> withMessage "Password is required"
    .> isLength 8 None .> withMessage "Password must be at least 8 characters"
    .> isLength 0 (Some 100) .> withMessage "Password cannot exceed 100 characters";

  body "date_of_birth"
    .> notEmpty .> withMessage "Date of birth is required"
    .> isISO8601_ .> withMessage "Must be a valid date (YYYY-MM-DD)"
    .> custom dob_not_in_future;

  body "sex"
    .> notEmpty .> withMessage "Sex is required"
    .> isIn ["Male"; "Female"; "Other"] .> withMessage "Invalid sex value";

  body "contact_number"
    .> notEmpty .> withMessage "Contact number is required"
    .> matches re_phone
    .> withMessage
         "Phone number must be exactly 11 digits starting with 09 (09XXXXXXXXX)"
    .> isLength 11 (Some 11)
    .> withMessage "Phone number must be exactly 11 characters"
    .> trim_;

  body "address.street"
    .> notEmpty .> withMessage "Street is required"
    .> isLength 0 (Some 200) .> withMessage "Street cannot exceed 200 characters"
    .> trim_ .> escape_;

  body "address.barangay"
    .> notEmpty .> withMessage "Barangay is required"
    .> isLength 0 (Some 100) .> withMessage "Barangay cannot exceed 100 characters"
    .> trim_ .> escape_;

  body "address.city_municipality"
    .> notEmpty .> withMessage "City/Municipality is required"
    .> isLength 0 (Some 100)
    .> withMessage "City/Municipality cannot exceed 100 characters"
    .> trim_ .> escape_;

  body "address.province"
    .> notEmpty .> withMessage "Province is required"
    .> isLength 0 (Some 100) .> withMessage "Province cannot exceed 100 characters"
    .> trim_ .> escape_;

  body "address.region"
    .> notEmpty .> withMessage "Region is required"
    .> isLength 0 (Some 100) .> withMessage "Region cannot exceed 100 characters"
    .> trim_ .> escape_;

  body "address.zip_code"
    .> optional .> default_ (VStr "")
    .> matches re_zip .> withMessage "ZIP code must be 4 digits"
    .> trim_;

  body "address.country" .> optional .> default_ (VStr "Philippines") .> trim_;

  body "address.type"
    .> optional .> default_ (VStr "Permanent")
    .> isIn ["Permanent"; "Temporary"; "Present"]
    .> withMessage "Address type must be Permanent, Temporary, or Present";

  body "form_id"
    .> optional
    .> custom (fun _ _ _ => Some "form_id cannot be set during registration")
].

Definition loginValidator : list chain := [
  body "email"
    .> notEmpty .> withMessage "Email is required"
    .> isEmail_ .> withMessage "Must be a valid email"
    .> normalizeEmail_ .> toLowerCase_ .> trim_;

  body "password" .> notEmpty .> withMessage "Password is required"
].

(** An HTTP response: [res.status(s).json(j)]. *)
Record response : Type := {
  status : Z;
  json : value
}.

(** The [validate] middleware on the errors of [validationResult(req)]:
    [None] is [next()]. *)
Definition validate (errors : list field_error) : option response :=
  if negb (Nat.eqb (List.length errors) 0) then
    let hasFormIdError :=
      existsb (fun err => String.eqb (err_type err) "field"
                          && String.eqb (err_path err) "form_id") errors in
    if hasFormIdError then
      Some {| status := 400;
              json := VObj [
                ("success", VBool false);
                ("message", VStr "Invalid registration data");
                ("errors", VArr [
                   VObj [("field", VStr "form_id");
                         ("message",
                          VStr "form_id is automatically generated and cannot be provided")]])] |}
    else
      Some {| status := 400;
              json := VObj [
                ("success", VBool false);
                ("message", VStr "Validation failed");
                ("errors", VArr
                   (map (fun err =>
                           VObj [("field",
                                  VStr (if String.eqb (err_type err) "field"
                                        then err_path err else err_type err));
                                 ("message", VStr (err_msg err))])
                        errors))] |}
  else None.

(* ================================================================== *)
(** * Zod: schemas and [parse] *)
(* ================================================================== *)

Inductive string_check : Type :=
| SMin (n : nat) (message : option string)
| SMax (n : nat) (message : option string)
| SRegex (re : string -> bool) (message : string)
| SEmail (message : option string)
| SUrl (message : option string).

Inductive number_check : Type :=
| NInt (message : string)
| NMin (n : Z) (message : option string)
| NMax (n : Z) (message : option string).

(** A schema.  The default of [ZDefault] is a function of the values drawn
    at run time, since [user_id] defaults to a generated identifier; a
    refinement reads the library (for [new Date(...)]) and the current
    time. *)
Inductive ztype : Type :=
| ZAny
| ZString (checks : list string_check)
| ZNumber (checks : list number_check)
| ZBoolean
| ZEnum (values : list string)
| ZOptional (t : ztype)
| ZNullable (t : ztype)
| ZDefault (t : ztype) (d : Draw -> value)
| ZRefine (t : ztype) (check : Lib -> Z -> value -> bool) (message : string)
| ZObject (shape : list (string * ztype)).

Record issue : Type := {
  issue_path : list string;
  issue_message : string
}.

Definition typeName (v : value) : string :=
  match v with
  | VUndefined => "undefined"
  | VNull => "null"
  | VBool _ => "boolean"
  | VNum _ => "number"
  | VStr _ => "string"
  | VDate _ => "date"
  | VArr _ => "array"
  | VObj _ => "object"
  end.

Definition invalid_type (path : list string) (expected : string) (v : value)
  : issue :=
  {| issue_path := path;
     issue_message :=
       if is_undefined v then "Required"
       else "Expected " ++ expected ++ ", received " ++ typeName v |}.

Definition mk_issue (path : list string) (m : string) : issue :=
  {| issue_path := path; issue_message := m |}.

Definition joinValues (values : list string) : string :=
  join " | " (map (fun v => "'" ++ v ++ "'") values).

Definition run_string_check (lib : Lib) (path : list string) (s : string)
    (c : string_check) : list issue :=
  match c with
  | SMin n m =>
      if (String.length s <? n)%nat
      then [mk_issue path
              (message_or m ("String must contain at least "
                             ++ string_of_Z (Z.of_nat n) ++ " character(s)"))]
      else []
  | SMax n m =>
      if (n <? String.length s)%nat
      then [mk_issue path
              (message_or m ("String must contain at most "
                             ++ string_of_Z (Z.of_nat n) ++ " character(s)"))]
      else []
  | SRegex re m => if re s then [] else [mk_issue path m]
  | SEmail m =>
      if zod_email lib s then [] else [mk_issue path (message_or m "Invalid email")]
  | SUrl m =>
      if zod_url lib s then [] else [mk_issue path (message_or m "Invalid url")]
  end.

Definition run_number_check (path : list string) (n : Z) (c : number_check)
  : list issue :=
  match c with
  | NInt _ => []
  | NMin k m =>
      if (n <? k)%Z
      then [mk_issue path
              (message_or m ("Number must be greater than or equal to "
                             ++ string_of_Z k))]
      else []
  | NMax k m =>
      if (k <? n)%Z
      then [mk_issue path
              (message_or m ("Number must be less than or equal to "
                             ++ string_of_Z k))]
      else []
  end.

(** The fields of an object schema, parsed by [rec] in the order of the
    shape: the output object ([None] when a field was aborted) and the issues
    of all fields.  A key is kept when its value is defined or when the input
    has the key; the keys that the shape does not name are stripped. *)
Definition parse_fields
    (rec : ztype -> list string -> value -> option value * list issue)
    (path : list string) (o : obj)
  : list (string * ztype) -> option obj * list issue :=
  fix fields (sh : list (string * ztype)) : option obj * list issue :=
    match sh with
    | [] => (Some [], [])
    | p :: rest =>
        let '(rv, is1) := rec (snd p) (path ++ [fst p])%list (get (fst p) o) in
        let '(ro, is2) := fields rest in
        (match rv, ro with
         | Some x, Some fs =>
             if negb (is_undefined x) || has (fst p) o
             then Some ((fst p, x) :: fs) else Some fs
         | _, _ => None
         end, (is1 ++ is2)%list)
    end.

(** [schema._parse] at [path]: the parsed value ([None] when parsing was
    aborted) and the issues raised. *)
Fixpoint zparse (lib : Lib) (dr : Draw) (t : ztype) (path : list string)
    (v : value) {struct t} : option value * list issue :=
  match t with
  | ZAny => (Some v, [])
  | ZString checks =>
      match v with
      | VStr s => (Some v, flat_map (run_string_check lib path s) checks)
      | _ => (None, [invalid_type path "string" v])
      end
  | ZNumber checks =>
      match v with
      | VNum n => (Some v, flat_map (run_number_check path n) checks)
      | _ => (None, [invalid_type path "number" v])
      end
  | ZBoolean =>
      match v with
      | VBool _ => (Some v, [])
      | _ => (None, [invalid_type path "boolean" v])
      end
  | ZEnum values =>
      match v with
      | VStr s =>
          if existsb (String.eqb s) values then (Some v, [])
          else (None, [mk_issue path
                         ("Invalid enum value. Expected " ++ joinValues values
                          ++ ", received '" ++ s ++ "'")])
      | _ => (None, [invalid_type path (joinValues values) v])
      end
  | ZOptional t' =>
      if is_undefined v then (Some VUndefined, []) else zparse lib dr t' path v
  | ZNullable t' =>
      match v with
      | VNull => (Some VNull, [])
      | _ => zparse lib dr t' path v
      end
  | ZDefault t' d =>
      if is_undefined v
      then if zod_default_parsed lib then zparse lib dr t' path (d dr)
           else (Some (d dr), [])
      else zparse lib dr t' path v
  | ZRefine t' check message =>
      match zparse lib dr t' path v with
      | (Some x, issues) =>
          (Some x,
           if check lib (now dr) x then issues
           else (issues ++ [mk_issue path message])%list)
      | (None, issues) => (None, issues)
      end
  | ZObject shape =>
      match v with
      | VObj o =>
          let '(out, issues) := parse_fields (zparse lib dr) path o shape in
          (match out with Some fs => Some (VObj fs) | None => None end, issues)
      | _ => (None, [invalid_type path "object" v])
      end
  end.

(** What a failed operation throws. *)
Inductive exn : Type :=
| ZodError (errors : list issue)
| TypeError (message : string)
| MongoServerError (code : Z) (keyPattern : obj)
| ValidationError (errors : list (string * string))
| DocumentNotFoundError.

Inductive result (A : Type) : Type :=
| Ok (a : A)
| Throw (e : exn).
Arguments Ok {A} a.
Arguments Throw {A} e.

Definition bind {A B : Type} (r : result A) (k : A -> result B) : result B :=
  match r with
  | Ok a => k a
  | Throw e => Throw e
  end.

Notation "x <- r ;; k" := (bind r (fun x => k))
  (at level 61, r at next level, right associativity).

(** [schema.parse(data)] *)
Definition parse (lib : Lib) (dr : Draw) (t : ztype) (data : value)
  : result value :=
  match zparse lib dr t [] data with
  | (Some v, []) => Ok v
  | (_, issues) => Throw (ZodError issues)
  end.

(** [.pick(mask)], [.omit(mask)] and [.extend(shape)] on object schemas. *)
Fixpoint shape_get (k : string) (sh : list (string * ztype)) : option ztype :=
  match sh with
  | [] => None
  | (k', t) :: r => if String.eqb k k' then Some t else shape_get k r
  end.

Definition shape_of (t : ztype) : list (string * ztype) :=
  match t with ZObject sh => sh | _ => [] end.

Definition pick (mask : list string) (t : ztype) : ztype :=
  ZObject (flat_map (fun k => match shape_get k (shape_of t) with
                              | Some tk => [(k, tk)]
                              | None => []
                              end) mask).

Definition omit (mask : list string) (t : ztype) : ztype :=
  ZObject (filter (fun p => negb (existsb (String.eqb (fst p)) mask))
                  (shape_of t)).

Fixpoint shape_set (k : string) (t : ztype) (sh : list (string * ztype))
  : list (string * ztype) :=
  match sh with
  | [] => [(k, t)]
  | (k', t') :: r =>
      if String.eqb k k' then (k, t) :: r else (k', t') :: shape_set k t r
  end.

Definition extend (aug : list (string * ztype)) (t : ztype) : ztype :=
  ZObject (fold_left (fun sh p => shape_set (fst p) (snd p) sh) aug (shape_of t)).

(** The builder methods of Zod, in the order the source chains them. *)
Definition z_string : ztype := ZString [].
Definition z_number : ztype := ZNumber [].

Definition add_string_check (c : string_check) (t : ztype) : ztype :=
  match t with ZString cs => ZString (cs ++ [c])%list | _ => t end.

Definition add_number_check (c : number_check) (t : ztype) : ztype :=
  match t with ZNumber cs => ZNumber (cs ++ [c])%list | _ => t end.

Definition z_min (n : nat) (m : option string) := add_string_check (SMin n m).
Definition z_max (n : nat) (m : option string) := add_string_check (SMax n m).
Definition z_regex (re : string -> bool) (m : string) := add_string_check (SRegex re m).
Definition z_email (m : option string) := add_string_check (SEmail m).
Definition z_url (m : option string) := add_string_check (SUrl m).
Definition n_int (m : string) := add_number_check (NInt m).
Definition n_min (n : Z) (m : option string) := add_number_check (NMin n m).
Definition n_max (n : Z) (m : option string) := add_number_check (NMax n m).
Definition z_optional (t : ztype) : ztype := ZOptional t.
Definition z_nullable (t : ztype) : ztype := ZNullable t.
Definition z_default (d : value) (t : ztype) : ztype := ZDefault t (fun _ => d).
Definition z_default_fn (d : Draw -> value) (t : ztype) : ztype := ZDefault t d.
Definition z_refine (check : Lib -> Z -> value -> bool) (m : string) (t : ztype)
  : ztype := ZRefine t check m.

(* ================================================================== *)
(** * models/User.ts: the Zod schemas *)
(* ================================================================== *)

Definition AddressSchema : ztype := ZObject [
  ("street", z_string .> z_min 1 (Some "Street is required") .> z_max 200 None);
  ("barangay", z_string .> z_min 1 (Some "Barangay is required") .> z_max 100 None);
  ("city_municipality",
   z_string .> z_min 1 (Some "City/Municipality is required") .> z_max 100 None);
  ("province", z_string .> z_min 1 (Some "Province is required") .> z_max 100 None);
  ("region", z_string .> z_min 1 (Some "Region is required") .> z_max 100 None);
  ("zip_code",
   z_string .> z_regex re_zip "ZIP code must be 4 digits"
     .> z_optional .> z_default (VStr ""));
  ("country", z_string .> z_default (VStr "Philippines"));
  ("type", ZEnum ["Permanent"; "Temporary"; "Present"] .> z_default (VStr "Permanent"));
  ("coordinates",
   ZObject [
     ("lat", z_number .> n_min (-90) None .> n_max 90 None .> z_optional);
     ("lng", z_number .> n_min (-180) None .> n_max 180 None .> z_optional)]
     .> z_optional)
].

(** The identifier that the defaults of [user_id] generate:
    [`PDAO-${dateStr}-${random}`]. *)
Definition generated_user_id (dr : Draw) : value :=
  VStr ("PDAO-" ++ dateStr (now dr) ++ "-" ++ random5 dr).

(** The refinement of [date_of_birth]:
    [(date) => new Date(date) <= new Date()]. *)
Definition dob_not_after_now : Lib -> Z -> value -> bool :=
  fun lib time date => date_le (new_Date lib date) time.

Definition UserSchema : ztype := ZObject [
  ("_id", ZAny .> z_optional);
  ("user_id",
   z_string .> z_regex re_user_id "Invalid user ID format"
     .> z_optional .> z_default_fn generated_user_id);
  ("form_id",
   z_string .> z_regex re_form_id "Invalid form ID format"
     .> z_optional .> z_nullable .> z_default VNull);
  ("first_name",
   z_string .> z_min 1 (Some "First name is required")
     .> z_max 50 (Some "First name cannot exceed 50 characters"));
  ("middle_name",
   z_string .> z_max 50 (Some "Middle name cannot exceed 50 characters")
     .> z_optional .> z_default (VStr ""));
  ("last_name",
   z_string .> z_min 1 (Some "Last name is required")
     .> z_max 50 (Some "Last name cannot exceed 50 characters"));
  ("suffix",
   ZEnum ["Jr."; "Sr."; "II"; "III"; "IV"; "V"; ""]
     .> z_optional .> z_default (VStr ""));
  ("sex", ZEnum ["Male"; "Female"; "Other"] .> z_default (VStr "Other"));
  ("age",
   z_number .> n_int "Age must be an integer"
     .> n_min 0 (Some "Age cannot be negative")
     .> n_max 150 (Some "Age cannot exceed 150")
     .> z_optional .> z_default (VNum 0));
  ("date_of_birth",
   z_string .> z_regex re_date "Date must be in YYYY-MM-DD format"
     .> z_refine dob_not_after_now "Date of birth cannot be in the future");
  ("address", AddressSchema);
  ("contact_number",
   z_string
     .> z_min 11 (Some "Phone number must be 11 characters (09XXXXXXXXX)")
     .> z_max 11 (Some "Phone number must be 11 characters (09XXXXXXXXX)")
     .> z_regex re_phone "Phone number must start with 09 and have 11 digits total");
  ("avatar_url",
   z_string .> z_url (Some "Invalid URL format")
     .> z_optional .> z_nullable .> z_default VNull);
  ("email",
   z_string .> z_email (Some "Invalid email format")
     .> z_max 100 (Some "Email cannot exceed 100 characters"));
  ("password",
   z_string .> z_min 8 (Some "Password must be at least 8 characters")
     .> z_max 100 (Some "Password cannot exceed 100 characters"));
  ("role", ZEnum ["User"; "Admin"; "Supervisor"; "Staff"] .> z_default (VStr "User"));
  ("status",
   ZEnum ["Active"; "Inactive"; "Suspended"; "Pending"] .> z_default (VStr "Pending"));
  ("is_verified", ZBoolean .> z_default (VBool false));
  ("is_email_verified", ZBoolean .> z_default (VBool false));
  ("created_by", z_string .> z_optional .> z_nullable .> z_default VNull);
  ("updated_by", z_string .> z_optional .> z_nullable .> z_default VNull)
].

Definition UserRegisterSchema : ztype :=
  UserSchema .> pick ["first_name"; "middle_name"; "last_name"; "suffix"; "sex";
                      "date_of_birth"; "address"; "contact_number"; "email";
                      "password"].

Definition UserLoginSchema : ztype := ZObject [
  ("email", z_string .> z_email (Some "Invalid email format"));
  ("password", z_string .> z_min 1 (Some "Password is required"))
].

Definition UserPublicSchema : ztype :=
  UserSchema
    .> omit ["password"; "created_by"; "updated_by"]
    .> extend [("full_name", z_string .> z_optional);
               ("age_display", z_string .> z_optional);
               ("is_pwd_verified", ZBoolean .> z_optional)].

Definition validateUserRegister (lib : Lib) (dr : Draw) (data : value)
  : result value := parse lib dr UserRegisterSchema data.

Definition validateUserLogin (lib : Lib) (dr : Draw) (data : value)
  : result value := parse lib dr UserLoginSchema data.

(* ================================================================== *)
(** * models/User.ts: the Mongoose schema *)
(* ================================================================== *)

Inductive schema_type : Type := TString | TNumber | TDate | TBoolean.

(** The options of one schema path. *)
Record schema_path : Type := {
  sp_path : string;
  sp_type : schema_type;
  sp_required : option string;
  sp_unique : bool;
  sp_enum : option (list string);
  sp_default : option (Draw -> value);
  sp_lowercase : bool;
  sp_trim : bool;
  sp_validate : option ((string -> bool) * string)
}.

Definition path_ (name : string) (t : schema_type) : schema_path :=
  {| sp_path := name; sp_type := t; sp_required := None; sp_unique := false;
     sp_enum := None; sp_default := None; sp_lowercase := false;
     sp_trim := false; sp_validate := None |}.

Definition required (m : string) (p : schema_path) : schema_path :=
  {| sp_path := sp_path p; sp_type := sp_type p; sp_required := Some m;
     sp_unique := sp_unique p; sp_enum := sp_enum p; sp_default := sp_default p;
     sp_lowercase := sp_lowercase p; sp_trim := sp_trim p;
     sp_validate := sp_validate p |}.

Definition unique (p : schema_path) : schema_path :=
  {| sp_path := sp_path p; sp_type := sp_type p; sp_required := sp_required p;
     sp_unique := true; sp_enum := sp_enum p; sp_default := sp_default p;
     sp_lowercase := sp_lowercase p; sp_trim := sp_trim p;
     sp_validate := sp_validate p |}.

Definition enum (l : list string) (p : schema_path) : schema_path :=
  {| sp_path := sp_path p; sp_type := sp_type p; sp_required := sp_required p;
     sp_unique := sp_unique p; sp_enum := Some l; sp_default := sp_default p;
     sp_lowercase := sp_lowercase p; sp_trim := sp_trim p;
     sp_validate := sp_validate p |}.

Definition default_fn (d : Draw -> value) (p : schema_path) : schema_path :=
  {| sp_path := sp_path p; sp_type := sp_type p; sp_required := sp_required p;
     sp_unique := sp_unique p; sp_enum := sp_enum p; sp_default := Some d;
     sp_lowercase := sp_lowercase p; sp_trim := sp_trim p;
     sp_validate := sp_validate p |}.

Definition default (d : value) : schema_path -> schema_path :=
  default_fn (fun _ => d).

Definition lowercase (p : schema_path) : schema_path :=
  {| sp_path := sp_path p; sp_type := sp_type p; sp_required := sp_required p;
     sp_unique := sp_unique p; sp_enum := sp_enum p; sp_default := sp_default p;
     sp_lowercase := true; sp_trim := sp_trim p; sp_validate := sp_validate p |}.

Definition trimmed (p : schema_path) : schema_path :=
  {| sp_path := sp_path p; sp_type := sp_type p; sp_required := sp_required p;
     sp_unique := sp_unique p; sp_enum := sp_enum p; sp_default := sp_default p;
     sp_lowercase := sp_lowercase p; sp_trim := true;
     sp_validate := sp_validate p |}.

Definition validate_with (f : string -> bool) (m : string) (p : schema_path)
  : schema_path :=
  {| sp_path := sp_path p; sp_type := sp_type p; sp_required := sp_required p;
     sp_unique := sp_unique p; sp_enum := sp_enum p; sp_default := sp_default p;
     sp_lowercase := sp_lowercase p; sp_trim := sp_trim p;
     sp_validate := Some (f, m) |}.

Definition UserMongooseSchema : list schema_path := [
  path_ "user_id" TString .> required "Path `user_id` is required." .> unique
    .> default_fn generated_user_id;
  path_ "form_id" TString .> default VNull;
  path_ "first_name" TString .> required "First name is required";
  path_ "middle_name" TString .> default (VStr "");
  path_ "last_name" TString .> required "Last name is required";
  path_ "suffix" TString .> enum ["Jr."; "Sr."; "II"; "III"; "IV"; "V"; ""]
    .> default (VStr "");
  path_ "sex" TString .> enum ["Male"; "Female"; "Other"] .> default (VStr "Other");
  path_ "age" TNumber .> default (VNum 0);
  path_ "date_of_birth" TDate .> required "Date of birth is required";
  path_ "address.street" TString .> required "Street is required";
  path_ "address.barangay" TString .> required "Barangay is required";
  path_ "address.city_municipality" TString
    .> required "City/Municipality is required";
  path_ "address.province" TString .> required "Province is required";
  path_ "address.region" TString .> required "Region is required";
  path_ "address.zip_code" TString .> default (VStr "");
  path_ "address.country" TString .> default (VStr "Philippines");
  path_ "address.type" TString .> enum ["Permanent"; "Temporary"; "Present"]
    .> default (VStr "Permanent");
  path_ "address.coordinates.lat" TNumber;
  path_ "address.coordinates.lng" TNumber;
  path_ "contact_number" TString .> required "Contact number is required"
    .> unique
    .> validate_with contact_validator
         "Phone number must start with 09 and have 11 digits total";
  path_ "avatar_url" TString .> default VNull;
  path_ "email" TString .> required "Email is required" .> unique
    .> lowercase .> trimmed;
  path_ "password" TString .> required "Password is required";
  path_ "role" TString .> enum ["User"; "Admin"; "Supervisor"; "Staff"]
    .> default (VStr "User");
  path_ "status" TString .> enum ["Active"; "Inactive"; "Suspended"; "Pending"]
    .> default (VStr "Pending");
  path_ "is_verified" TBoolean .> default (VBool false);
  path_ "is_email_verified" TBoolean .> default (VBool false);
  path_ "created_by" TString .> default VNull;
  path_ "updated_by" TString .> default VNull
].

(** ** Documents: casting, defaults, validation *)

(** A decimal string as a number, for the cast of a string to [Number]. *)
Definition number_of_string (s : string) : option Z :=
  match NilEmpty.int_of_string s with
  | Some i => Some (Z.of_int i)
  | None => None
  end.

(** Mongoose's cast of a value to the type of a path; [None] is a
    [CastError].  [null] and [undefined] are kept.  (The values that reach a
    document come from JSON and from [transformForMongoose]; a [Date] given
    to a string path does not occur and is reported as a cast error.) *)
Definition cast (lib : Lib) (t : schema_type) (v : value) : option value :=
  match v with
  | VUndefined => Some VUndefined
  | VNull => Some VNull
  | _ =>
      match t with
      | TString =>
          match v with
          | VStr _ => Some v
          | VNum _ | VBool _ => Some (VStr (toString v))
          | _ => None
          end
      | TNumber =>
          match v with
          | VNum _ => Some v
          | VBool b => Some (VNum (if b then 1 else 0))
          | VStr s =>
              if String.eqb s "" then Some VNull
              else match number_of_string s with
                   | Some n => Some (VNum n)
                   | None => None
                   end
          | _ => None
          end
      | TDate =>
          match v with
          | VDate (Some _) => Some v
          | VNum n => Some (VDate (Some n))
          | VStr s =>
              match Date_parse lib s with
              | Some n => Some (VDate (Some n))
              | None => None
              end
          | _ => None
          end
      | TBoolean =>
          match v with
          | VBool _ => Some v
          | VNum n =>
              if (n =? 1)%Z then Some (VBool true)
              else if (n =? 0)%Z then Some (VBool false) else None
          | VStr s =>
              if existsb (String.eqb s) ["true"; "1"; "yes"] then Some (VBool true)
              else if existsb (String.eqb s) ["false"; "0"; "no"]
                   then Some (VBool false) else None
          | _ => None
          end
      end
  end.

(** The setters of a string path: [lowercase] and [trim]. *)
Definition apply_setters (p : schema_path) (v : value) : value :=
  match v with
  | VStr s =>
      let s := if sp_lowercase p then toLowerCase s else s in
      let s := if sp_trim p then trim s else s in
      VStr s
  | _ => v
  end.

(** What [new UserModel(data)] does for one schema path: the path takes the
    cast value of [data], or its default when [data] has none.  The second
    component reports a failed cast. *)
Definition build_path (lib : Lib) (dr : Draw) (p : schema_path) (data : value)
    (doc : value) : value * list (string * string) :=
  let segs := split_dot (sp_path p) in
  let raw := walk segs data in
  if is_undefined raw then
    match sp_default p with
    | Some d => (set_path segs (d dr) doc, [])
    | None => (doc, [])
    end
  else
    match cast lib (sp_type p) raw with
    | Some v => (set_path segs (apply_setters p v) doc, [])
    | None => (doc, [(sp_path p, "Cast failed for path `" ++ sp_path p ++ "`")])
    end.

(** [new UserModel(data)]: the paths of the schema in order; keys that the
    schema does not name are dropped. *)
Fixpoint build_document (lib : Lib) (dr : Draw) (paths : list schema_path)
    (data : value) (doc : value) : value * list (string * string) :=
  match paths with
  | [] => (doc, [])
  | p :: rest =>
      let '(doc', errs) := build_path lib dr p data doc in
      let '(d, es) := build_document lib dr rest data doc' in
      (d, (errs ++ es)%list)
  end.

Definition is_nullish (v : value) : bool :=
  match v with VUndefined | VNull => true | _ => false end.

(** The validators of one path, in the order Mongoose runs them: [required],
    [enum], the custom validator; the first failure is the path's error.
    [required] fails on [undefined], on [null] and, for a string path, on the
    empty string.  The [enum] validator passes [undefined] and [null] and
    tests every string, the empty one too.  A custom validator is not run
    on [undefined]; on any other value it is called.  (The one custom
    validator of the schema tests a pattern and [v.length === 11]: on
    [null] the pattern fails, and a value that is not a string has no such
    length, so only a string can pass.) *)
Definition validate_path (p : schema_path) (doc : value) : list (string * string) :=
  let v := walk (split_dot (sp_path p)) doc in
  let missing :=
    is_nullish v
    || match sp_type p, v with
       | TString, VStr s => String.eqb s ""
       | _, _ => false
       end in
  let required_errors :=
    match sp_required p with
    | Some m => if missing then [(sp_path p, m)] else []
    | None => []
    end in
  let enum_errors :=
    match sp_enum p, v with
    | Some l, VStr s =>
        if existsb (String.eqb s) l then []
        else [(sp_path p,
               "`" ++ s ++ "` is not a valid enum value for path `"
               ++ sp_path p ++ "`.")]
    | _, _ => []
    end in
  let validator_errors :=
    match sp_validate p, v with
    | Some (f, m), VStr s => if f s then [] else [(sp_path p, m)]
    | Some (f, m), VUndefined => []
    | Some (f, m), _ => [(sp_path p, m)]
    | None, _ => []
    end in
  (required_errors ++ enum_errors ++ validator_errors)%list.

Definition first_error (errs : list (string * string)) : list (string * string) :=
  match errs with
  | [] => []
  | e :: _ => [e]
  end.

(** [doc.validate()]: the cast errors and the first validator error of each
    path. *)
Definition validate_document (cast_errors : list (string * string))
    (doc : value) : list (string * string) :=
  (cast_errors
   ++ flat_map (fun p =>
                  if existsb (fun e => String.eqb (fst e) (sp_path p)) cast_errors
                  then [] else first_error (validate_path p doc))
               UserMongooseSchema)%list.

(** ** The pre-save hooks *)

(** The age computation that the pre-save hook and [sanitizeUserForPublic]
    share: the difference of the years, less one when the month and day of
    [today] come before those of [birthDate]. *)
Definition years_old (zone : Z -> Z) (today birthDate : Z) : Z :=
  let age := (getFullYear zone today - getFullYear zone birthDate)%Z in
  let monthDiff := (getMonth zone today - getMonth zone birthDate)%Z in
  if (monthDiff <? 0)%Z
     || ((monthDiff =? 0)%Z && (getDate zone today <? getDate zone birthDate)%Z)
  then (age - 1)%Z else age.

(** First hook: hash the password when the path was modified. *)
Definition hash_password_hook (lib : Lib) (dr : Draw) (isModifiedPassword : bool)
    (user : obj) : obj :=
  if negb isModifiedPassword then user
  else match get "password" user with
       | VStr p => set "password" (VStr (bcrypt_hash lib (salt dr) p)) user
       | _ => user
       end.

(** Second hook: recompute [age], convert a string [date_of_birth], and
    normalise [contact_number].  (A document holds no invalid date: the cast
    rejects it; on one, the age would be [NaN] and the model leaves it.) *)
Definition transform_hook (lib : Lib) (dr : Draw) (user : obj) : obj :=
  let user :=
    if truthy (get "date_of_birth" user) then
      let today := now dr in
      match new_Date lib (get "date_of_birth" user) with
      | Some birthDate => set "age" (VNum (years_old (tz lib) today birthDate)) user
      | None => user
      end
    else user in
  let user :=
    match get "date_of_birth" user with
    | VStr d =>
        if truthy (VStr d) then set "date_of_birth" (VDate (Date_parse lib d)) user
        else user
    | _ => user
    end in
  let user :=
    if truthy (get "contact_number" user) then
      match get "contact_number" user with
      | VStr c => set "contact_number" (VStr (presave_contact c)) user
      | _ => user
      end
    else user in
  user.

(** ** The collection *)

Definition collection : Type := list obj.

Definition same_id (a b : obj) : bool := value_eqb (get "_id" a) (get "_id" b).

(** The first unique path on which [user] collides with another document. *)
Definition duplicate_key (user : obj) (db : collection) : option string :=
  match
    filter (fun p =>
              sp_unique p
              && existsb (fun d =>
                            negb (same_id d user)
                            && value_eqb (walk (split_dot (sp_path p)) (VObj d))
                                         (walk (split_dot (sp_path p)) (VObj user)))
                         db)
           UserMongooseSchema
  with
  | p :: _ => Some (sp_path p)
  | [] => None
  end.

(** Write [user] to the collection: an insert when the document is new, a
    replacement of the document of the same [_id] otherwise.  A duplicate
    key is the server error 11000 with the key pattern of the index; an
    update that matches no document is Mongoose's [DocumentNotFoundError]. *)
Definition store (isNew : bool) (user : obj) (db : collection)
  : result collection :=
  match duplicate_key user db with
  | Some k => Throw (MongoServerError 11000 [(k, VNum 1)])
  | None =>
      if isNew then
        if existsb (same_id user) db
        then Throw (MongoServerError 11000 [("_id", VNum 1)])
        else Ok (db ++ [user])%list
      else if existsb (same_id user) db
      then Ok (map (fun d => if same_id user d then user else d) db)
      else Throw DocumentNotFoundError
  end.

(** The pre-save middleware after validation: the timestamps, the two hooks
    of the schema in the order they are registered, and the version key of a
    new document. *)
Definition pre_save (lib : Lib) (dr : Draw) (isNew isModifiedPassword : bool)
    (user : obj) : obj :=
  let user :=
    if isNew
    then set "updated_at" (VDate (Some (now dr)))
             (set "created_at" (VDate (Some (now dr))) user)
    else set "updated_at" (VDate (Some (now dr))) user in
  let user := hash_password_hook lib dr isModifiedPassword user in
  let user := transform_hook lib dr user in
  if isNew then set "__v" (VNum 0) user else user.

(** [doc.save()]: validation runs first (Mongoose registers it ahead of the
    schema's own pre-save hooks), then the middleware above, then the
    write.  The code sets no [validateModifiedOnly], so the paths a
    document was loaded with are validated on an update as well as those
    that were modified. *)
Definition save (lib : Lib) (dr : Draw) (isNew isModifiedPassword : bool)
    (cast_errors : list (string * string)) (user : obj) (db : collection)
  : result (obj * collection) :=
  match validate_document cast_errors (VObj user) with
  | [] =>
      let user := pre_save lib dr isNew isModifiedPassword user in
      db' <- store isNew user db ;;
      Ok (user, db')
  | errs => Throw (ValidationError errs)
  end.

(** [UserModel.create(data)] *)
Definition UserModel_create (lib : Lib) (dr : Draw) (data : value)
    (db : collection) : result (obj * collection) :=
  let '(doc, cast_errors) :=
    build_document lib dr UserMongooseSchema data
                   (VObj [("_id", VStr (objectId dr))]) in
  save lib dr true true cast_errors (spread doc) db.

Definition schema_path_of (name : string) : option schema_path :=
  find (fun p => String.eqb (sp_path p) name) UserMongooseSchema.

(** [UserModel.findOne({ [name]: v })]: the filter value is cast and passed
    through the setters of the path, as Mongoose does for queries. *)
Definition UserModel_findOne (lib : Lib) (name : string) (v : value)
    (db : collection) : option obj :=
  match schema_path_of name with
  | Some p =>
      match cast lib (sp_type p) v with
      | Some q =>
          find (fun d => value_eqb (walk (split_dot name) (VObj d))
                                   (apply_setters p q)) db
      | None => None
      end
  | None => None
  end.

(** [user.comparePassword(candidate)] *)
Definition comparePassword (lib : Lib) (user : obj) (candidatePassword : string)
  : bool :=
  bcrypt_compare lib candidatePassword (toString (get "password" user)).

(** [user.toJSON()] *)
Definition toJSON (this : obj) : obj :=
  let user := this in
  let user := del "password" user in
  let user := del "__v" user in
  user.

(* ================================================================== *)
(** * models/User.ts: the helper functions *)
(* ================================================================== *)

Definition or_empty (v : value) : string :=
  if truthy v then toString v else "".

(** [sanitizeUserForPublic(user)] *)
Definition sanitizeUserForPublic (lib : Lib) (dr : Draw) (user : value)
  : result value :=
  publicUser <- parse lib dr UserPublicSchema user ;;
  let age :=
    if truthy (prop "date_of_birth" user) then
      match new_Date lib (prop "date_of_birth" user) with
      | Some birthDate => string_of_Z (years_old (tz lib) (now dr) birthDate)
      | None => "NaN"
      end
    else "0" in
  let fullName :=
    or_empty (prop "first_name" user) ++ " "
    ++ (if truthy (prop "middle_name" user)
        then toString (prop "middle_name" user) ++ " " else "")
    ++ or_empty (prop "last_name" user)
    ++ (if truthy (prop "suffix" user)
        then " " ++ toString (prop "suffix" user) else "") in
  Ok (VObj (set "is_pwd_verified" (prop "is_verified" user)
           (set "full_name" (VStr (trim fullName))
           (set "age_display" (VStr (age ++ " years"))
           (spread publicUser))))).

(** [transformForMongoose(data)].  [contact_number.replace] exists on
    strings only: any other truthy value raises a [TypeError]. *)
Definition transformForMongoose (lib : Lib) (data : value) : result obj :=
  let transformed := spread data in
  let transformed :=
    if truthy (get "form_id" transformed) then del "form_id" transformed
    else transformed in
  let transformed := set "form_id" VNull transformed in
  let transformed :=
    match get "date_of_birth" transformed with
    | VStr d =>
        if truthy (VStr d)
        then set "date_of_birth" (VDate (Date_parse lib d)) transformed
        else transformed
    | _ => transformed
    end in
  if truthy (get "contact_number" transformed) then
    match get "contact_number" transformed with
    | VStr c => Ok (set "contact_number" (VStr (transform_contact c)) transformed)
    | _ => Throw (TypeError "transformed.contact_number.replace is not a function")
    end
  else Ok transformed.

(* ================================================================== *)
(** * utils/validation.ts and utils/transform.ts *)
(* ================================================================== *)

(** [x.toObject ? x.toObject() : x].  A Mongoose document is modelled by its
    plain object, so [toObject()] returns it; on any other value that has a
    truthy [toObject] property, the call is a [TypeError]. *)
Definition toObject_or_self (x : value) : result value :=
  if truthy (prop "toObject" x)
  then Throw (TypeError "toObject is not a function")
  else Ok x.

(** [HybridValidator.sanitizeUser(user)] *)
Definition sanitizeUser (user : value) : result value :=
  if negb (truthy user) then Ok user
  else
    userObj <- toObject_or_self user ;;
    let sanitized := del "__v" (del "password" (spread userObj)) in
    Ok (VObj sanitized).

(** [DataTransformer.toPlain(document)] *)
Definition toPlain (document : value) : result value :=
  if negb (truthy document) then Ok document
  else
    o <- toObject_or_self document ;;
    Ok (match o with
        | VObj fields => VObj (del "password" (del "__v" fields))
        | _ => o
        end).

(* ================================================================== *)
(** * controllers/userController.ts *)
(* ================================================================== *)

(** [generateToken(userId, role)] *)
Definition generateToken (lib : Lib) (dr : Draw) (userId role : string) : string :=
  jwt_sign lib userId role (now dr).

Definition issue_to_field (i : issue) : value :=
  VObj [("field", VStr (join "." (issue_path i)));
        ("message", VStr (issue_message i))].

Definition respond (s : Z) (fields : obj) : response :=
  {| status := s; json := VObj fields |}.

Definition email_taken : response :=
  respond 400 [
    ("success", VBool false);
    ("message",
     VStr "This email is already registered. Please use a different email or try logging in.");
    ("field", VStr "email")].

Definition contact_taken : response :=
  respond 400 [
    ("success", VBool false);
    ("message",
     VStr "This contact number is already registered. Please use a different number.");
    ("field", VStr "contact_number")].

(** The [try] block of [register]. *)
Definition register_try (lib : Lib) (dr : Draw) (req_body : value)
    (db : collection) : result (response * collection) :=
  userData <- validateUserRegister lib dr req_body ;;
  let existingUser := UserModel_findOne lib "email" (prop "email" userData) db in
  match existingUser with
  | Some _ => Ok (email_taken, db)
  | None =>
      let existingContact :=
        UserModel_findOne lib "contact_number" (prop "contact_number" userData) db in
      match existingContact with
      | Some _ => Ok (contact_taken, db)
      | None =>
          mongooseData <- transformForMongoose lib userData ;;
          let mongooseData := set "form_id" VNull mongooseData in
          let mongooseData := set "is_verified" (VBool false) mongooseData in
          let mongooseData := set "is_email_verified" (VBool false) mongooseData in
          let mongooseData := set "status" (VStr "Pending") mongooseData in
          let mongooseData := set "role" (VStr "User") mongooseData in
          created <- UserModel_create lib dr (VObj mongooseData) db ;;
          let '(user, db') := created in
          let token :=
            generateToken lib dr (toString (get "_id" user))
                          (toString (get "role" user)) in
          let userResponse := [
            ("_id", get "_id" user);
            ("user_id", get "user_id" user);
            ("first_name", get "first_name" user);
            ("middle_name", get "middle_name" user);
            ("last_name", get "last_name" user);
            ("suffix", get "suffix" user);
            ("sex", get "sex" user);
            ("age", get "age" user);
            ("date_of_birth", get "date_of_birth" user);
            ("address", get "address" user);
            ("contact_number", get "contact_number" user);
            ("email", get "email" user);
            ("role", get "role" user);
            ("status", get "status" user);
            ("is_verified", get "is_verified" user);
            ("is_email_verified", get "is_email_verified" user);
            ("created_at", get "created_at" user);
            ("updated_at", get "updated_at" user)] in
          Ok (respond 201 [
                ("success", VBool true);
                ("message",
                 VStr "Registration successful! Please check your email for verification instructions.");
                ("data", VObj [("user", VObj userResponse);
                               ("token", VStr token)])],
              db')
      end
  end.

(** The [catch] block of [register]. *)
Definition register_catch (error : exn) : response :=
  let failed :=
    respond 500 [
      ("success", VBool false);
      ("message", VStr "Registration failed. Please try again later.")] in
  match error with
  | MongoServerError code keyPattern =>
      if (code =? 11000)%Z then
        if truthy (get "email" keyPattern) then email_taken
        else if truthy (get "contact_number" keyPattern) then contact_taken
        else if truthy (get "user_id" keyPattern) then
          respond 400 [
            ("success", VBool false);
            ("message", VStr "Registration failed. Please try again.");
            ("field", VStr "user_id")]
        else
          respond 400 [
            ("success", VBool false);
            ("message",
             VStr "Registration failed. This information is already registered.")]
      else failed
  | ZodError errors =>
      respond 400 [
        ("success", VBool false);
        ("message", VStr "Validation failed");
        ("errors", VArr (map issue_to_field errors))]
  | ValidationError errors =>
      respond 400 [
        ("success", VBool false);
        ("message", VStr "Validation error");
        ("errors",
         VArr (map (fun e => VObj [("field", VStr (fst e));
                                   ("message", VStr (snd e))]) errors))]
  | TypeError _ => failed
  | DocumentNotFoundError => failed
  end.

(** [register]: the response and the collection after the request. *)
Definition register (lib : Lib) (dr : Draw) (req_body : value) (db : collection)
  : response * collection :=
  match register_try lib dr req_body db with
  | Ok r => r
  | Throw error => (register_catch error, db)
  end.

(** The [try] block of [login]. *)
Definition login_try (lib : Lib) (dr : Draw) (req_body : value)
    (db : collection) : result (response * collection) :=
  loginData <- parse lib dr UserLoginSchema req_body ;;
  match UserModel_findOne lib "email" (prop "email" loginData) db with
  | None =>
      Ok (respond 401 [
            ("success", VBool false);
            ("message", VStr "Invalid email or password");
            ("field", VStr "email")], db)
  | Some user =>
      if is_str "Suspended" (get "status" user) then
        Ok (respond 403 [
              ("success", VBool false);
              ("message",
               VStr "Your account has been suspended. Please contact support.")], db)
      else if is_str "Inactive" (get "status" user) then
        Ok (respond 403 [
              ("success", VBool false);
              ("message",
               VStr "Your account is inactive. Please contact support.")], db)
      else
        let isMatch :=
          comparePassword lib user (toString (prop "password" loginData)) in
        if negb isMatch then
          Ok (respond 401 [
                ("success", VBool false);
                ("message", VStr "Invalid email or password");
                ("field", VStr "password")], db)
        else
          let user :=
            if is_str "Pending" (get "status" user)
            then set "status" (VStr "Active") user else user in
          let user := set "updated_at" (VDate (Some (now dr))) user in
          saved <- save lib dr false false [] user db ;;
          let '(user, db') := saved in
          let token :=
            generateToken lib dr (toString (get "_id" user))
                          (toString (get "role" user)) in
          let userResponse := [
            ("_id", get "_id" user);
            ("user_id", get "user_id" user);
            ("form_id", get "form_id" user);
            ("first_name", get "first_name" user);
            ("middle_name", get "middle_name" user);
            ("last_name", get "last_name" user);
            ("suffix", get "suffix" user);
            ("sex", get "sex" user);
            ("age", get "age" user);
            ("date_of_birth", get "date_of_birth" user);
            ("address", get "address" user);
            ("contact_number", get "contact_number" user);
            ("email", get "email" user);
            ("role", get "role" user);
            ("status", get "status" user);
            ("is_verified", get "is_verified" user);
            ("is_email_verified", get "is_email_verified" user);
            ("created_at", get "created_at" user);
            ("updated_at", get "updated_at" user)] in
          Ok (respond 200 [
                ("success", VBool true);
                ("message", VStr "Login successful");
                ("data", VObj [("user", VObj userResponse);
                               ("token", VStr token)])],
              db')
  end.

(** The [catch] block of [login]. *)
Definition login_catch (error : exn) : response :=
  match error with
  | ZodError errors =>
      respond 400 [
        ("success", VBool false);
        ("message", VStr "Validation failed");
        ("errors", VArr (map issue_to_field errors))]
  | _ =>
      respond 500 [
        ("success", VBool false);
        ("message", VStr "Login failed. Please try again later.")]
  end.

Definition login (lib : Lib) (dr : Draw) (req_body : value) (db : collection)
  : response * collection :=
  match login_try lib dr req_body db with
  | Ok r => r
  | Throw error => (login_catch error, db)
  end.

(** ** The first controller of the file: [registerUser] and [loginUser] *)

(** An issue as [error.errors] lists it (of its keys, the path and the
    message are modelled). *)
Definition issue_to_value (i : issue) : value :=
  VObj [("path", VArr (map VStr (issue_path i)));
        ("message", VStr (issue_message i))].

Definition exn_message (e : exn) : string :=
  match e with
  | ZodError _ => "Validation error"
  | TypeError m => m
  | MongoServerError _ _ => "E11000 duplicate key error"
  | ValidationError _ => "User validation failed"
  | DocumentNotFoundError => "No document found for query"
  end.

Definition registerUser (lib : Lib) (dr : Draw) (req_body : value) : response :=
  match (userData <- validateUserRegister lib dr req_body ;;
         sanitizeUserForPublic lib dr userData) with
  | Ok sanitizedUser =>
      respond 201 [
        ("success", VBool true);
        ("message", VStr "User registered successfully");
        ("data", sanitizedUser)]
  | Throw (ZodError errors) =>
      respond 400 [
        ("success", VBool false);
        ("message", VStr "Validation error");
        ("errors", VArr (map issue_to_value errors))]
  | Throw error =>
      respond 500 [
        ("success", VBool false);
        ("message", VStr "Server error");
        ("error", VStr (exn_message error))]
  end.

Definition loginUser (lib : Lib) (dr : Draw) (req_body : value) : response :=
  match validateUserLogin lib dr req_body with
  | Ok loginData =>
      respond 200 [
        ("success", VBool true);
        ("message", VStr "Login successful");
        ("token", VStr "jwt_token_here");
        ("user", VObj [("email", prop "email" loginData)])]
  | Throw (ZodError errors) =>
      respond 400 [
        ("success", VBool false);
        ("message", VStr "Validation error");
        ("errors", VArr (map issue_to_value errors))]
  | Throw error =>
      respond 401 [
        ("success", VBool false);
        ("message", VStr "Invalid credentials");
        ("error", VStr (exn_message error))]
  end.

(* ================================================================== *)
(** * routes/authRoutes.ts *)
(* ================================================================== *)

(** [router.post("/register", registerValidator, validate, register)] *)
Definition post_register (lib : Lib) (dr : Draw) (req_body : value)
    (db : collection) : response * collection :=
  let '(sanitized, errors) := run_chains lib (now dr) registerValidator req_body in
  match validate errors with
  | Some res => (res, db)
  | None => register lib dr sanitized db
  end.

(** [router.post("/login", loginValidator, validate, login)] *)
Definition post_login (lib : Lib) (dr : Draw) (req_body : value)
    (db : collection) : response * collection :=
  let '(sanitized, errors) := run_chains lib (now dr) loginValidator req_body in
  match validate errors with
  | Some res => (res, db)
  | None => login lib dr sanitized db
  end.

(* ================================================================== *)
(** * An instance of the environment, for the examples *)
(* ================================================================== *)

Fixpoint count_char (c : ascii) (s : string) : nat :=
  match s with
  | EmptyString => 0
  | String c' r => (if Ascii.eqb c c' then 1 else 0) + count_char c r
  end.

(** A plain e-mail shape: one [@], no blank, a dot after the [@], and
    neither part empty. *)
Definition plain_email (s : string) : bool :=
  (count_char "@" s =? 1)%nat
  && forallb_str (fun c => negb (isSpace c)) s
  && match split_dot_acc s EmptyString with
     | _ :: _ :: _ => true
     | _ => false
     end
  && negb (startsWith s "@")
  && negb (startsWith (rev_str s) ".")
  && negb (startsWith (rev_str s) "@").

Definition two_digits (a b : ascii) : Z :=
  (Z.of_nat (nat_of_ascii a - 48) * 10 + Z.of_nat (nat_of_ascii b - 48))%Z.

(** [Date.parse] on the date-only form [YYYY-MM-DD]: midnight UTC of that
    day; a month outside 1..12 or a day outside 1..31 is not a date. *)
Definition parse_iso_date (s : string) : option Z :=
  if re_date s then
    match s with
    | String y1 (String y2 (String y3 (String y4 (String _
        (String m1 (String m2 (String _ (String d1 (String d2 _))))))))) =>
        let y := (two_digits y1 y2 * 100 + two_digits y3 y4)%Z in
        let m := two_digits m1 m2 in
        let d := two_digits d1 d2 in
        if ((1 <=? m) && (m <=? 12) && (1 <=? d) && (d <=? 31))%Z
        then Some ((days_from_civil y m 1 + (d - 1)) * ms_per_day)%Z
        else None
    | _ => None
    end
  else None.

(** The standard offsets of a server in the Philippines: local mean time
    15:56 behind UTC until the end of 1844, 8:04 ahead of it until May 1899,
    eight hours ahead since (the daylight-saving summers of the twentieth
    century are not part of the sample). *)
Definition manila_offset (t : Z) : Z :=
  (if t <? -3944621040000 then -57360000
   else if t <? -2229321840000 then 29040000
   else 28800000)%Z.

(** A server in the Philippines, a validator that reads an address without
    regard to case, a Zod that returns defaults as they are, and stand-ins
    for the hash and the token. *)
Definition sample_lib : Lib := {|
  tz := manila_offset;
  Date_parse := parse_iso_date;
  isEmail := fun s => plain_email (toLowerCase s);
  normalizeEmail := fun s => Some (toLowerCase s);
  isISO8601 := re_date;
  zod_email := plain_email;
  zod_url := fun s => startsWith s "http://" || startsWith s "https://";
  zod_default_parsed := false;
  bcrypt_hash := fun salt p => "$2a$10$" ++ salt ++ "$" ++ p;
  bcrypt_compare := fun candidate h =>
    startsWith (rev_str h) (rev_str ("$" ++ candidate));
  jwt_sign := fun userId role _ => "jwt." ++ userId ++ "." ++ role
|}.

(** The same environment with a Zod that parses a default with the inner
    schema. *)
Definition sample_lib_zod3 : Lib := {|
  tz := tz sample_lib;
  Date_parse := Date_parse sample_lib;
  isEmail := isEmail sample_lib;
  normalizeEmail := normalizeEmail sample_lib;
  isISO8601 := isISO8601 sample_lib;
  zod_email := zod_email sample_lib;
  zod_url := zod_url sample_lib;
  zod_default_parsed := true;
  bcrypt_hash := bcrypt_hash sample_lib;
  bcrypt_compare := bcrypt_compare sample_lib;
  jwt_sign := jwt_sign sample_lib
|}.

(** 2023-02-28 10:00 in Manila. *)
Definition sample_draw : Draw := {|
  now := 1677549600000;
  salt := "c2FsdA";
  random5 := "K3X9Q";
  objectId := "65f0c0ffee0000000000a001"
|}.

Definition sample_address : value := VObj [
  ("street", VStr "12 Rizal St");
  ("barangay", VStr "Bonuan Binloc");
  ("city_municipality", VStr "Dagupan City");
  ("province", VStr "Pangasinan");
  ("region", VStr "Region I");
  ("zip_code", VStr "2400")].

Definition sample_registration : value := VObj [
  ("first_name", VStr "Maria");
  ("last_name", VStr "Santos");
  ("sex", VStr "Female");
  ("date_of_birth", VStr "2000-02-29");
  ("address", sample_address);
  ("contact_number", VStr "09171234567");
  ("email", VStr "Maria.Santos@Example.com");
  ("password", VStr "s3cretpass")].

(** The record that registering [sample_registration] stores. *)
Definition sample_user : obj := [
  ("_id", VStr "65f0c0ffee0000000000a001");
  ("user_id", VStr "PDAO-20230228-K3X9Q");
  ("form_id", VNull);
  ("first_name", VStr "Maria");
  ("middle_name", VStr "");
  ("last_name", VStr "Santos");
  ("suffix", VStr "");
  ("sex", VStr "Female");
  ("age", VNum 22);
  ("date_of_birth", VDate (Some 951782400000%Z));
  ("address", VObj [
     ("street", VStr "12 Rizal St");
     ("barangay", VStr "Bonuan Binloc");
     ("city_municipality", VStr "Dagupan City");
     ("province", VStr "Pangasinan");
     ("region", VStr "Region I");
     ("zip_code", VStr "2400");
     ("country", VStr "Philippines");
     ("type", VStr "Permanent")]);
  ("contact_number", VStr "09171234567");
  ("avatar_url", VNull);
  ("email", VStr "maria.santos@example.com");
  ("password", VStr "$2a$10$c2FsdA$s3cretpass");
  ("role", VStr "User");
  ("status", VStr "Pending");
  ("is_verified", VBool false);
  ("is_email_verified", VBool false);
  ("created_by", VNull);
  ("updated_by", VNull);
  ("created_at", VDate (Some 1677549600000%Z));
  ("updated_at", VDate (Some 1677549600000%Z));
  ("__v", VNum 0)].

(** The same account after an administrator suspended it. *)
Definition suspended_user : obj := set "status" (VStr "Suspended") sample_user.

(** The same account with an age that is out of date. *)
Definition stale_user : obj := set "age" (VNum 99) sample_user.

(** A payload that asks for privileges. *)
Definition elevated_registration : value :=
  VObj (set "is_email_verified" (VBool true)
         (set "is_verified" (VBool true)
            (set "status" (VStr "Active")
               (set "role" (VStr "Admin") (spread sample_registration))))).

(** The same with a [form_id], as the handler could receive it from a route
    that does not run the validators. *)
Definition elevated_registration_with_form_id : value :=
  VObj (set "form_id" (VStr "FORM-20230228-AAAAA")
         (spread elevated_registration)).

(** A payload with a [form_id] key that holds [null]. *)
Definition registration_with_form_id : obj :=
  set "form_id" VNull (spread sample_registration).

(** A payload whose address has no [zip_code]. *)
Definition registration_without_zip : obj :=
  set "address"
      (VObj [("street", VStr "12 Rizal St");
             ("barangay", VStr "Bonuan Binloc");
             ("city_municipality", VStr "Dagupan City");
             ("province", VStr "Pangasinan");
             ("region", VStr "Region I")])
      (spread sample_registration).

Definition sample_login : value := VObj [
  ("email", VStr "Maria.Santos@Example.com");
  ("password", VStr "s3cretpass")].

Definition wrong_password_login : value := VObj [
  ("email", VStr "maria.santos@example.com");
  ("password", VStr "not-the-password")].

Definition unknown_email_login : value := VObj [
  ("email", VStr "nobody@example.com");
  ("password", VStr "s3cretpass")].

(* ================================================================== *)
(** * The cascading address picker (PhilippineAddressPicker) *)
(* ================================================================== *)

Module AddressPicker.

Inductive Step : Type := region | province | city | barangay.

Record AddressItem : Type := {
  id : string;
  name : string
}.

(** The argument of the [onSelect] callback. *)
Record Address : Type := {
  address_region : string;
  address_province : string;
  address_city : string;
  address_barangay : string
}.

(** The calls the component makes to its parent. *)
Inductive callback : Type :=
| onSelect (address : Address)
| onClose.

(** The [useState] cells of the component. *)
Record State : Type := {
  step : Step;
  selectedRegion : option AddressItem;
  selectedProvince : option AddressItem;
  selectedCity : option AddressItem;
  selectedBarangay : option AddressItem;
  searchQuery : string;
  regions : list AddressItem;
  provinces : list AddressItem;
  cities : list AddressItem;
  barangays : list AddressItem;
  isLoading : bool;
  error : option string
}.

Definition initial : State := {|
  step := region;
  selectedRegion := None;
  selectedProvince := None;
  selectedCity := None;
  selectedBarangay := None;
  searchQuery := "";
  regions := [];
  provinces := [];
  cities := [];
  barangays := [];
  isLoading := false;
  error := None
|}.

(** The setters. *)
Definition setStep (x : Step) (s : State) : State :=
  {| step := x; selectedRegion := selectedRegion s;
     selectedProvince := selectedProvince s; selectedCity := selectedCity s;
     selectedBarangay := selectedBarangay s; searchQuery := searchQuery s;
     regions := regions s; provinces := provinces s; cities := cities s;
     barangays := barangays s; isLoading := isLoading s; error := error s |}.

Definition setSelectedRegion (x : option AddressItem) (s : State) : State :=
  {| step := step s; selectedRegion := x;
     selectedProvince := selectedProvince s; selectedCity := selectedCity s;
     selectedBarangay := selectedBarangay s; searchQuery := searchQuery s;
     regions := regions s; provinces := provinces s; cities := cities s;
     barangays := barangays s; isLoading := isLoading s; error := error s |}.

Definition setSelectedProvince (x : option AddressItem) (s : State) : State :=
  {| step := step s; selectedRegion := selectedRegion s;
     selectedProvince := x; selectedCity := selectedCity s;
     selectedBarangay := selectedBarangay s; searchQuery := searchQuery s;
     regions := regions s; provinces := provinces s; cities := cities s;
     barangays := barangays s; isLoading := isLoading s; error := error s |}.

Definition setSelectedCity (x : option AddressItem) (s : State) : State :=
  {| step := step s; selectedRegion := selectedRegion s;
     selectedProvince := selectedProvince s; selectedCity := x;
     selectedBarangay := selectedBarangay s; searchQuery := searchQuery s;
     regions := regions s; provinces := provinces s; cities := cities s;
     barangays := barangays s; isLoading := isLoading s; error := error s |}.

Definition setSelectedBarangay (x : option AddressItem) (s : State) : State :=
  {| step := step s; selectedRegion := selectedRegion s;
     selectedProvince := selectedProvince s; selectedCity := selectedCity s;
     selectedBarangay := x; searchQuery := searchQuery s;
     regions := regions s; provinces := provinces s; cities := cities s;
     barangays := barangays s; isLoading := isLoading s; error := error s |}.

Definition setSearchQuery (x : string) (s : State) : State :=
  {| step := step s; selectedRegion := selectedRegion s;
     selectedProvince := selectedProvince s; selectedCity := selectedCity s;
     selectedBarangay := selectedBarangay s; searchQuery := x;
     regions := regions s; provinces := provinces s; cities := cities s;
     barangays := barangays s; isLoading := isLoading s; error := error s |}.

Definition setRegions (x : list AddressItem) (s : State) : State :=
  {| step := step s; selectedRegion := selectedRegion s;
     selectedProvince := selectedProvince s; selectedCity := selectedCity s;
     selectedBarangay := selectedBarangay s; searchQuery := searchQuery s;
     regions := x; provinces := provinces s; cities := cities s;
     barangays := barangays s; isLoading := isLoading s; error := error s |}.

Definition setProvinces (x : list AddressItem) (s : State) : State :=
  {| step := step s; selectedRegion := selectedRegion s;
     selectedProvince := selectedProvince s; selectedCity := selectedCity s;
     selectedBarangay := selectedBarangay s; searchQuery := searchQuery s;
     regions := regions s; provinces := x; cities := cities s;
     barangays := barangays s; isLoading := isLoading s; error := error s |}.

Definition setCities (x : list AddressItem) (s : State) : State :=
  {| step := step s; selectedRegion := selectedRegion s;
     selectedProvince := selectedProvince s; selectedCity := selectedCity s;
     selectedBarangay := selectedBarangay s; searchQuery := searchQuery s;
     regions := regions s; provinces := provinces s; cities := x;
     barangays := barangays s; isLoading := isLoading s; error := error s |}.

Definition setBarangays (x : list AddressItem) (s : State) : State :=
  {| step := step s; selectedRegion := selectedRegion s;
     selectedProvince := selectedProvince s; selectedCity := selectedCity s;
     selectedBarangay := selectedBarangay s; searchQuery := searchQuery s;
     regions := regions s; provinces := provinces s; cities := cities s;
     barangays := x; isLoading := isLoading s; error := error s |}.

Definition setIsLoading (x : bool) (s : State) : State :=
  {| step := step s; selectedRegion := selectedRegion s;
     selectedProvince := selectedProvince s; selectedCity := selectedCity s;
     selectedBarangay := selectedBarangay s; searchQuery := searchQuery s;
     regions := regions s; provinces := provinces s; cities := cities s;
     barangays := barangays s; isLoading := x; error := error s |}.

Definition setError (x : option string) (s : State) : State :=
  {| step := step s; selectedRegion := selectedRegion s;
     selectedProvince := selectedProvince s; selectedCity := selectedCity s;
     selectedBarangay := selectedBarangay s; searchQuery := searchQuery s;
     regions := regions s; provinces := provinces s; cities := cities s;
     barangays := barangays s; isLoading := isLoading s; error := x |}.

(** [a.includes(b)] *)
Fixpoint includes (a b : string) : bool :=
  String.prefix b a
  || match a with
     | EmptyString => false
     | String _ r => includes r b
     end.

Definition getFilteredData (s : State) : list AddressItem :=
  let data :=
    match step s with
    | region => regions s
    | province => provinces s
    | city => cities s
    | barangay => barangays s
    end in
  if String.eqb (trim (searchQuery s)) "" then data
  else filter (fun item => includes (toLowerCase (name item))
                                    (toLowerCase (searchQuery s))) data.

(** The event handlers: the new state and the callbacks made. *)
Definition handleRegionSelect (r : AddressItem) (s : State)
  : State * list callback :=
  (s .> setSelectedRegion (Some r)
     .> setSelectedProvince None
     .> setSelectedCity None
     .> setSelectedBarangay None
     .> setProvinces []
     .> setCities []
     .> setBarangays []
     .> setSearchQuery ""
     .> setStep province, []).

Definition handleProvinceSelect (p : AddressItem) (s : State)
  : State * list callback :=
  (s .> setSelectedProvince (Some p)
     .> setSelectedCity None
     .> setSelectedBarangay None
     .> setCities []
     .> setBarangays []
     .> setSearchQuery ""
     .> setStep city, []).

Definition handleCitySelect (c : AddressItem) (s : State)
  : State * list callback :=
  (s .> setSelectedCity (Some c)
     .> setSelectedBarangay None
     .> setBarangays []
     .> setSearchQuery ""
     .> setStep barangay, []).

Definition handleBarangaySelect (b : AddressItem) (s : State)
  : State * list callback :=
  let s' := setSelectedBarangay (Some b) s in
  match selectedRegion s, selectedProvince s, selectedCity s with
  | Some r, Some p, Some c =>
      (s', [onSelect {| address_region := name r;
                        address_province := name p;
                        address_city := name c;
                        address_barangay := name b |};
            onClose])
  | _, _, _ => (s', [])
  end.

Definition goBack (s : State) : State * list callback :=
  let s' :=
    match step s with
    | barangay => setStep city s
    | city => setStep province s
    | province => setStep region s
    | region => s
    end in
  (setSearchQuery "" s', []).

Definition resetSelection (s : State) : State * list callback :=
  (s .> setSelectedRegion None
     .> setSelectedProvince None
     .> setSelectedCity None
     .> setSelectedBarangay None
     .> setProvinces []
     .> setCities []
     .> setBarangays []
     .> setStep region
     .> setSearchQuery ""
     .> setError None, []).

(** [renderItem]'s [onPress] *)
Definition onPress (item : AddressItem) (s : State) : State * list callback :=
  match step s with
  | region => handleRegionSelect item s
  | province => handleProvinceSelect item s
  | city => handleCitySelect item s
  | barangay => handleBarangaySelect item s
  end.

Definition is_some {A : Type} (o : option A) : bool :=
  match o with Some _ => true | None => false end.

(** What can happen to the component: the user's gestures, and the
    completions of the asynchronous loads and of the effect that preselects
    the region of [initialAddress]. *)
Inductive action : Type :=
| PressItem (item : AddressItem)
| PressBack
| PressBreadcrumb (target : Step)
| PressReset
| PressClose
| ChangeSearchText (q : string)
| LoadStarted
| LoadSucceeded (level : Step) (items : list AddressItem)
| LoadFailed (message : string)
| LoadSettled
| InitialRegionFound (r : AddressItem).

(** One transition; [None] when the control is not on screen: list items
    are shown only while nothing is loading, the back arrow only past the
    region step, and a breadcrumb only when the level above it has a
    selection. *)
Definition react (a : action) (s : State) : option (State * list callback) :=
  match a with
  | PressItem item =>
      if negb (isLoading s)
         && existsb (fun i => String.eqb (id i) (id item)
                              && String.eqb (name i) (name item))
                    (getFilteredData s)
      then Some (onPress item s) else None
  | PressBack =>
      match step s with
      | region => None
      | _ => Some (goBack s)
      end
  | PressBreadcrumb target =>
      let shown :=
        match target with
        | region => true
        | province => is_some (selectedRegion s)
        | city => is_some (selectedProvince s)
        | barangay => is_some (selectedCity s)
        end in
      if shown then Some (s .> setStep target .> setSearchQuery "", []) else None
  | PressReset => Some (resetSelection s)
  | PressClose => Some (s, [onClose])
  | ChangeSearchText q => Some (setSearchQuery q s, [])
  | LoadStarted => Some (s .> setIsLoading true .> setError None, [])
  | LoadSucceeded level items =>
      Some (match level with
            | region => setRegions items s
            | province => setProvinces items s
            | city => setCities items s
            | barangay => setBarangays items s
            end, [])
  | LoadFailed message => Some (setError (Some message) s, [])
  | LoadSettled => Some (setIsLoading false s, [])
  | InitialRegionFound r =>
      if existsb (fun i => String.eqb (id i) (id r) && String.eqb (name i) (name r))
                 (regions s)
      then Some (setSelectedRegion (Some r) s, []) else None
  end.

(** Run a sequence of actions, collecting the callbacks. *)
Fixpoint run (acts : list action) (s : State) : option (State * list callback) :=
  match acts with
  | [] => Some (s, [])
  | a :: rest =>
      match react a s with
      | Some (s', cbs) =>
          match run rest s' with
          | Some (s'', cbs') => Some (s'', (cbs ++ cbs')%list)
          | None => None
          end
      | None => None
      end
  end.

Inductive reachable : State -> Prop :=
| reachable_initial : reachable initial
| reachable_react : forall s a s' cbs,
    reachable s -> react a s = Some (s', cbs) -> reachable s'.

(** In every state the component can be in, a step past the region has the
    selections of the levels above it. *)
Definition consistent (s : State) : Prop :=
  (step s <> region -> selectedRegion s <> None)
  /\ (step s = city \/ step s = barangay -> selectedProvince s <> None)
  /\ (step s = barangay -> selectedCity s <> None)
  /\ (selectedCity s <> None -> selectedProvince s <> None)
  /\ (selectedProvince s <> None -> selectedRegion s <> None).

(** The address that a barangay completes. *)
Definition final_address (r p c b : AddressItem) : Address :=
  {| address_region := name r; address_province := name p;
     address_city := name c; address_barangay := name b |}.

Definition item (i n : string) : AddressItem := {| id := i; name := n |}.

(** The scenario of the specification, with a search text typed at the last
    step. *)
Definition scenario : list action := [
  LoadSucceeded region [item "01" "Region I"; item "02" "Region II"];
  PressItem (item "01" "Region I");
  LoadSucceeded province [item "0155" "Pangasinan"; item "0128" "Ilocos Norte"];
  PressItem (item "0155" "Pangasinan");
  LoadSucceeded city [item "015518" "Dagupan City"];
  PressItem (item "015518" "Dagupan City");
  LoadSucceeded barangay [item "015518005" "Bonuan Binloc";
                          item "015518006" "Bonuan Boquig"];
  ChangeSearchText "bin";
  PressItem (item "015518005" "Bonuan Binloc")
].

(** The state in which [scenario] leaves the component. *)
Definition scenario_end : State := {|
  step := barangay;
  selectedRegion := Some (item "01" "Region I");
  selectedProvince := Some (item "0155" "Pangasinan");
  selectedCity := Some (item "015518" "Dagupan City");
  selectedBarangay := Some (item "015518005" "Bonuan Binloc");
  searchQuery := "bin";
  regions := [item "01" "Region I"; item "02" "Region II"];
  provinces := [item "0155" "Pangasinan"; item "0128" "Ilocos Norte"];
  cities := [item "015518" "Dagupan City"];
  barangays := [item "015518005" "Bonuan Binloc";
                item "015518006" "Bonuan Boquig"];
  isLoading := false;
  error := None
|}.

End AddressPicker.

(* ================================================================== *)
(** * middleware/auth.ts: [authenticate] and [authorize] *)
(* ================================================================== *)

Module AuthMiddleware.

(** The decoded payload of a token that [generateToken] signed. *)
Record JwtPayload : Type := {
  userId : string;
  role : string
}.

(** What a failed step of [authenticate] throws, as its [catch] block reads
    it: an error of the token library with its answers to the two
    [instanceof] tests, or any other error (a cast error of [findById], a
    [TypeError]). *)
Inductive thrown : Type :=
| JwtThrown (isJsonWebTokenError isTokenExpiredError : bool)
| OtherError.

(** [jwt.verify] with the server's secret, and the test that Mongoose makes
    of a string before it casts it to an [ObjectId]. *)
Record Env : Type := {
  jwt_verify : string -> JwtPayload + thrown;
  isValidObjectId : string -> bool
}.

(** [s.replace(pattern, replacement)] for a string pattern that is not
    empty: the first occurrence is replaced. *)
Fixpoint replace (pattern replacement s : string) : string :=
  if String.prefix pattern s
  then replacement ++ substring_from (String.length pattern) s
  else match s with
       | EmptyString => EmptyString
       | String c r => String c (replace pattern replacement r)
       end.

(** [UserModel.findById(id)] for a string [id]. *)
Definition findById (env : Env) (id : string) (db : collection)
  : option obj + thrown :=
  if isValidObjectId env id
  then inl (find (fun d => is_str id (get "_id" d)) db)
  else inr OtherError.

(** What the middleware does: it answers, or it calls [next()] with
    [req.user] set. *)
Inductive outcome : Type :=
| Responded (res : response)
| Next (req_user : obj).

(** The [catch] block of [authenticate]. *)
Definition authenticate_catch (error : thrown) : response :=
  match error with
  | JwtThrown true _ =>
      respond 401 [("success", VBool false); ("message", VStr "Invalid token")]
  | JwtThrown false true =>
      respond 401 [("success", VBool false); ("message", VStr "Token expired")]
  | _ =>
      respond 500 [("success", VBool false);
                   ("message", VStr "Authentication error")]
  end.

(** [authenticate], on the [Authorization] header of the request. *)
Definition authenticate (env : Env) (authorization : option string)
    (db : collection) : outcome :=
  let token := option_map (replace "Bearer " "") authorization in
  match token with
  | Some (String c r) =>
      match jwt_verify env (String c r) with
      | inl decoded =>
          match findById env (userId decoded) db with
          | inl None =>
              Responded (respond 401 [("success", VBool false);
                                      ("message", VStr "User not found")])
          | inl (Some user) =>
              if negb (is_str "Active" (get "status" user)) then
                match get "status" user with
                | VStr st =>
                    Responded
                      (respond 403 [
                         ("success", VBool false);
                         ("message",
                          VStr ("Account is " ++ toLowerCase st
                                ++ ". Please contact support."))])
                | _ => Responded (authenticate_catch OtherError)
                end
              else Next user
          | inr error => Responded (authenticate_catch error)
          end
      | inr error => Responded (authenticate_catch error)
      end
  | _ =>
      Responded (respond 401 [("success", VBool false);
                              ("message",
                               VStr "Access denied. No token provided.")])
  end.

(** [authorize(...roles)] on [req.user]; [None] is [next()]. *)
Definition authorize (roles : list string) (req_user : option obj)
  : option response :=
  match req_user with
  | None =>
      Some (respond 401 [("success", VBool false);
                         ("message", VStr "Authentication required")])
  | Some user =>
      if negb (existsb (fun r => is_str r (get "role" user)) roles) then
        Some (respond 403 [
                ("success", VBool false);
                ("message",
                 VStr ("Access denied. Required roles: " ++ join ", " roles))])
      else None
  end.

(** An environment for the examples: the token of the sample account, a
    token that has expired, and tokens that do not verify. *)
Definition sample_env : Env := {|
  jwt_verify := fun t =>
    if String.eqb t "jwt.65f0c0ffee0000000000a001.User"
    then inl {| userId := "65f0c0ffee0000000000a001"; role := "User" |}
    else if String.eqb t "expired" then inr (JwtThrown true true)
    else inr (JwtThrown true false);
  isValidObjectId := fun id => (String.length id =? 24)%nat
|}.

(** The sample account once a login has activated it. *)
Definition active_user : obj := set "status" (VStr "Active") sample_user.

End AuthMiddleware.

(* ================================================================== *)
(** * stores/authStore.ts *)
(* ================================================================== *)

Module AuthStore.

Record AuthState : Type := {
  user : option obj;
  token : option string;
  isAuthenticated : bool;
  isLoading : bool;
  error : option string
}.

Definition initial : AuthState :=
  {| user := None; token := None; isAuthenticated := false;
     isLoading := false; error := None |}.

(** [{...a, ...b}] *)
Definition merge (a b : obj) : obj :=
  fold_left (fun o p => set (fst p) (snd p) o) b a.

Definition login (u : obj) (t : string) (s : AuthState) : AuthState :=
  {| user := Some u; token := Some t; isAuthenticated := true;
     isLoading := false; error := None |}.

Definition register (u : obj) (t : string) (s : AuthState) : AuthState :=
  {| user := Some u; token := Some t; isAuthenticated := true;
     isLoading := false; error := None |}.

Definition logout (s : AuthState) : AuthState :=
  {| user := None; token := None; isAuthenticated := false;
     isLoading := false; error := None |}.

Definition setLoading (loading : bool) (s : AuthState) : AuthState :=
  {| user := user s; token := token s; isAuthenticated := isAuthenticated s;
     isLoading := loading; error := error s |}.

Definition setError (e : option string) (s : AuthState) : AuthState :=
  {| user := user s; token := token s; isAuthenticated := isAuthenticated s;
     isLoading := isLoading s; error := e |}.

Definition clearError (s : AuthState) : AuthState :=
  {| user := user s; token := token s; isAuthenticated := isAuthenticated s;
     isLoading := isLoading s; error := None |}.

Definition updateUser (updatedUser : obj) (s : AuthState) : AuthState :=
  {| user := match user s with
             | Some u => Some (merge u updatedUser)
             | None => None
             end;
     token := token s; isAuthenticated := isAuthenticated s;
     isLoading := isLoading s; error := error s |}.

(** A state is coherent when it has a user exactly when it has a token, and
    says so. *)
Definition coherent (s : AuthState) : Prop :=
  match user s, token s with
  | Some _, Some _ => isAuthenticated s = true
  | None, None => isAuthenticated s = false
  | _, _ => False
  end.

(** [partialize]: what is written to the device's storage. *)
Definition partialize (s : AuthState) : option obj * option string * bool :=
  (user s, token s, isAuthenticated s).

(** The actions of the store. *)
Inductive action : Type :=
| Login (u : obj) (t : string)
| Register (u : obj) (t : string)
| Logout
| SetLoading (loading : bool)
| SetError (e : option string)
| ClearError
| UpdateUser (updatedUser : obj).

Definition apply (a : action) (s : AuthState) : AuthState :=
  match a with
  | Login u t => login u t s
  | Register u t => register u t s
  | Logout => logout s
  | SetLoading loading => setLoading loading s
  | SetError e => setError e s
  | ClearError => clearError s
  | UpdateUser updatedUser => updateUser updatedUser s
  end.

(** The state after a sequence of actions, the first one first. *)
Definition run (acts : list action) (s : AuthState) : AuthState :=
  fold_left (fun s a => apply a s) acts s.

End AuthStore.

(* ================================================================== *)
(** * The sign-in and registration screen *)
(* ================================================================== *)

Module ClientForm.

(** The [useState] cells of the form that [handleRegister] and
    [handleLogin] read. *)
Record Form : Type := {
  email : string;
  password : string;
  firstName : string;
  middleName : string;
  lastName : string;
  suffix : string;
  sex : string;
  dateOfBirth : string;
  contactNumber : string;
  confirmPassword : string;
  street : string;
  selectedRegion : string;
  selectedProvince : string;
  selectedCity : string;
  selectedBarangay : string;
  zipCode : string
}.

(** [/^[^\s@]+@[^\s@]+\.[^\s@]+$/]: no blank, exactly one [@] that is not the
    first character, and after it a dot that is neither the first nor the
    last character of that part. *)
Fixpoint before_at (s : string) : string :=
  match s with
  | EmptyString => EmptyString
  | String c r => if Ascii.eqb c "@" then EmptyString else String c (before_at r)
  end.

Fixpoint after_at (s : string) : string :=
  match s with
  | EmptyString => EmptyString
  | String c r => if Ascii.eqb c "@" then r else after_at r
  end.

(** A dot that has a character before it and a character after it. *)
Fixpoint inner_dot (first : bool) (s : string) : bool :=
  match s with
  | EmptyString => false
  | String c r =>
      (negb first && Ascii.eqb c "." && negb (String.eqb r ""))
      || inner_dot false r
  end.

Definition validateEmail (email : string) : bool :=
  forallb_str (fun c => negb (isSpace c)) email
  && (count_char "@" email =? 1)%nat
  && negb (String.eqb (before_at email) "")
  && inner_dot true (after_at email).

Definition validatePhone (phone : string) : bool := re_phone phone.

Definition validateDate (date : string) : bool := re_date date.

(** [calculateAge(dob)]; [None] is [NaN], the age of a date that does not
    parse. *)
Definition calculateAge (lib : Lib) (today : Z) (dob : string) : option Z :=
  if negb (truthy (VStr dob)) then Some 0%Z
  else match Date_parse lib dob with
       | Some birthDate => Some (years_old (tz lib) today birthDate)
       | None => None
       end.

(** [formatContactNumber(text)]: the new [contactNumber] and the new
    [fieldErrors]. *)
Definition formatContactNumber (text : string) (fieldErrors : obj)
  : string * obj :=
  let cleaned := strip_non_digits text in
  let cleaned :=
    if (0 <? String.length cleaned)%nat && negb (startsWith cleaned "0")
    then "0" ++ cleaned else cleaned in
  let cleaned :=
    if startsWith cleaned "63" && (12 <=? String.length cleaned)%nat
    then "0" ++ substring_from 2 cleaned else cleaned in
  let cleaned :=
    if (11 <? String.length cleaned)%nat
    then substring_upto 11 cleaned else cleaned in
  (cleaned,
   if truthy (get "contact_number" fieldErrors)
   then del "contact_number" fieldErrors else fieldErrors).

(** [x || ""] on strings. *)
Definition or_blank (x : string) : string :=
  if truthy (VStr x) then x else "".

(** The object that [handleRegister] sends. *)
Definition registerData (f : Form) : value :=
  VObj [
    ("first_name", VStr (trim (firstName f)));
    ("middle_name", VStr (or_blank (trim (middleName f))));
    ("last_name", VStr (trim (lastName f)));
    ("suffix", VStr (or_blank (suffix f)));
    ("sex", VStr (sex f));
    ("date_of_birth", VStr (trim (dateOfBirth f)));
    ("address", VObj [
       ("street", VStr (trim (street f)));
       ("barangay", VStr (trim (selectedBarangay f)));
       ("city_municipality", VStr (trim (selectedCity f)));
       ("province", VStr (trim (selectedProvince f)));
       ("region", VStr (trim (selectedRegion f)));
       ("zip_code", VStr (or_blank (trim (zipCode f))));
       ("country", VStr "Philippines");
       ("type", VStr "Permanent")]);
    ("contact_number", VStr (trim (contactNumber f)));
    ("email", VStr (toLowerCase (trim (email f))));
    ("password", VStr (trim (password f)))].

(** The object that [handleLogin] sends. *)
Definition loginData (f : Form) : value :=
  VObj [
    ("email", VStr (toLowerCase (trim (email f))));
    ("password", VStr (trim (password f)))].

(** What a handler does before it waits for the server: an alert, or the
    request it posts. *)
Inductive submission : Type :=
| Alert (title message : string)
| Post (endpoint : string) (body : value).

(** [handleRegister] up to its [fetch]. *)
Definition handleRegister (lib : Lib) (today : Z) (f : Form) : submission :=
  let requiredFields :=
    [firstName f; lastName f; email f; password f; confirmPassword f;
     contactNumber f; dateOfBirth f; street f; selectedRegion f;
     selectedProvince f; selectedCity f; selectedBarangay f] in
  let missingFields :=
    filter (fun field => negb (truthy (VStr (trim field)))) requiredFields in
  if (0 <? List.length missingFields)%nat then
    Alert "Required" "Please fill in all required fields"
  else if negb (validateEmail (email f)) then
    Alert "Invalid Email" "Please enter a valid email address"
  else if (String.length (password f) <? 8)%nat then
    Alert "Password Error" "Password must be at least 8 characters"
  else if negb (String.eqb (password f) (confirmPassword f)) then
    Alert "Password Error" "Passwords do not match"
  else if negb (validateDate (dateOfBirth f)) then
    Alert "Date Error" "Please use YYYY-MM-DD format for date of birth"
  else if match calculateAge lib today (dateOfBirth f) with
          | Some age => (age <? 18)%Z
          | None => false
          end then
    Alert "Age Error" "You must be at least 18 years old to register"
  else if negb (validatePhone (contactNumber f)) then
    Alert "Phone Error"
          ("Please enter a valid 11-digit Philippine mobile number"
           ++ String (ascii_of_nat 10) (String (ascii_of_nat 10)
                "Format: 09XXXXXXXXX")
           ++ String (ascii_of_nat 10) "Example: 09171234567")
  else Post "/auth/register" (registerData f).

(** [handleLogin] up to its [fetch]. *)
Definition handleLogin (f : Form) : submission :=
  if negb (truthy (VStr (trim (email f))))
     || negb (truthy (VStr (trim (password f)))) then
    Alert "Required" "Please fill in all fields"
  else if negb (validateEmail (email f)) then
    Alert "Invalid Email" "Please enter a valid email address"
  else Post "/auth/login" (loginData f).

(** A form for the examples: the sample registration, with the ZIP field
    left blank. *)
Definition sample_form : Form := {|
  email := "maria.santos@example.com";
  password := "s3cretpass";
  firstName := "Maria";
  middleName := "";
  lastName := "Santos";
  suffix := "";
  sex := "Female";
  dateOfBirth := "2000-02-29";
  contactNumber := "09171234567";
  confirmPassword := "s3cretpass";
  street := "12 Rizal St";
  selectedRegion := "Region I";
  selectedProvince := "Pangasinan";
  selectedCity := "Dagupan City";
  selectedBarangay := "Bonuan Binloc";
  zipCode := ""
|}.

End ClientForm.

(* ================================================================== *)
(** * Vocabulary of the statements and of their proofs *)
(* ================================================================== *)

(** Two paths that part at some segment. *)
Fixpoint diverge (p q : list string) : bool :=
  match p, q with
  | k :: p', k' :: q' => if String.eqb k k' then diverge p' q' else true
  | _, _ => false
  end.

(** No array stands on the way along a path. *)
Fixpoint path_ok (segs : list string) (d : value) : bool :=
  match segs with
  | [] => true
  | k :: r =>
      match d with
      | VArr _ => false
      | VObj o => path_ok r (get k o)
      | _ => true
      end
  end.

Definition segs_of (p : schema_path) : list string := split_dot (sp_path p).

(** The value a path of the schema receives from [data]; [old] is what the
    document held there before. *)
Definition field_value (lib : Lib) (dr : Draw) (p : schema_path) (data old : value)
  : value :=
  let raw := walk (segs_of p) data in
  if is_undefined raw then
    match sp_default p with Some d => d dr | None => old end
  else
    match cast lib (sp_type p) raw with
    | Some v => apply_setters p v
    | None => old
    end.

(** The paths of a schema are pairwise apart. *)
Fixpoint independent (ps : list schema_path) : bool :=
  match ps with
  | [] => true
  | p :: rest =>
      forallb (fun q => diverge (segs_of p) (segs_of q)
                        && diverge (segs_of q) (segs_of p)) rest
      && independent rest
  end.

(** The document that [create] builds from [data], before it is saved. *)
Definition new_document (lib : Lib) (dr : Draw) (data : value) : value :=
  fst (build_document lib dr UserMongooseSchema data
                      (VObj [("_id", VStr (objectId dr))])).





Definition forced (user : obj) : Prop :=
  get "form_id" user = VNull
  /\ get "status" user = VStr "Pending"
  /\ get "role" user = VStr "User"
  /\ get "is_verified" user = VBool false
  /\ get "is_email_verified" user = VBool false.

Definition status_message (st : string) : string :=
  if String.eqb st "Suspended"
  then "Your account has been suspended. Please contact support."
  else "Your account is inactive. Please contact support.".

Definition forbidden (st : string) : response :=
  respond 403 [("success", VBool false); ("message", VStr (status_message st))].

Definition invalid_credentials (field : string) : response :=
  respond 401 [("success", VBool false);
               ("message", VStr "Invalid email or password");
               ("field", VStr field)].

Definition has_password (v : value) : bool :=
  match v with
  | VObj o => has "password" o
  | _ => false
  end.

(** The user object of a response of [register] and [login]. *)
Definition response_user (r : response) : value := walk ["data"; "user"] (json r).

Definition list_eqb (a b : list string) : bool :=
  if list_eq_dec string_dec a b then true else false.

(** The field of [c] parts from the path [p], and neither its name nor its
    first segment is a key that the reading of [p] consults. *)
Definition apart (p : list string) (c : chain) : bool :=
  let segs := split_dot (field c) in
  diverge p segs
  && negb (String.eqb (join "." segs) (join "." p))
  && negb (String.eqb (join "." segs) (hd "" p))
  && negb (String.eqb (hd "" segs) (join "." p)).

(** What the reading of [p] in the body depends on. *)
Definition reads (p : list string) (v : value) (h : bool) (lit : value)
    (b : value) : Prop :=
  exists o, b = VObj o /\ walk p (VObj o) = v
            /\ has (join "." p) o = h /\ get (join "." p) o = lit.

Definition form_id_chain : chain :=
  body "form_id" .> optional
    .> custom (fun _ _ _ => Some "form_id cannot be set during registration").

Definition chains_before_form_id : list chain := removelast registerValidator.

Definition form_id_rejected : response :=
  respond 400 [
    ("success", VBool false);
    ("message", VStr "Invalid registration data");
    ("errors", VArr [
       VObj [("field", VStr "form_id");
             ("message",
              VStr "form_id is automatically generated and cannot be provided")]])].

Definition is_prefix (p q : list string) : Prop := exists r, q = (p ++ r)%list.

Definition zip_path : list string := ["address"; "zip_code"].

Definition zip_chain : chain :=
  body "address.zip_code"
    .> optional .> default_ (VStr "")
    .> matches re_zip .> withMessage "ZIP code must be 4 digits"
    .> trim_.

Definition chains_before_zip : list chain := firstn 14 registerValidator.

Definition chains_after_zip : list chain := skipn 15 registerValidator.

Definition zip_schema : ztype :=
  z_string .> z_regex re_zip "ZIP code must be 4 digits"
    .> z_optional .> z_default (VStr "").

(** The data that [register] hands to [UserModel.create]. *)
Definition forced_data (mongooseData : obj) : obj :=
  set "role" (VStr "User")
    (set "status" (VStr "Pending")
       (set "is_email_verified" (VBool false)
          (set "is_verified" (VBool false)
             (set "form_id" VNull mongooseData)))).

Definition default_empty (v : value) : value :=
  match v with
  | VUndefined | VNull => VStr ""
  | VStr s => if String.eqb s "" then VStr "" else v
  | _ => v
  end.

(** What [validate] reads of an error. *)
Definition err_key (e : field_error) : string * string * string :=
  (err_type e, err_path e, err_msg e).

(** The chain's field is a top-level key other than [k0]. *)
Definition top_other (k0 : string) (c : chain) : bool :=
  match split_dot (field c) with
  | [k] => negb (String.eqb k k0)
  | _ => false
  end.

(** The items applied in order to the value of the field. *)
Fixpoint trace (lib : Lib) (t : Z) (path : string) (items : list item) (v : value)
  : value * list field_error :=
  match items with
  | [] => (v, [])
  | it :: rest =>
      let '(nv, errs) := run_item lib t path it v in
      let '(fv, es) := trace lib t path rest nv in
      (fv, (errs ++ es)%list)
  end.

Definition email_chain : chain :=
  body "email"
    .> notEmpty .> withMessage "Email is required"
    .> isEmail_ .> withMessage "Must be a valid email"
    .> normalizeEmail_ .> toLowerCase_ .> trim_.



(** A record whose [contact_number] is a string of the pattern
    [^09\d{9}$] and of length 11. *)
Definition canonical_contact (d : obj) : bool :=
  match get "contact_number" d with
  | VStr c => re_phone c && (String.length c =? 11)%nat
  | _ => false
  end.

Definition canonical_contacts (db : collection) : bool :=
  forallb canonical_contact db.

(* ================================================================== *)
(** * Theorems *)
(* ================================================================== *)

(** * Objects *)

Lemma get_set_eq (k : string) (v : value) (o : obj) : get k (set k v o) = v.
Proof.
  induction o as [|[k' v'] r IH]; simpl.
  - now rewrite String.eqb_refl.
  - destruct (String.eqb k k') eqn:E; simpl.
    + now rewrite String.eqb_refl.
    + now rewrite E.
Qed.

Lemma get_set_neq (k k' : string) (v : value) (o : obj) :
  k <> k' -> get k (set k' v o) = get k o.
Proof.
  intros N. induction o as [|[k0 v0] r IH]; simpl.
  - apply String.eqb_neq in N. now rewrite N.
  - destruct (String.eqb k' k0) eqn:E; simpl.
    + apply String.eqb_eq in E. subst k0.
      apply String.eqb_neq in N. now rewrite N.
    + now rewrite IH.
Qed.

Lemma has_set_eq (k : string) (v : value) (o : obj) : has k (set k v o) = true.
Proof.
  induction o as [|[k' v'] r IH]; simpl.
  - now rewrite String.eqb_refl.
  - destruct (String.eqb k k') eqn:E; simpl.
    + now rewrite String.eqb_refl.
    + now rewrite E.
Qed.

Lemma has_set_neq (k k' : string) (v : value) (o : obj) :
  k <> k' -> has k (set k' v o) = has k o.
Proof.
  intros N. induction o as [|[k0 v0] r IH]; simpl.
  - apply String.eqb_neq in N. now rewrite N.
  - destruct (String.eqb k' k0) eqn:E; simpl.
    + apply String.eqb_eq in E. subst k0.
      apply String.eqb_neq in N. now rewrite N.
    + now rewrite IH.
Qed.

Lemma has_del_eq (k : string) (o : obj) : has k (del k o) = false.
Proof.
  unfold del. induction o as [|[k' v'] r IH]; simpl; auto.
  destruct (String.eqb k k') eqn:E; simpl; auto.
  now rewrite E.
Qed.

Lemma has_del_neq (k k' : string) (o : obj) :
  k <> k' -> has k (del k' o) = has k o.
Proof.
  intros N. unfold del. induction o as [|[k0 v0] r IH]; simpl; auto.
  destruct (String.eqb k' k0) eqn:E; simpl.
  - apply String.eqb_eq in E. subst k0.
    apply String.eqb_neq in N. now rewrite N.
  - now rewrite IH.
Qed.

Lemma get_del_eq (k : string) (o : obj) : get k (del k o) = VUndefined.
Proof.
  unfold del. induction o as [|[k' v'] r IH]; simpl; auto.
  destruct (String.eqb k k') eqn:E; simpl; auto.
  now rewrite E.
Qed.

Lemma get_del_neq (k k' : string) (o : obj) :
  k <> k' -> get k (del k' o) = get k o.
Proof.
  intros N. unfold del. induction o as [|[k0 v0] r IH]; simpl; auto.
  destruct (String.eqb k' k0) eqn:E; simpl.
  - apply String.eqb_eq in E. subst k0.
    apply String.eqb_neq in N. now rewrite N.
  - now rewrite IH.
Qed.

Lemma get_absent (k : string) (o : obj) : has k o = false -> get k o = VUndefined.
Proof.
  induction o as [|[k' v'] r IH]; simpl; auto.
  destruct (String.eqb k k'); simpl; auto. discriminate.
Qed.

(** Rewriting a lookup through the updates of other keys. *)
Ltac get_simpl :=
  repeat first
    [ rewrite get_set_eq
    | rewrite get_set_neq by (intro; discriminate)
    | rewrite get_del_neq by (intro; discriminate)
    | rewrite has_set_neq by (intro; discriminate)
    | rewrite has_del_neq by (intro; discriminate) ].

(** * Strings *)

Lemma filter_str_all (f : ascii -> bool) (s : string) :
  forallb_str f s = true -> filter_str f s = s.
Proof.
  induction s as [|c r IH]; simpl; auto.
  intros H. apply andb_true_iff in H as [Hc Hr].
  rewrite Hc. now rewrite IH.
Qed.

Lemma re_phone_shape (s : string) :
  re_phone s = true ->
  exists rest, s = String "0" (String "9" rest)
               /\ String.length rest = 9 /\ forallb_str isDigit rest = true.
Proof.
  destruct s as [|c1 [|c2 rest]]; simpl; try discriminate.
  intros H.
  apply andb_true_iff in H as [H H4].
  apply andb_true_iff in H as [H H3].
  apply andb_true_iff in H as [H1 H2].
  apply Ascii.eqb_eq in H1, H2. subst.
  apply Nat.eqb_eq in H3.
  exists rest. auto.
Qed.

Lemma re_phone_length (s : string) : re_phone s = true -> String.length s = 11.
Proof.
  intros H. destruct (re_phone_shape s H) as (rest & -> & L & _).
  simpl. now rewrite L.
Qed.

Lemma substring_all (s : string) (n : nat) :
  String.length s <= n -> String.substring 0 n s = s.
Proof.
  revert n. induction s as [|c r IH]; intros n H.
  - destruct n; reflexivity.
  - destruct n; simpl in *; [lia|]. rewrite IH; [reflexivity|lia].
Qed.

Lemma presave_contact_valid (s : string) :
  re_phone s = true -> presave_contact s = s.
Proof.
  intros H. pose proof (re_phone_length s H) as L11.
  destruct (re_phone_shape s H) as (rest & E & L & D).
  assert (S0 : startsWith s "0" = true) by (subst s; reflexivity).
  assert (S63 : startsWith s "63" = false) by (subst s; reflexivity).
  assert (F : strip_non_digits s = s).
  { unfold strip_non_digits. apply filter_str_all. subst s. exact D. }
  unfold presave_contact. rewrite F, S0, S63. cbn [negb andb].
  rewrite S63. cbn [andb]. rewrite L11. reflexivity.
Qed.

Lemma transform_contact_valid (s : string) :
  re_phone s = true -> transform_contact s = s.
Proof.
  intros H. pose proof (re_phone_length s H) as L11.
  destruct (re_phone_shape s H) as (rest & E & L & D).
  assert (S0 : startsWith s "0" = true) by (subst s; reflexivity).
  assert (S63 : startsWith s "63" = false) by (subst s; reflexivity).
  assert (F : strip_non_digits s = s).
  { unfold strip_non_digits. apply filter_str_all. subst s. exact D. }
  unfold transform_contact. rewrite F, S63. cbn [andb].
  rewrite S0. cbn [negb andb].
  unfold substring_upto. apply substring_all. lia.
Qed.

(** * Paths *)

Lemma walk_undefined (segs : list string) : walk segs VUndefined = VUndefined.
Proof. induction segs; simpl; auto. Qed.

Lemma path_ok_undefined (segs : list string) : path_ok segs VUndefined = true.
Proof. destruct segs; reflexivity. Qed.

Lemma walk_set_path_diverge (p : list string) :
  forall q x d, diverge p q = true -> walk p (set_path q x d) = walk p d.
Proof.
  induction p as [|k p' IH]; intros q x d H; [discriminate|].
  destruct q as [|k' q']; [discriminate|].
  simpl in H. destruct (String.eqb k k') eqn:E.
  - apply String.eqb_eq in E. subst k'.
    destruct d; simpl; try (rewrite String.eqb_refl; rewrite IH by exact H;
                            now rewrite walk_undefined).
    + reflexivity.
    + rewrite get_set_eq. now apply IH.
  - assert (N : k <> k') by (now apply String.eqb_neq).
    destruct d; simpl; try (now rewrite E).
    + reflexivity.
    + now rewrite get_set_neq.
Qed.

Lemma path_ok_set_path_diverge (p : list string) :
  forall q x d, diverge p q = true -> path_ok p (set_path q x d) = path_ok p d.
Proof.
  induction p as [|k p' IH]; intros q x d H; [discriminate|].
  destruct q as [|k' q']; [discriminate|].
  simpl in H. destruct (String.eqb k k') eqn:E.
  - apply String.eqb_eq in E. subst k'.
    destruct d; simpl; try (rewrite String.eqb_refl; rewrite IH by exact H;
                            now rewrite path_ok_undefined).
    + reflexivity.
    + rewrite get_set_eq. now apply IH.
  - assert (N : k <> k') by (now apply String.eqb_neq).
    destruct d; simpl; try (rewrite E; now rewrite path_ok_undefined).
    + reflexivity.
    + now rewrite get_set_neq.
Qed.

Lemma walk_set_path_same (q : list string) :
  forall x d, path_ok q d = true -> walk q (set_path q x d) = x.
Proof.
  induction q as [|k r IH]; intros x d H; [reflexivity|].
  destruct d; simpl in *; try discriminate;
    try (rewrite String.eqb_refl; apply IH; apply path_ok_undefined).
  rewrite get_set_eq. now apply IH.
Qed.

Lemma split_dot_acc_cons (s acc : string) : split_dot_acc s acc <> [].
Proof.
  revert acc. induction s as [|c r IH]; intros acc; simpl; [discriminate|].
  destruct (Ascii.eqb c "."); [discriminate|apply IH].
Qed.

Lemma split_dot_cons (s : string) : exists k r, split_dot s = k :: r.
Proof.
  unfold split_dot. destruct (split_dot_acc s "") eqn:E.
  - now apply split_dot_acc_cons in E.
  - eauto.
Qed.

Lemma set_path_obj (segs : list string) (x : value) (o : obj) :
  segs <> [] -> exists o', set_path segs x (VObj o) = VObj o'.
Proof. destruct segs; [congruence|]. simpl. eauto. Qed.

(** * Building a document *)

Lemma build_path_walk_same lib dr p data doc :
  path_ok (segs_of p) doc = true ->
  walk (segs_of p) (fst (build_path lib dr p data doc))
  = field_value lib dr p data (walk (segs_of p) doc).
Proof.
  intros H. unfold build_path, field_value, segs_of in *.
  destruct (is_undefined _).
  - destruct (sp_default p); simpl; auto. now apply walk_set_path_same.
  - destruct (cast _ _ _); simpl; auto. now apply walk_set_path_same.
Qed.

Lemma build_path_walk_other lib dr p data doc q :
  diverge q (segs_of p) = true ->
  walk q (fst (build_path lib dr p data doc)) = walk q doc
  /\ path_ok q (fst (build_path lib dr p data doc)) = path_ok q doc.
Proof.
  intros H. unfold build_path, segs_of in *.
  destruct (is_undefined _).
  - destruct (sp_default p); simpl; auto.
    split; [now apply walk_set_path_diverge|now apply path_ok_set_path_diverge].
  - destruct (cast _ _ _); simpl; auto.
    split; [now apply walk_set_path_diverge|now apply path_ok_set_path_diverge].
Qed.

Lemma build_document_fst lib dr p rest data doc :
  fst (build_document lib dr (p :: rest) data doc)
  = fst (build_document lib dr rest data (fst (build_path lib dr p data doc))).
Proof.
  simpl. destruct (build_path lib dr p data doc) as [d' e'].
  simpl. now destruct (build_document lib dr rest data d').
Qed.

Lemma build_document_snd lib dr p rest data doc :
  snd (build_document lib dr (p :: rest) data doc)
  = (snd (build_path lib dr p data doc)
     ++ snd (build_document lib dr rest data (fst (build_path lib dr p data doc))))%list.
Proof.
  simpl. destruct (build_path lib dr p data doc) as [d' e'].
  simpl. now destruct (build_document lib dr rest data d').
Qed.

Lemma build_document_walk_other lib dr data q ps :
  forall doc,
  forallb (fun p => diverge q (segs_of p)) ps = true ->
  walk q (fst (build_document lib dr ps data doc)) = walk q doc
  /\ path_ok q (fst (build_document lib dr ps data doc)) = path_ok q doc.
Proof.
  induction ps as [|p rest IH]; intros doc H; [simpl; auto|].
  simpl in H. apply andb_true_iff in H as [Hp Hr].
  rewrite build_document_fst.
  destruct (IH (fst (build_path lib dr p data doc)) Hr) as [W P].
  destruct (build_path_walk_other lib dr p data doc q Hp) as [W' P'].
  split; congruence.
Qed.

Lemma forallb_weaken {A} (f g : A -> bool) (l : list A) :
  (forall x, f x = true -> g x = true) -> forallb f l = true -> forallb g l = true.
Proof.
  intros I. induction l; simpl; auto.
  intros H. apply andb_true_iff in H as [H1 H2].
  rewrite (I _ H1). auto.
Qed.

Lemma build_document_walk lib dr data ps :
  forall doc p,
  independent ps = true -> In p ps ->
  path_ok (segs_of p) doc = true ->
  walk (segs_of p) (fst (build_document lib dr ps data doc))
  = field_value lib dr p data (walk (segs_of p) doc).
Proof.
  induction ps as [|p0 rest IH]; intros doc p I H K; [contradiction|].
  simpl in I. apply andb_true_iff in I as [I0 Ir].
  rewrite build_document_fst.
  destruct H as [->|H].
  - assert (D : forallb (fun q => diverge (segs_of p) (segs_of q)) rest = true).
    { eapply forallb_weaken; [|exact I0].
      intros x Hx. now apply andb_true_iff in Hx as [? _]. }
    destruct (build_document_walk_other lib dr data (segs_of p) rest
                (fst (build_path lib dr p data doc)) D) as [W _].
    rewrite W. now apply build_path_walk_same.
  - assert (D : diverge (segs_of p) (segs_of p0) = true).
    { rewrite forallb_forall in I0. specialize (I0 p H).
      now apply andb_true_iff in I0 as [_ ?]. }
    destruct (build_path_walk_other lib dr p0 data doc (segs_of p) D) as [W P].
    rewrite IH; auto; [|congruence].
    now rewrite W.
Qed.

Lemma build_document_obj lib dr data ps :
  forall o, exists o', fst (build_document lib dr ps data (VObj o)) = VObj o'.
Proof.
  induction ps as [|p rest IH]; intros o; [simpl; eauto|].
  rewrite build_document_fst.
  assert (E : exists o1, fst (build_path lib dr p data (VObj o)) = VObj o1).
  { unfold build_path.
    destruct (split_dot_cons (sp_path p)) as (k & r & S). rewrite S.
    destruct (is_undefined _).
    - destruct (sp_default p); simpl; eauto.
    - destruct (cast _ _ _); simpl; eauto. }
  destruct E as [o1 ->]. apply IH.
Qed.

Lemma UserMongooseSchema_independent : independent UserMongooseSchema = true.
Proof. vm_compute. reflexivity. Qed.

(** * Validation of a document *)

Lemma flat_map_nil {A B} (f : A -> list B) (l : list A) :
  flat_map f l = [] -> forall x, In x l -> f x = [].
Proof.
  induction l as [|a r IH]; simpl; intros H x I; [contradiction|].
  apply app_eq_nil in H as [Ha Hr]. destruct I as [->|I]; auto.
Qed.

Lemma first_error_nil (l : list (string * string)) : first_error l = [] -> l = [].
Proof. destruct l; simpl; [auto|discriminate]. Qed.

Lemma validate_document_nil (cast_errors : list (string * string)) (doc : value) :
  validate_document cast_errors doc = [] ->
  cast_errors = []
  /\ forall p, In p UserMongooseSchema -> validate_path p doc = [].
Proof.
  unfold validate_document. intros H.
  apply app_eq_nil in H as [Hc Hv]. split; [exact Hc|].
  intros p I. subst cast_errors.
  pose proof (flat_map_nil _ _ Hv p I) as E. simpl in E.
  now apply first_error_nil.
Qed.

(** * The pre-save middleware, field by field *)

Lemma get_hash_password_hook lib dr m (user : obj) (k : string) :
  k <> "password" -> get k (hash_password_hook lib dr m user) = get k user.
Proof.
  intros N. unfold hash_password_hook.
  destruct (negb m); auto.
  destruct (get "password" user); auto.
  now rewrite get_set_neq.
Qed.

Lemma get_transform_hook lib dr (user : obj) (k : string) :
  k <> "age" -> k <> "date_of_birth" -> k <> "contact_number" ->
  get k (transform_hook lib dr user) = get k user.
Proof.
  intros N1 N2 N3. unfold transform_hook.
  repeat match goal with
         | |- context [if ?b then _ else _] => destruct b
         | |- context [match ?x with _ => _ end] => destruct x
         | |- _ => rewrite get_set_neq by assumption
         end; reflexivity.
Qed.

Lemma transform_hook_date lib dr (user : obj) (birth : Z) :
  get "date_of_birth" user = VDate (Some birth) ->
  get "date_of_birth" (transform_hook lib dr user) = VDate (Some birth)
  /\ get "age" (transform_hook lib dr user)
     = VNum (years_old (tz lib) (now dr) birth).
Proof.
  intros H. unfold transform_hook.
  rewrite H. cbn [truthy new_Date].
  rewrite (get_set_neq "date_of_birth" "age") by discriminate.
  rewrite H.
  rewrite (get_set_neq "contact_number" "age") by discriminate.
  destruct (truthy (get "contact_number" user));
    [destruct (get "contact_number" user)|];
    rewrite ?(get_set_neq "date_of_birth") by discriminate;
    rewrite ?(get_set_neq "age" "contact_number") by discriminate;
    rewrite ?get_set_eq; rewrite ?H; auto.
Qed.

Lemma transform_hook_contact lib dr (user : obj) (c : string) :
  get "contact_number" user = VStr c -> c <> "" ->
  get "contact_number" (transform_hook lib dr user) = VStr (presave_contact c).
Proof.
  intros H N. unfold transform_hook.
  set (u1 := if truthy (get "date_of_birth" user) then _ else _).
  assert (E1 : get "contact_number" u1 = VStr c).
  { subst u1. destruct (truthy _); auto.
    destruct (new_Date _ _); rewrite ?get_set_neq by discriminate; auto.
}
  set (u2 := match get "date_of_birth" u1 with VStr d => _ | _ => u1 end).
  assert (E2 : get "contact_number" u2 = VStr c).
  { subst u2. destruct (get "date_of_birth" u1) as [| | | |d| | |]; auto.
    destruct (truthy (VStr d)); rewrite ?get_set_neq by discriminate; auto. }
  rewrite E2. cbn [truthy].
  apply String.eqb_neq in N. rewrite N. cbn [negb].
  now rewrite get_set_eq.
Qed.

Lemma get_pre_save lib dr isNew m (user : obj) (k : string) :
  k <> "updated_at" -> k <> "created_at" -> k <> "password" -> k <> "age" ->
  k <> "date_of_birth" -> k <> "contact_number" -> k <> "__v" ->
  get k (pre_save lib dr isNew m user) = get k user.
Proof.
  intros. unfold pre_save.
  destruct isNew;
    rewrite ?get_set_neq by assumption;
    rewrite get_transform_hook by assumption;
    rewrite get_hash_password_hook by assumption;
    rewrite ?get_set_neq by assumption; reflexivity.
Qed.

Lemma pre_save_date lib dr isNew m (user : obj) (birth : Z) :
  get "date_of_birth" user = VDate (Some birth) ->
  get "date_of_birth" (pre_save lib dr isNew m user) = VDate (Some birth)
  /\ get "age" (pre_save lib dr isNew m user)
     = VNum (years_old (tz lib) (now dr) birth).
Proof.
  intros H. unfold pre_save.
  destruct isNew.
  - rewrite !(get_set_neq _ "__v") by discriminate.
    apply transform_hook_date.
    rewrite get_hash_password_hook by discriminate.
    now rewrite !get_set_neq by discriminate.
  - apply transform_hook_date.
    rewrite get_hash_password_hook by discriminate.
    now rewrite !get_set_neq by discriminate.
Qed.

Lemma pre_save_contact lib dr isNew m (user : obj) (c : string) :
  get "contact_number" user = VStr c -> c <> "" ->
  get "contact_number" (pre_save lib dr isNew m user) = VStr (presave_contact c).
Proof.
  intros H N. unfold pre_save.
  destruct isNew.
  - rewrite !(get_set_neq _ "__v") by discriminate.
    apply transform_hook_contact; auto.
    rewrite get_hash_password_hook by discriminate.
    now rewrite !get_set_neq by discriminate.
  - apply transform_hook_contact; auto.
    rewrite get_hash_password_hook by discriminate.
    now rewrite !get_set_neq by discriminate.
Qed.

(** * What [save] and [create] return *)

Lemma save_ok lib dr isNew m cast_errors (user : obj) (db : collection) user' db' :
  save lib dr isNew m cast_errors user db = Ok (user', db') ->
  validate_document cast_errors (VObj user) = []
  /\ user' = pre_save lib dr isNew m user
  /\ store isNew user' db = Ok db'.
Proof.
  unfold save. destruct (validate_document _ _); [|discriminate].
  cbn [bind]. destruct (store _ _ _) eqn:S; cbn [bind]; [|discriminate].
  intros H. injection H as <- <-. auto.
Qed.

Lemma store_new (user : obj) (db db' : collection) :
  store true user db = Ok db' -> db' = (db ++ [user])%list.
Proof.
  unfold store. destruct (duplicate_key _ _); [discriminate|].
  destruct (existsb _ _); [discriminate|]. now intros [= <-].
Qed.

(** Where a successful write leaves the document. *)
Lemma store_ok isNew (user : obj) (db db' : collection) :
  store isNew user db = Ok db' ->
  db' = (if isNew then (db ++ [user])%list
         else map (fun d => if same_id user d then user else d) db)
  /\ In user db'
  /\ (forall d, In d db' -> d = user \/ In d db).
Proof.
  unfold store. destruct (duplicate_key _ _); [discriminate|].
  destruct isNew.
  - destruct (existsb _ _); [discriminate|]. intros [= <-].
    split; [reflexivity|]. split.
    + apply in_or_app. right. now left.
    + intros d I. apply in_app_or in I as [I|[<-|[]]]; auto.
  - destruct (existsb (same_id user) db) eqn:X; [|discriminate]. intros [= <-].
    split; [reflexivity|]. split.
    + apply existsb_exists in X as (d & I & S).
      apply in_map_iff. exists d. rewrite S. auto.
    + intros d I. apply in_map_iff in I as (d0 & <- & I).
      destruct (same_id user d0); auto.
Qed.

Lemma create_ok lib dr data db user db' :
  UserModel_create lib dr data db = Ok (user, db') ->
  exists o,
    new_document lib dr data = VObj o
    /\ (forall p, In p UserMongooseSchema -> validate_path p (VObj o) = [])
    /\ user = pre_save lib dr true true o
    /\ db' = (db ++ [user])%list.
Proof.
  unfold UserModel_create, new_document.
  destruct (build_document_obj lib dr data UserMongooseSchema
              [("_id", VStr (objectId dr))]) as [o E].
  destruct (build_document _ _ _ _ _) as [doc ce]. simpl in E. subst doc.
  cbn [spread]. intros H.
  apply save_ok in H as (V & U & S).
  apply validate_document_nil in V as [_ V].
  apply store_new in S.
  exists o. auto.
Qed.

(** Each path of a new document holds the value that [field_value] gives. *)
Lemma new_document_walk lib dr data p :
  In p UserMongooseSchema ->
  walk (segs_of p) (new_document lib dr data)
  = field_value lib dr p data VUndefined.
Proof.
  intros I. unfold new_document.
  rewrite build_document_walk; auto using UserMongooseSchema_independent.
  - f_equal.
    repeat (destruct I as [<-|I]; [vm_compute; reflexivity|]). contradiction.
  - repeat (destruct I as [<-|I]; [vm_compute; reflexivity|]). contradiction.
Qed.

Ltac in_schema := unfold UserMongooseSchema; simpl; tauto.

(** A string path of a new document holds a string, [null] or nothing. *)
Lemma cast_string_shape lib (raw : value) (v : value) :
  cast lib TString raw = Some v ->
  (exists s, v = VStr s) \/ v = VNull \/ v = VUndefined.
Proof.
  destruct raw; simpl; intros [= <-]; eauto.
Qed.

Lemma cast_date_shape lib (raw : value) (v : value) :
  cast lib TDate raw = Some v ->
  (exists b, v = VDate (Some b)) \/ v = VNull \/ v = VUndefined.
Proof.
  destruct raw as [| | | | s | [t|] | | ]; simpl; try (intros [= <-]; eauto); try discriminate.
  destruct (Date_parse lib s); [intros [= <-]; eauto|discriminate].
Qed.

(** The contact number of a document that passed validation. *)
Lemma new_document_contact lib dr data (o : obj) :
  new_document lib dr data = VObj o ->
  (forall p, In p UserMongooseSchema -> validate_path p (VObj o) = []) ->
  exists c, get "contact_number" o = VStr c /\ c <> "" /\ contact_validator c = true.
Proof.
  intros E V.
  set (p := path_ "contact_number" TString .> required "Contact number is required"
              .> unique
              .> validate_with contact_validator
                   "Phone number must start with 09 and have 11 digits total").
  assert (I : In p UserMongooseSchema) by (subst p; in_schema).
  pose proof (new_document_walk lib dr data p I) as W.
  pose proof (V p I) as Vp.
  rewrite E in W. change (walk (segs_of p) (VObj o)) with (get "contact_number" o) in W.
  unfold validate_path in Vp.
  change (walk (split_dot (sp_path p)) (VObj o)) with (get "contact_number" o) in Vp.
  change (sp_required p) with (Some "Contact number is required") in Vp.
  change (sp_enum p) with (@None (list string)) in Vp.
  change (sp_type p) with TString in Vp.
  change (sp_validate p)
    with (Some (contact_validator,
                "Phone number must start with 09 and have 11 digits total")) in Vp.
  unfold field_value in W.
  change (sp_default p) with (@None (Draw -> value)) in W.
  change (sp_type p) with TString in W.
  assert (S : (exists s, get "contact_number" o = VStr s)
              \/ get "contact_number" o = VNull
              \/ get "contact_number" o = VUndefined).
  { rewrite W. destruct (is_undefined _); auto.
    destruct (cast lib TString _) eqn:C; auto.
    apply cast_string_shape in C as [[s ->]|[->| ->]]; simpl; eauto. }
  destruct S as [[c Hc]|[Hc|Hc]]; rewrite Hc in Vp; simpl in Vp.
  - exists c. split; [exact Hc|].
    destruct (String.eqb c "") eqn:Ec; [discriminate|].
    simpl in Vp. destruct (contact_validator c); [|discriminate].
    split; auto. now apply String.eqb_neq.
  - discriminate.
  - discriminate.
Qed.

Lemma new_document_date_of_birth lib dr data (o : obj) :
  new_document lib dr data = VObj o ->
  (forall p, In p UserMongooseSchema -> validate_path p (VObj o) = []) ->
  exists birth, get "date_of_birth" o = VDate (Some birth).
Proof.
  intros E V.
  set (p := path_ "date_of_birth" TDate .> required "Date of birth is required").
  assert (I : In p UserMongooseSchema) by (subst p; in_schema).
  pose proof (new_document_walk lib dr data p I) as W.
  pose proof (V p I) as Vp.
  rewrite E in W. change (walk (segs_of p) (VObj o)) with (get "date_of_birth" o) in W.
  unfold validate_path in Vp.
  change (walk (split_dot (sp_path p)) (VObj o)) with (get "date_of_birth" o) in Vp.
  change (sp_required p) with (Some "Date of birth is required") in Vp.
  unfold field_value in W.
  change (sp_default p) with (@None (Draw -> value)) in W.
  change (sp_type p) with TDate in W.
  assert (S : (exists b, get "date_of_birth" o = VDate (Some b))
              \/ get "date_of_birth" o = VNull
              \/ get "date_of_birth" o = VUndefined).
  { rewrite W. destruct (is_undefined _); auto.
    destruct (cast lib TDate _) eqn:C; auto.
    apply cast_date_shape in C as [[s ->]|[->| ->]]; simpl; eauto. }
  destruct S as [[b Hb]|[Hc|Hc]]; [eauto| |]; rewrite Hc in Vp; simpl in Vp; discriminate.
Qed.

(** ** C3 *)

Lemma contact_validator_phone (c : string) :
  contact_validator c = true -> re_phone c = true.
Proof. unfold contact_validator. intros H. now apply andb_true_iff in H as [? _]. Qed.

(** The contact number of any document that passes validation. *)
Lemma validated_contact cast_errors (user : obj) :
  validate_document cast_errors (VObj user) = [] ->
  exists c, get "contact_number" user = VStr c /\ c <> ""
            /\ contact_validator c = true.
Proof.
  intros V. apply validate_document_nil in V as [_ V].
  set (p := path_ "contact_number" TString .> required "Contact number is required"
              .> unique
              .> validate_with contact_validator
                   "Phone number must start with 09 and have 11 digits total").
  pose proof (V p ltac:(subst p; in_schema)) as Vp.
  unfold validate_path in Vp.
  change (walk (split_dot (sp_path p)) (VObj user))
    with (get "contact_number" user) in Vp.
  change (sp_required p) with (Some "Contact number is required") in Vp.
  change (sp_enum p) with (@None (list string)) in Vp.
  change (sp_type p) with TString in Vp.
  change (sp_validate p)
    with (Some (contact_validator,
                "Phone number must start with 09 and have 11 digits total")) in Vp.
  destruct (get "contact_number" user) as [| | | |c| | |]; try discriminate.
  exists c. split; [reflexivity|].
  simpl in Vp. destruct (String.eqb c "") eqn:Ec; [discriminate|].
  simpl in Vp. destruct (contact_validator c); [|discriminate].
  split; auto. now apply String.eqb_neq.
Qed.

(** C3: whenever [save] succeeds, on a new document or on a loaded one, the
    document holds a contact number [c] that matches [^09\d{9}$] and has
    length 11: the schema's validator, which runs ahead of the pre-save
    hook, lets nothing else through.  The normalisation of the hook (and
    that of [transformForMongoose]) leaves such a number as it is, so [c] is
    the [contact_number] of the document that is written, and that document
    is in the collection afterwards: appended when it is new, in the place
    of the document of its [_id] otherwise; every other record of the
    collection was there before. *)
Theorem contact_number_stored lib dr isNew isModifiedPassword cast_errors
    (user : obj) (db : collection) (user' : obj) (db' : collection) :
  save lib dr isNew isModifiedPassword cast_errors user db = Ok (user', db') ->
  exists c,
    get "contact_number" user = VStr c
    /\ get "contact_number" user' = VStr (presave_contact c)
    /\ presave_contact c = c /\ transform_contact c = c
    /\ re_phone c = true /\ String.length c = 11
    /\ db' = (if isNew then (db ++ [user'])%list
              else map (fun d => if same_id user' d then user' else d) db)
    /\ In user' db'
    /\ (forall d, In d db' -> d = user' \/ In d db).
Proof.
  intros H.
  apply save_ok in H as (V & -> & S).
  destruct (validated_contact cast_errors user V) as (c & G & N & C).
  apply contact_validator_phone in C.
  apply store_ok in S as (E & I & O).
  exists c. rewrite (pre_save_contact lib dr isNew isModifiedPassword user c G N).
  repeat split;
    auto using re_phone_length, presave_contact_valid, transform_contact_valid.
Qed.

(** ** C4: the age *)




(** A record that [create] stores has a valid date of birth and the age
    computed from it, whatever [age] the data carried. *)
Lemma created_age lib dr data db user db' :
  UserModel_create lib dr data db = Ok (user, db') ->
  exists birth,
    get "date_of_birth" user = VDate (Some birth)
    /\ get "age" user = VNum (years_old (tz lib) (now dr) birth).
Proof.
  intros H. apply create_ok in H as (o & E & V & -> & _).
  destruct (new_document_date_of_birth lib dr data o E V) as [birth B].
  exists birth. now apply pre_save_date.
Qed.

(** ** C1: the fields that registration forces *)

Lemma get_walk1 (k : string) (o : obj) : walk [k] (VObj o) = get k o.
Proof. reflexivity. Qed.

Lemma create_forced lib dr (data : obj) db user db' :
  get "form_id" data = VNull ->
  get "status" data = VStr "Pending" ->
  get "role" data = VStr "User" ->
  get "is_verified" data = VBool false ->
  get "is_email_verified" data = VBool false ->
  UserModel_create lib dr (VObj data) db = Ok (user, db') ->
  db' = (db ++ [user])%list /\ forced user.
Proof.
  intros F S R V E H.
  apply create_ok in H as (o & Eo & _ & -> & ->).
  split; [reflexivity|].
  unfold forced. rewrite !get_pre_save by discriminate.
  pose proof (new_document_walk lib dr (VObj data)) as W. rewrite Eo in W.
  repeat split.
  - specialize (W (path_ "form_id" TString .> default VNull) ltac:(in_schema)).
    change (get "form_id" o = field_value lib dr
              (path_ "form_id" TString .> default VNull) (VObj data) VUndefined) in W.
    rewrite W. unfold field_value.
    change (walk _ (VObj data)) with (get "form_id" data). now rewrite F.
  - specialize (W (path_ "status" TString
                     .> enum ["Active"; "Inactive"; "Suspended"; "Pending"]
                     .> default (VStr "Pending")) ltac:(in_schema)).
    change (walk _ (VObj o)) with (get "status" o) in W.
    rewrite W. unfold field_value.
    change (walk _ (VObj data)) with (get "status" data). now rewrite S.
  - specialize (W (path_ "role" TString
                     .> enum ["User"; "Admin"; "Supervisor"; "Staff"]
                     .> default (VStr "User")) ltac:(in_schema)).
    change (walk _ (VObj o)) with (get "role" o) in W.
    rewrite W. unfold field_value.
    change (walk _ (VObj data)) with (get "role" data). now rewrite R.
  - specialize (W (path_ "is_verified" TBoolean .> default (VBool false))
                  ltac:(in_schema)).
    change (walk _ (VObj o)) with (get "is_verified" o) in W.
    rewrite W. unfold field_value.
    change (walk _ (VObj data)) with (get "is_verified" data). now rewrite V.
  - specialize (W (path_ "is_email_verified" TBoolean .> default (VBool false))
                  ltac:(in_schema)).
    change (walk _ (VObj o)) with (get "is_email_verified" o) in W.
    rewrite W. unfold field_value.
    change (walk _ (VObj data)) with (get "is_email_verified" data). now rewrite E.
Qed.

Lemma register_try_created lib dr req_body db res db' :
  register_try lib dr req_body db = Ok (res, db') ->
  status res = 201%Z ->
  exists user, db' = (db ++ [user])%list /\ forced user.
Proof.
  unfold register_try.
  destruct (validateUserRegister lib dr req_body) as [userData|]; cbn [bind]; [|discriminate].
  destruct (UserModel_findOne lib "email" _ db).
  { intros [= <- <-]. discriminate. }
  destruct (UserModel_findOne lib "contact_number" _ db).
  { intros [= <- <-]. discriminate. }
  destruct (transformForMongoose lib userData) as [mongooseData|]; cbn [bind]; [|discriminate].
  destruct (UserModel_create _ _ _ _) as [[user db1]|] eqn:C; cbn [bind]; [|discriminate].
  intros [= <- <-] _.
  exists user.
  apply create_forced in C; auto; now get_simpl.
Qed.

Lemma register_catch_status (e : exn) : status (register_catch e) <> 201%Z.
Proof.
  destruct e; simpl; try discriminate.
  repeat match goal with
         | |- context [if ?b then _ else _] => destruct b
         end; simpl; discriminate.
Qed.

Lemma validate_status errors res : validate errors = Some res -> status res = 400%Z.
Proof.
  unfold validate. destruct (negb _); [|discriminate].
  destruct (existsb _ _); intros [= <-]; reflexivity.
Qed.

Lemma post_register_inv lib dr req_body db res db' :
  post_register lib dr req_body db = (res, db') ->
  status res = 201%Z ->
  validate (snd (run_chains lib (now dr) registerValidator req_body)) = None
  /\ register lib dr (fst (run_chains lib (now dr) registerValidator req_body)) db
     = (res, db').
Proof.
  unfold post_register.
  destruct (run_chains _ _ _ _) as [sanitized errors]. cbn [fst snd].
  destruct (validate errors) as [r|] eqn:V; [|auto].
  intros [= <- <-] S. apply validate_status in V. congruence.
Qed.

(** C1: when the register route, or the [register] handler itself, answers
    201 it has stored exactly one new record, and that record has
    [form_id = null], [status = "Pending"], [role = "User"],
    [is_verified = false] and [is_email_verified = false], whatever the
    request said of these fields. *)
Theorem registration_forces_fields lib dr req_body db res db' :
  post_register lib dr req_body db = (res, db')
  \/ register lib dr req_body db = (res, db') ->
  status res = 201%Z ->
  exists user,
    db' = (db ++ [user])%list
    /\ get "form_id" user = VNull
    /\ get "status" user = VStr "Pending"
    /\ get "role" user = VStr "User"
    /\ get "is_verified" user = VBool false
    /\ get "is_email_verified" user = VBool false.
Proof.
  intros H S.
  assert (R : exists body', register lib dr body' db = (res, db')).
  { destruct H as [H|H]; [|eauto].
    apply post_register_inv in H as [_ H]; eauto. }
  destruct R as [body' R]. unfold register in R.
  destruct (register_try lib dr body' db) as [[r d]|e] eqn:T.
  - injection R as <- <-. now apply register_try_created in T.
  - injection R as <- <-. now apply register_catch_status in S.
Qed.

(** ** C5 *)

Lemma login_forbidden lib dr req_body db loginData user st :
  parse lib dr UserLoginSchema req_body = Ok loginData ->
  UserModel_findOne lib "email" (prop "email" loginData) db = Some user ->
  get "status" user = VStr st ->
  st = "Suspended" \/ st = "Inactive" ->
  login lib dr req_body db = (forbidden st, db).
Proof.
  intros P F S H. unfold login, login_try. rewrite P. cbn [bind]. rewrite F, S.
  destruct H as [-> | ->]; reflexivity.
Qed.

(** C5: a login that passes validation and finds an account whose status is
    Suspended or Inactive is answered 403 with the message of that status,
    without a token and without a write, whatever the password. *)
Theorem suspended_or_inactive_login_is_403 lib dr req_body db sanitized
    loginData user st :
  run_chains lib (now dr) loginValidator req_body = (sanitized, []) ->
  parse lib dr UserLoginSchema sanitized = Ok loginData ->
  UserModel_findOne lib "email" (prop "email" loginData) db = Some user ->
  get "status" user = VStr st ->
  st = "Suspended" \/ st = "Inactive" ->
  forall res db',
    post_login lib dr req_body db = (res, db') ->
    status res = 403%Z
    /\ json res = VObj [("success", VBool false);
                        ("message", VStr (status_message st))]
    /\ walk ["data"; "token"] (json res) = VUndefined
    /\ db' = db.
Proof.
  intros R P F S H res db'. unfold post_login. rewrite R. cbn [validate List.length Nat.eqb negb].
  rewrite (login_forbidden lib dr sanitized db loginData user st P F S H).
  intros [= <- <-]. repeat split.
Qed.

(** ** C6 *)

Lemma login_unknown_email lib dr req_body db loginData :
  parse lib dr UserLoginSchema req_body = Ok loginData ->
  UserModel_findOne lib "email" (prop "email" loginData) db = None ->
  login lib dr req_body db = (invalid_credentials "email", db).
Proof.
  intros P F. unfold login, login_try. rewrite P. cbn [bind]. now rewrite F.
Qed.

Lemma login_wrong_password lib dr req_body db loginData user :
  parse lib dr UserLoginSchema req_body = Ok loginData ->
  UserModel_findOne lib "email" (prop "email" loginData) db = Some user ->
  is_str "Suspended" (get "status" user) = false ->
  is_str "Inactive" (get "status" user) = false ->
  comparePassword lib user (toString (prop "password" loginData)) = false ->
  login lib dr req_body db = (invalid_credentials "password", db).
Proof.
  intros P F S I C. unfold login, login_try. rewrite P. cbn [bind].
  now rewrite F, S, I, C.
Qed.

(** C6 (as amended): of two logins that pass validation, one for an unknown
    e-mail and one for a known account that is neither Suspended nor Inactive
    with a wrong password, both are answered 401 with the message
    "Invalid email or password", and the two bodies differ in [field]
    alone. *)
Theorem login_failures_differ_only_in_field lib dr db
    body1 sanitized1 loginData1 body2 sanitized2 loginData2 user :
  run_chains lib (now dr) loginValidator body1 = (sanitized1, []) ->
  parse lib dr UserLoginSchema sanitized1 = Ok loginData1 ->
  UserModel_findOne lib "email" (prop "email" loginData1) db = None ->
  run_chains lib (now dr) loginValidator body2 = (sanitized2, []) ->
  parse lib dr UserLoginSchema sanitized2 = Ok loginData2 ->
  UserModel_findOne lib "email" (prop "email" loginData2) db = Some user ->
  is_str "Suspended" (get "status" user) = false ->
  is_str "Inactive" (get "status" user) = false ->
  comparePassword lib user (toString (prop "password" loginData2)) = false ->
  let res1 := fst (post_login lib dr body1 db) in
  let res2 := fst (post_login lib dr body2 db) in
  status res1 = 401%Z /\ status res2 = 401%Z
  /\ prop "message" (json res1) = VStr "Invalid email or password"
  /\ prop "message" (json res2) = VStr "Invalid email or password"
  /\ prop "field" (json res1) = VStr "email"
  /\ prop "field" (json res2) = VStr "password"
  /\ json res2 = VObj (set "field" (VStr "password") (spread (json res1))).
Proof.
  intros R1 P1 F1 R2 P2 F2 S I C. unfold post_login.
  rewrite R1, R2. cbn [validate List.length Nat.eqb negb].
  rewrite (login_unknown_email lib dr sanitized1 db loginData1 P1 F1).
  rewrite (login_wrong_password lib dr sanitized2 db loginData2 user P2 F2 S I C).
  repeat split.
Qed.

(** ** C7: no password in what is returned *)

(** The output of an object schema has keys of the shape only. *)
Lemma parse_fields_keys rec path o (sh : list (string * ztype)) :
  forall fs issues k,
    parse_fields rec path o sh = (Some fs, issues) ->
    has k fs = true -> existsb (String.eqb k) (map fst sh) = true.
Proof.
  induction sh as [|p rest IH]; intros fs issues k H K.
  - simpl in H. injection H as <- <-. discriminate.
  - simpl in H.
    destruct (rec (snd p) (path ++ [fst p])%list (get (fst p) o)) as [rv is1].
    destruct (parse_fields rec path o rest) as [ro is2] eqn:R.
    destruct rv as [x|]; [|discriminate].
    destruct ro as [fs'|]; [|discriminate].
    simpl. destruct (negb (is_undefined x) || has (fst p) o).
    + injection H as <- <-. simpl in K.
      apply orb_true_iff in K as [K|K]; [now rewrite K|].
      rewrite (IH fs' is2 k eq_refl K). apply orb_true_r.
    + injection H as <- <-.
      rewrite (IH fs' is2 k eq_refl K). apply orb_true_r.
Qed.

Lemma zparse_object_keys lib dr shape path v fs issues k :
  zparse lib dr (ZObject shape) path v = (Some (VObj fs), issues) ->
  has k fs = true -> existsb (String.eqb k) (map fst shape) = true.
Proof.
  simpl. destruct v; try discriminate.
  destruct (parse_fields (zparse lib dr) path o shape) as [[out|] iss] eqn:P;
    [|discriminate].
  intros [= <- <-]. eapply parse_fields_keys; eauto.
Qed.

Lemma parse_public_no_password lib dr user publicUser :
  parse lib dr UserPublicSchema user = Ok publicUser ->
  exists fs, publicUser = VObj fs /\ has "password" fs = false.
Proof.
  unfold parse.
  destruct (zparse lib dr UserPublicSchema [] user) as [[v|] [|i iss]] eqn:Z;
    try discriminate.
  intros [= <-].
  assert (S : exists sh, UserPublicSchema = ZObject sh
                         /\ existsb (String.eqb "password") (map fst sh) = false).
  { eexists. split; [reflexivity|]. vm_compute. reflexivity. }
  destruct S as (sh & E & N). rewrite E in Z.
  assert (O : exists fs, v = VObj fs).
  { simpl in Z. destruct user; try discriminate.
    destruct (parse_fields _ _ _ _) as [[out|] ?]; [|discriminate].
    injection Z as <- _. eauto. }
  destruct O as [fs ->]. exists fs. split; [reflexivity|].
  destruct (has "password" fs) eqn:H; [|reflexivity].
  rewrite (zparse_object_keys lib dr sh [] user fs [] "password" Z H) in N.
  discriminate.
Qed.

Lemma toJSON_no_password (this : obj) : has "password" (toJSON this) = false.
Proof.
  unfold toJSON. rewrite has_del_neq by discriminate. apply has_del_eq.
Qed.

Lemma sanitizeUser_no_password (user : value) :
  match sanitizeUser user with
  | Ok r => has_password r = false
  | Throw _ => True
  end.
Proof.
  unfold sanitizeUser. destruct (truthy user) eqn:T; cbn [negb].
  - unfold toObject_or_self. destruct (truthy (prop "toObject" user)); cbn [bind]; auto.
    simpl. rewrite has_del_neq by discriminate. apply has_del_eq.
  - destruct user; simpl in *; auto; discriminate.
Qed.

Lemma toPlain_no_password (document : value) :
  match toPlain document with
  | Ok r => has_password r = false
  | Throw _ => True
  end.
Proof.
  unfold toPlain. destruct (truthy document) eqn:T; cbn [negb].
  - unfold toObject_or_self. destruct (truthy (prop "toObject" document)); cbn [bind]; auto.
    destruct document; simpl; auto. apply has_del_eq.
  - destruct document; simpl in *; auto; discriminate.
Qed.

Lemma sanitizeUserForPublic_no_password lib dr (user : value) :
  match sanitizeUserForPublic lib dr user with
  | Ok r => has_password r = false
  | Throw _ => True
  end.
Proof.
  unfold sanitizeUserForPublic.
  destruct (parse lib dr UserPublicSchema user) as [publicUser|] eqn:P; cbn [bind]; auto.
  destruct (parse_public_no_password lib dr user publicUser P) as (fs & -> & N).
  cbn [spread has_password]. now rewrite !has_set_neq by discriminate.
Qed.

Lemma register_catch_no_user (e : exn) : response_user (register_catch e) = VUndefined.
Proof.
  destruct e; simpl; auto.
  repeat match goal with
         | |- context [if ?b then _ else _] => destruct b
         end; reflexivity.
Qed.

Lemma register_no_password lib dr req_body db :
  has_password (response_user (fst (register lib dr req_body db))) = false.
Proof.
  unfold register.
  destruct (register_try lib dr req_body db) as [[r d]|e] eqn:T;
    [|simpl; now rewrite register_catch_no_user].
  unfold register_try in T.
  destruct (validateUserRegister lib dr req_body) as [userData|]; cbn [bind] in T; [|discriminate].
  destruct (UserModel_findOne lib "email" _ db).
  { injection T as <- <-. reflexivity. }
  destruct (UserModel_findOne lib "contact_number" _ db).
  { injection T as <- <-. reflexivity. }
  destruct (transformForMongoose lib userData) as [mongooseData|]; cbn [bind] in T; [|discriminate].
  destruct (UserModel_create _ _ _ _) as [[user db1]|]; cbn [bind] in T; [|discriminate].
  injection T as <- <-. reflexivity.
Qed.

Lemma login_no_password lib dr req_body db :
  has_password (response_user (fst (login lib dr req_body db))) = false.
Proof.
  unfold login.
  destruct (login_try lib dr req_body db) as [[r d]|e] eqn:T;
    [|destruct e; reflexivity].
  unfold login_try in T.
  destruct (parse lib dr UserLoginSchema req_body) as [loginData|]; cbn [bind] in T; [|discriminate].
  destruct (UserModel_findOne lib "email" _ db) as [user|].
  2:{ injection T as <- <-. reflexivity. }
  destruct (is_str "Suspended" _). { injection T as <- <-. reflexivity. }
  destruct (is_str "Inactive" _). { injection T as <- <-. reflexivity. }
  destruct (negb _). { injection T as <- <-. reflexivity. }
  destruct (save _ _ _ _ _ _ _) as [[u d1]|]; cbn [bind] in T; [|discriminate].
  injection T as <- <-. reflexivity.
Qed.

Lemma validate_no_user errors res :
  validate errors = Some res -> response_user res = VUndefined.
Proof.
  unfold validate. destruct (negb _); [|discriminate].
  destruct (existsb _ _); intros [= <-]; reflexivity.
Qed.

Lemma post_register_no_password lib dr req_body db :
  has_password (response_user (fst (post_register lib dr req_body db))) = false.
Proof.
  unfold post_register.
  destruct (run_chains _ _ _ _) as [sanitized errors].
  destruct (validate errors) as [res|] eqn:V.
  - simpl. now rewrite (validate_no_user errors res V).
  - apply register_no_password.
Qed.

Lemma post_login_no_password lib dr req_body db :
  has_password (response_user (fst (post_login lib dr req_body db))) = false.
Proof.
  unfold post_login.
  destruct (run_chains _ _ _ _) as [sanitized errors].
  destruct (validate errors) as [res|] eqn:V.
  - simpl. now rewrite (validate_no_user errors res V).
  - apply login_no_password.
Qed.

Lemma registerUser_no_password lib dr req_body :
  has_password (prop "data" (json (registerUser lib dr req_body))) = false.
Proof.
  unfold registerUser.
  destruct (validateUserRegister lib dr req_body) as [userData|e]; cbn [bind].
  - pose proof (sanitizeUserForPublic_no_password lib dr userData) as H.
    destruct (sanitizeUserForPublic lib dr userData) as [r|e]; [exact H|].
    destruct e; reflexivity.
  - destruct e; reflexivity.
Qed.

Lemma loginUser_no_password lib dr req_body :
  has_password (prop "user" (json (loginUser lib dr req_body))) = false.
Proof.
  unfold loginUser.
  destruct (validateUserLogin lib dr req_body) as [loginData|e]; [reflexivity|].
  destruct e; reflexivity.
Qed.

(** C7: no user object that a helper returns or that a response of
    [register], [login] or the two routes carries has a [password] key,
    on the success paths and on the error paths. *)
Theorem no_password_in_returned_user lib dr :
  (forall this, has "password" (toJSON this) = false)
  /\ (forall user, match sanitizeUser user with
                   | Ok r => has_password r = false
                   | Throw _ => True
                   end)
  /\ (forall document, match toPlain document with
                       | Ok r => has_password r = false
                       | Throw _ => True
                       end)
  /\ (forall user, match sanitizeUserForPublic lib dr user with
                   | Ok r => has_password r = false
                   | Throw _ => True
                   end)
  /\ (forall req_body db,
        has_password (response_user (fst (register lib dr req_body db))) = false
        /\ has_password (response_user (fst (login lib dr req_body db))) = false
        /\ has_password (response_user (fst (post_register lib dr req_body db))) = false
        /\ has_password (response_user (fst (post_login lib dr req_body db))) = false)
  /\ (forall req_body,
        has_password (prop "data" (json (registerUser lib dr req_body))) = false
        /\ has_password (prop "user" (json (loginUser lib dr req_body))) = false).
Proof.
  split; [intros; apply toJSON_no_password|].
  split; [intros; apply sanitizeUser_no_password|].
  split; [intros; apply toPlain_no_password|].
  split; [intros; apply sanitizeUserForPublic_no_password|].
  split; intros.
  - split; [apply register_no_password|].
    split; [apply login_no_password|].
    split; [apply post_register_no_password|apply post_login_no_password].
  - split; [apply registerUser_no_password|apply loginUser_no_password].
Qed.

(** * The express-validator runner *)

Lemma run_chains_cons lib t c rest b :
  run_chains lib t (c :: rest) b
  = (fst (run_chains lib t rest (fst (run_chain lib t c b))),
     (snd (run_chain lib t c b)
      ++ snd (run_chains lib t rest (fst (run_chain lib t c b))))%list).
Proof.
  simpl. destruct (run_chain lib t c b) as [b1 e1]. simpl.
  now destruct (run_chains lib t rest b1).
Qed.

Lemma run_chains_app lib t cs1 cs2 b :
  run_chains lib t (cs1 ++ cs2) b
  = (fst (run_chains lib t cs2 (fst (run_chains lib t cs1 b))),
     (snd (run_chains lib t cs1 b)
      ++ snd (run_chains lib t cs2 (fst (run_chains lib t cs1 b))))%list).
Proof.
  revert b. induction cs1 as [|c r IH]; intros b.
  - simpl. now destruct (run_chains lib t cs2 b).
  - rewrite <- app_comm_cons. rewrite !run_chains_cons. rewrite IH. simpl.
    now rewrite app_assoc.
Qed.

Lemma run_item_errors lib t path it v e :
  In e (snd (run_item lib t path it v)) ->
  err_type e = "field" /\ err_path e = path.
Proof.
  destruct it as [sv negated message|f message|s|f]; simpl.
  - rewrite in_flat_map. intros (x & _ & H).
    destruct (Bool.eqb _ _); [|contradiction].
    destruct H as [<-|[]]. auto.
  - destruct (f lib t v); simpl; [|contradiction].
    intros [<-|[]]. auto.
  - destruct v; simpl; contradiction.
  - contradiction.
Qed.

Lemma run_stack_errors lib t c items :
  forall b inst e,
    In e (snd (run_stack lib t c items b inst)) ->
    err_type e = "field" /\ err_path e = field c.
Proof.
  induction items as [|it rest IH]; intros b inst e; simpl; [contradiction|].
  destruct (optional_ c && is_undefined inst); [apply IH|].
  destruct (run_item lib t (field c) it inst) as [nv errs] eqn:R.
  destruct (run_stack lib t c rest _ nv) as [b' es] eqn:S. simpl.
  rewrite in_app_iff. intros [H|H].
  - apply (run_item_errors lib t (field c) it inst). now rewrite R.
  - eapply IH. rewrite S. exact H.
Qed.

Lemma run_chain_errors lib t c b e :
  In e (snd (run_chain lib t c b)) ->
  err_type e = "field" /\ err_path e = field c.
Proof. apply run_stack_errors. Qed.

(** A property of the request body that every write of the chain keeps. *)
Lemma run_stack_keeps (Q : value -> Prop) lib t c items :
  (forall x b, Q b -> Q (lodash_set (split_dot (field c)) x b)) ->
  forall b inst, Q b -> Q (fst (run_stack lib t c items b inst)).
Proof.
  intros K. induction items as [|it rest IH]; intros b inst H; simpl; auto.
  destruct (optional_ c && is_undefined inst); [now apply IH|].
  destruct (run_item lib t (field c) it inst) as [nv errs].
  match goal with
  | |- context [run_stack lib t c rest ?b' nv] =>
      assert (Q b') by (destruct (negb _); auto);
      specialize (IH b' nv);
      destruct (run_stack lib t c rest b' nv) as [b2 es]
  end.
  simpl in *. auto.
Qed.

Lemma run_chain_keeps (Q : value -> Prop) lib t c :
  (forall x b, Q b -> Q (lodash_set (split_dot (field c)) x b)) ->
  forall b, Q b -> Q (fst (run_chain lib t c b)).
Proof. intros K b H. unfold run_chain. now apply run_stack_keeps. Qed.

(** An optional chain does nothing on a field that is absent. *)
Lemma run_stack_absent lib t c items b :
  optional_ c = true ->
  run_stack lib t c items b VUndefined = (b, []).
Proof.
  intros O. induction items as [|it rest IH]; simpl; auto.
  now rewrite O.
Qed.

(** ** A field that other chains leave alone *)

Lemma lodash_set_apart p c v h lit x b :
  apart p c = true -> reads p v h lit b ->
  reads p v h lit (lodash_set (split_dot (field c)) x b).
Proof.
  unfold apart. intros A (o & -> & W & H & G).
  apply andb_true_iff in A as [A A4]. apply andb_true_iff in A as [A A3].
  apply andb_true_iff in A as [A1 A2].
  apply negb_true_iff, String.eqb_neq in A2, A3, A4.
  set (segs := split_dot (field c)) in *.
  unfold lodash_set.
  destruct (has (join "." segs) o).
  - exists (set (join "." segs) x o). split; [reflexivity|].
    rewrite has_set_neq by congruence. rewrite get_set_neq by congruence.
    repeat split; auto.
    destruct p as [|k p']; [discriminate|]. simpl in *.
    rewrite get_set_neq by congruence. exact W.
  - destruct segs as [|k r] eqn:S; [destruct p; discriminate|].
    cbn [set_path]. eexists. split; [reflexivity|].
    cbn [hd] in A4.
    rewrite has_set_neq by congruence. rewrite get_set_neq by congruence.
    repeat split; auto.
    pose proof (walk_set_path_diverge p (k :: r) x (VObj o) A1) as E.
    cbn [set_path] in E. now rewrite E.
Qed.

Lemma run_chains_apart p v h lit lib t cs :
  forallb (apart p) cs = true ->
  forall b, reads p v h lit b -> reads p v h lit (fst (run_chains lib t cs b)).
Proof.
  induction cs as [|c rest IH]; intros A b R; [exact R|].
  simpl in A. apply andb_true_iff in A as [Ac Ar].
  rewrite run_chains_cons. cbn [fst]. apply IH; auto.
  apply run_chain_keeps; auto.
  intros x b0. now apply lodash_set_apart.
Qed.

Lemma run_chains_error_paths lib t cs :
  forall b e, In e (snd (run_chains lib t cs b)) ->
              err_type e = "field" /\ In (err_path e) (map field cs).
Proof.
  induction cs as [|c rest IH]; intros b e; [simpl; contradiction|].
  rewrite run_chains_cons. cbn [snd]. rewrite in_app_iff. intros [H|H].
  - apply run_chain_errors in H as [T P]. split; auto. left. now symmetry.
  - apply IH in H as [T P]. split; auto. now right.
Qed.

(** ** C2: [form_id] in the payload *)

Lemma registerValidator_split :
  registerValidator = (chains_before_form_id ++ [form_id_chain])%list.
Proof. reflexivity. Qed.

Lemma json_key_defined (k : string) (o : obj) :
  is_json (VObj o) = true -> has k o = true -> is_undefined (get k o) = false.
Proof.
  induction o as [|[k' v] r IH]; simpl; [discriminate|].
  intros J H. apply andb_true_iff in J as [Jv Jr].
  destruct (String.eqb k k'); simpl in H; [|now apply IH].
  destruct v; simpl in *; auto; discriminate.
Qed.

Lemma form_id_chain_error lib t (o : obj) :
  is_undefined (get "form_id" o) = false ->
  exists e, In e (snd (run_chain lib t form_id_chain (VObj o)))
            /\ err_type e = "field" /\ err_path e = "form_id".
Proof.
  intros D. unfold run_chain.
  assert (I : lodash_get (split_dot (field form_id_chain)) (VObj o) = get "form_id" o).
  { change (split_dot (field form_id_chain)) with ["form_id"].
    unfold lodash_get. cbn [join]. now destruct (has "form_id" o). }
  rewrite I. cbn [stack form_id_chain body optional custom push app run_stack
                  optional_ field].
  rewrite D. cbn [andb run_item].
  cbn [snd app]. eexists. split; [left; reflexivity|]. split; reflexivity.
Qed.

(** C2: a registration whose JSON body has a [form_id] key, whatever value it
    holds, is answered 400 with the one error of the field [form_id], and
    the collection is left as it was. *)
Theorem form_id_is_rejected lib dr (o : obj) db :
  is_json (VObj o) = true ->
  has "form_id" o = true ->
  post_register lib dr (VObj o) db = (form_id_rejected, db).
Proof.
  intros J H. pose proof (json_key_defined "form_id" o J H) as D.
  unfold post_register. rewrite registerValidator_split, run_chains_app.
  set (b1 := fst (run_chains lib (now dr) chains_before_form_id (VObj o))).
  assert (R : reads ["form_id"] (get "form_id" o) true (get "form_id" o) b1).
  { subst b1. apply run_chains_apart; [vm_compute; reflexivity|].
    exists o. repeat split; auto. }
  destruct R as (o1 & E1 & W1 & _ & _). cbn [walk prop] in W1.
  rewrite E1.
  assert (D1 : is_undefined (get "form_id" o1) = false) by now rewrite W1.
  destruct (form_id_chain_error lib (now dr) o1 D1) as (e & I & T & P).
  rewrite run_chains_cons. cbn [run_chains fst snd]. rewrite app_nil_r.
  set (errors := (_ ++ _)%list).
  assert (X : existsb (fun err => String.eqb (err_type err) "field"
                                  && String.eqb (err_path err) "form_id") errors
              = true).
  { apply existsb_exists. exists e. split.
    - subst errors. apply in_or_app. now right.
    - now rewrite T, P. }
  assert (L : negb (Nat.eqb (List.length errors) 0) = true).
  { destruct errors; [discriminate|reflexivity]. }
  unfold validate. rewrite L, X. reflexivity.
Qed.

(** * Zod: general facts *)

Section ztype_induction.

Variable P : ztype -> Prop.
Hypothesis HAny : P ZAny.
Hypothesis HString : forall checks, P (ZString checks).
Hypothesis HNumber : forall checks, P (ZNumber checks).
Hypothesis HBoolean : P ZBoolean.
Hypothesis HEnum : forall values, P (ZEnum values).
Hypothesis HOptional : forall t, P t -> P (ZOptional t).
Hypothesis HNullable : forall t, P t -> P (ZNullable t).
Hypothesis HDefault : forall t d, P t -> P (ZDefault t d).
Hypothesis HRefine : forall t check message, P t -> P (ZRefine t check message).
Hypothesis HObject :
  forall shape, Forall (fun p => P (snd p)) shape -> P (ZObject shape).

Fixpoint ztype_nested_ind (t : ztype) : P t :=
  match t with
  | ZAny => HAny
  | ZString checks => HString checks
  | ZNumber checks => HNumber checks
  | ZBoolean => HBoolean
  | ZEnum values => HEnum values
  | ZOptional t' => HOptional t' (ztype_nested_ind t')
  | ZNullable t' => HNullable t' (ztype_nested_ind t')
  | ZDefault t' d => HDefault t' d (ztype_nested_ind t')
  | ZRefine t' check message => HRefine t' check message (ztype_nested_ind t')
  | ZObject shape =>
      HObject shape
        ((fix go (l : list (string * ztype)) : Forall (fun p => P (snd p)) l :=
            match l with
            | [] => Forall_nil _
            | p :: r => Forall_cons p (ztype_nested_ind (snd p)) (go r)
            end) shape)
  end.

End ztype_induction.

Lemma parse_fields_cons rec path o p rest :
  parse_fields rec path o (p :: rest)
  = (match fst (rec (snd p) (path ++ [fst p])%list (get (fst p) o)),
           fst (parse_fields rec path o rest) with
     | Some x, Some fs =>
         if negb (is_undefined x) || has (fst p) o
         then Some ((fst p, x) :: fs) else Some fs
     | _, _ => None
     end,
     (snd (rec (snd p) (path ++ [fst p])%list (get (fst p) o))
      ++ snd (parse_fields rec path o rest))%list).
Proof.
  simpl. destruct (rec (snd p) _ _) as [rv is1].
  now destruct (parse_fields rec path o rest) as [ro is2].
Qed.

(** The issues of an object are those of its fields. *)
Lemma parse_fields_issue rec path o sh i :
  In i (snd (parse_fields rec path o sh)) ->
  exists p, In p sh
            /\ In i (snd (rec (snd p) (path ++ [fst p])%list (get (fst p) o))).
Proof.
  induction sh as [|p rest IH]; [simpl; contradiction|].
  rewrite parse_fields_cons. cbn [snd]. rewrite in_app_iff. intros [H|H].
  - exists p. split; [now left|exact H].
  - destruct (IH H) as (q & I & J). exists q. split; [now right|exact J].
Qed.

(** The value of a key of the output is the parsed value of that field. *)
Lemma parse_fields_get rec path o sh :
  NoDup (map fst sh) ->
  forall fs, fst (parse_fields rec path o sh) = Some fs ->
  forall p, In p sh ->
  exists x, fst (rec (snd p) (path ++ [fst p])%list (get (fst p) o)) = Some x
            /\ get (fst p) fs = x.
Proof.
  induction sh as [|q rest IH]; intros N fs F p I; [contradiction|].
  simpl in N. inversion N as [|? ? Nq Nr]; subst.
  rewrite parse_fields_cons in F. cbn [fst] in F.
  destruct (fst (rec (snd q) _ _)) as [x|] eqn:Rq; [|discriminate].
  destruct (fst (parse_fields rec path o rest)) as [fs'|] eqn:Rr; [|discriminate].
  assert (A : forall k, ~ In k (map fst rest) -> get k fs' = VUndefined).
  { intros k Nk. apply get_absent.
    destruct (has k fs') eqn:Hk; [|reflexivity]. exfalso. apply Nk.
    pose proof (parse_fields_keys rec path o rest fs'
                  (snd (parse_fields rec path o rest)) k) as K.
    rewrite <- Rr in K. rewrite <- surjective_pairing in K.
    specialize (K eq_refl Hk).
    apply existsb_exists in K as (k' & Ik & Ek).
    apply String.eqb_eq in Ek. now subst. }
  destruct I as [->|I].
  - exists x. split; [exact Rq|].
    destruct (negb (is_undefined x) || has (fst p) o) eqn:C.
    + injection F as <-. simpl. now rewrite String.eqb_refl.
    + injection F as <-. rewrite A by exact Nq.
      apply orb_false_iff in C as [C _]. destruct x; simpl in C; congruence.
  - destruct (IH Nr fs' eq_refl p I) as (y & Ry & Gy).
    exists y. split; [exact Ry|].
    assert (Npq : fst p <> fst q).
    { intros E. apply Nq. rewrite <- E. now apply in_map. }
    destruct (negb (is_undefined x) || has (fst q) o).
    + injection F as <-. simpl.
      apply String.eqb_neq in Npq. now rewrite Npq.
    + now injection F as <-.
Qed.

Lemma is_prefix_refl p : is_prefix p p.
Proof. exists []. now rewrite app_nil_r. Qed.

Lemma run_string_check_path lib path s c i :
  In i (run_string_check lib path s c) -> issue_path i = path.
Proof.
  destruct c; simpl;
    match goal with |- context [if ?b then _ else _] => destruct b end;
    simpl; intros H; try contradiction; destruct H as [<-|[]]; reflexivity.
Qed.

Lemma run_number_check_path path n c i :
  In i (run_number_check path n c) -> issue_path i = path.
Proof.
  destruct c; simpl; try contradiction;
    match goal with |- context [if ?b then _ else _] => destruct b end;
    simpl; intros H; try contradiction; destruct H as [<-|[]]; reflexivity.
Qed.

(** Every issue lies at or below the path that was parsed. *)
Lemma zparse_prefix lib dr (t : ztype) :
  forall path v i,
    In i (snd (zparse lib dr t path v)) -> is_prefix path (issue_path i).
Proof.
  induction t using ztype_nested_ind; intros path v i; simpl.
  - contradiction.
  - destruct v; simpl; try (intros [<-|[]]; apply is_prefix_refl).
    rewrite in_flat_map. intros (c & _ & H).
    apply run_string_check_path in H. rewrite H. apply is_prefix_refl.
  - destruct v; simpl; try (intros [<-|[]]; apply is_prefix_refl).
    rewrite in_flat_map. intros (c & _ & H).
    apply run_number_check_path in H. rewrite H. apply is_prefix_refl.
  - destruct v; simpl; try contradiction; intros [<-|[]]; apply is_prefix_refl.
  - destruct v; simpl; try (intros [<-|[]]; apply is_prefix_refl).
    destruct (existsb _ _); simpl; [contradiction|].
    intros [<-|[]]; apply is_prefix_refl.
  - destruct (is_undefined v); simpl; [contradiction|apply IHt].
  - destruct v; simpl; try contradiction; apply IHt.
  - destruct (is_undefined v); [|apply IHt].
    destruct (zod_default_parsed lib); [apply IHt|simpl; contradiction].
  - destruct (zparse lib dr t path v) as [[x|] issues] eqn:Z; simpl.
    + destruct (check lib (now dr) x).
      * intros I. apply (IHt path v). now rewrite Z.
      * rewrite in_app_iff. intros [I|[<-|[]]].
        -- apply (IHt path v). now rewrite Z.
        -- apply is_prefix_refl.
    + intros I. apply (IHt path v). now rewrite Z.
  - destruct v; simpl; try (intros [<-|[]]; apply is_prefix_refl).
    destruct (parse_fields (zparse lib dr) path o shape) as [out issues] eqn:F.
    simpl. intros I.
    assert (I' : In i (snd (parse_fields (zparse lib dr) path o shape)))
      by now rewrite F.
    apply parse_fields_issue in I' as (p & Ip & J).
    rewrite Forall_forall in H. apply (H p Ip) in J.
    destruct J as [r ->]. exists ([fst p] ++ r)%list. now rewrite app_assoc.
Qed.

(** Parsing is aborted only with an issue. *)
Lemma zparse_aborted lib dr (t : ztype) :
  forall path v, fst (zparse lib dr t path v) = None ->
                 snd (zparse lib dr t path v) <> [].
Proof.
  induction t using ztype_nested_ind; intros path v; simpl.
  - discriminate.
  - destruct v; simpl; discriminate.
  - destruct v; simpl; discriminate.
  - destruct v; simpl; discriminate.
  - destruct v; simpl; try discriminate. destruct (existsb _ _); simpl; discriminate.
  - destruct (is_undefined v); simpl; [discriminate|apply IHt].
  - destruct v; simpl; try discriminate; apply IHt.
  - destruct (is_undefined v); [|apply IHt].
    destruct (zod_default_parsed lib); [apply IHt|simpl; discriminate].
  - specialize (IHt path v).
    destruct (zparse lib dr t path v) as [[x|] issues]; simpl in *; [discriminate|].
    auto.
  - destruct v; simpl; try discriminate.
    destruct (parse_fields (zparse lib dr) path o shape) as [out issues] eqn:F.
    simpl. destruct out; [discriminate|]. intros _.
    assert (G : fst (parse_fields (zparse lib dr) path o shape) = None
                -> snd (parse_fields (zparse lib dr) path o shape) <> []).
    { clear F. induction shape as [|p rest IHs]; [simpl; discriminate|].
      rewrite parse_fields_cons. cbn [fst snd].
      inversion H as [|? ? Hp Hr]; subst.
      destruct (fst (zparse lib dr (snd p) _ _)) eqn:Zp.
      - destruct (fst (parse_fields _ _ _ rest)) eqn:Zr.
        + destruct (_ || _); discriminate.
        + intros _ E. apply app_eq_nil in E as [_ E]. now apply (IHs Hr).
      - intros _ E. apply app_eq_nil in E as [E _]. now apply (Hp _ _ Zp). }
    rewrite F in G. simpl in G. auto.
Qed.

Lemma parse_ok lib dr t data v :
  parse lib dr t data = Ok v <->
  zparse lib dr t [] data = (Some v, []).
Proof.
  unfold parse. destruct (zparse lib dr t [] data) as [[x|] [|i r]]; split;
    intros H; try discriminate; try (injection H as <-; reflexivity);
    try (injection H as ->; reflexivity).
Qed.

Lemma parse_succeeds lib dr t data :
  snd (zparse lib dr t [] data) = [] -> exists v, parse lib dr t data = Ok v.
Proof.
  intros H. pose proof (zparse_aborted lib dr t [] data) as A.
  unfold parse. destruct (zparse lib dr t [] data) as [[x|] issues]; simpl in *.
  - subst. eauto.
  - exfalso. now apply A.
Qed.

(** ** C8: the ZIP code *)

Lemma registerValidator_zip :
  registerValidator = (chains_before_zip ++ zip_chain :: chains_after_zip)%list.
Proof. reflexivity. Qed.

(** *** The request-field pass *)

Lemma not_zip_field (cs : list chain) (x : string) :
  forallb (fun c => negb (String.eqb (field c) "address.zip_code")) cs = true ->
  In x (map field cs) -> x <> "address.zip_code".
Proof.
  induction cs as [|c r IH]; simpl; [contradiction|].
  intros H [<-|I].
  - apply andb_true_iff in H as [H _]. now apply negb_true_iff, String.eqb_neq in H.
  - apply andb_true_iff in H as [_ H]. auto.
Qed.

Lemma chains_zip_omitted lib t (o : obj) :
  has "address.zip_code" o = false ->
  walk zip_path (VObj o) = VUndefined ->
  reads zip_path VUndefined false VUndefined
        (fst (run_chains lib t registerValidator (VObj o)))
  /\ forall e, In e (snd (run_chains lib t registerValidator (VObj o))) ->
               err_path e <> "address.zip_code".
Proof.
  intros H W.
  assert (R0 : reads zip_path VUndefined false VUndefined (VObj o)).
  { exists o. repeat split; auto. now apply get_absent. }
  rewrite registerValidator_zip, run_chains_app.
  set (b1 := fst (run_chains lib t chains_before_zip (VObj o))).
  assert (R1 : reads zip_path VUndefined false VUndefined b1).
  { subst b1. apply run_chains_apart; [vm_compute; reflexivity|exact R0]. }
  rewrite run_chains_cons.
  assert (Z : run_chain lib t zip_chain b1 = (b1, [])).
  { destruct R1 as (o1 & E1 & W1 & H1 & _). rewrite E1.
    unfold run_chain.
    change (split_dot (field zip_chain)) with zip_path.
    unfold lodash_get. rewrite H1, W1. now apply run_stack_absent. }
  rewrite Z. cbn [fst snd app].
  split.
  - apply run_chains_apart; [vm_compute; reflexivity|exact R1].
  - intros e. rewrite in_app_iff. intros [I|I];
      apply run_chains_error_paths in I as [_ I];
      revert I; apply not_zip_field; vm_compute; reflexivity.
Qed.

(** *** The structural pass *)

Lemma register_field (p : string * ztype) :
  In p (shape_of UserRegisterSchema) ->
  fst p <> "address" \/ p = ("address", AddressSchema).
Proof.
  unfold UserRegisterSchema. simpl.
  intros H.
  repeat (destruct H as [<-|H]; [first [left; discriminate|right; reflexivity]|]).
  contradiction.
Qed.

Lemma address_field (q : string * ztype) :
  In q (shape_of AddressSchema) ->
  fst q <> "zip_code" \/ q = ("zip_code", zip_schema).
Proof.
  unfold AddressSchema. simpl.
  intros H.
  repeat (destruct H as [<-|H]; [first [left; discriminate|right; reflexivity]|]).
  contradiction.
Qed.

Lemma register_shape_nodup : NoDup (map fst (shape_of UserRegisterSchema)).
Proof.
  unfold UserRegisterSchema. simpl.
  repeat (constructor; [simpl; intuition discriminate|]). constructor.
Qed.

Lemma address_shape_nodup : NoDup (map fst (shape_of AddressSchema)).
Proof.
  unfold AddressSchema. simpl.
  repeat (constructor; [simpl; intuition discriminate|]). constructor.
Qed.

Lemma zparse_object lib dr t path (o : obj) :
  zparse lib dr (ZObject (shape_of t)) path (VObj o)
  = (match fst (parse_fields (zparse lib dr) path o (shape_of t)) with
     | Some fs => Some (VObj fs)
     | None => None
     end,
     snd (parse_fields (zparse lib dr) path o (shape_of t))).
Proof.
  simpl. now destruct (parse_fields (zparse lib dr) path o (shape_of t)).
Qed.

Lemma register_schema_object : UserRegisterSchema = ZObject (shape_of UserRegisterSchema).
Proof. reflexivity. Qed.

Lemma address_schema_object : AddressSchema = ZObject (shape_of AddressSchema).
Proof. reflexivity. Qed.

(** What the schema of [zip_code] yields on a value. *)
Lemma zip_schema_parse lib dr path (v : value) :
  zparse lib dr zip_schema path v
  = match v with
    | VUndefined =>
        if zod_default_parsed lib
        then (Some (VStr ""), [mk_issue path "ZIP code must be 4 digits"])
        else (Some (VStr ""), [])
    | VStr s =>
        (Some v, if re_zip s then [] else [mk_issue path "ZIP code must be 4 digits"])
    | _ => (None, [invalid_type path "string" v])
    end.
Proof.
  destruct v; cbn -[re_zip]; try reflexivity.
  rewrite app_nil_r. reflexivity.
Qed.

Lemma prefix_head (k k' : string) (r l : list string) :
  is_prefix (k :: r) (k' :: l) -> k = k'.
Proof. intros [x E]. simpl in E. now injection E. Qed.

Lemma prefix_second (k1 k2 k2' : string) (l : list string) :
  is_prefix ([k1] ++ [k2])%list (k1 :: k2' :: l) -> k2 = k2'.
Proof. intros [x E]. simpl in E. now injection E. Qed.

Lemma zod_zip_no_issue lib dr (o : obj) :
  zod_default_parsed lib = false ->
  walk zip_path (VObj o) = VUndefined ->
  forall i, In i (snd (zparse lib dr UserRegisterSchema [] (VObj o))) ->
            issue_path i <> zip_path.
Proof.
  intros F W i. rewrite register_schema_object, zparse_object. cbn [snd].
  intros I. apply parse_fields_issue in I as (p & Ip & I).
  destruct (register_field p Ip) as [N| ->].
  - apply zparse_prefix in I. intros E. rewrite E in I.
    apply prefix_head in I. congruence.
  - cbn [fst snd app] in I.
    cbn [walk zip_path prop] in W.
    destruct (get "address" o) as [| | | | | | |a] eqn:A;
      try (simpl in I; destruct I as [<-|[]]; discriminate).
    rewrite address_schema_object, zparse_object in I. cbn [snd] in I.
    apply parse_fields_issue in I as (q & Iq & I).
    destruct (address_field q Iq) as [N| ->].
    + apply zparse_prefix in I. intros E. rewrite E in I.
      apply prefix_second in I. congruence.
    + cbn [fst snd] in I. cbn [prop] in W. rewrite W in I.
      rewrite zip_schema_parse, F in I. contradiction.
Qed.

Lemma parse_fields_no_issue rec path o sh :
  snd (parse_fields rec path o sh) = [] ->
  forall p, In p sh -> snd (rec (snd p) (path ++ [fst p])%list (get (fst p) o)) = [].
Proof.
  induction sh as [|q rest IH]; intros H p I; [contradiction|].
  rewrite parse_fields_cons in H. cbn [snd] in H.
  apply app_eq_nil in H as [Hq Hr]. destruct I as [->|I]; auto.
Qed.

(** The ZIP code of a payload that the structural pass accepts. *)
Lemma parsed_zip lib dr (req_body userData : value) :
  validateUserRegister lib dr req_body = Ok userData ->
  exists s,
    walk zip_path userData = VStr s
    /\ ((walk zip_path req_body = VUndefined
         /\ zod_default_parsed lib = false /\ s = "")
        \/ (walk zip_path req_body = VStr s /\ re_zip s = true)).
Proof.
  unfold validateUserRegister. intros P. apply parse_ok in P.
  destruct req_body as [| | | | | | |o]; try discriminate.
  rewrite register_schema_object, zparse_object in P.
  pose proof (f_equal fst P) as P1. pose proof (f_equal snd P) as P2.
  cbn [fst snd] in P1, P2. clear P.
  destruct (fst (parse_fields (zparse lib dr) [] o (shape_of UserRegisterSchema)))
    as [fs|] eqn:F; [|discriminate].
  injection P1 as <-.
  destruct (parse_fields_get _ _ _ _ register_shape_nodup fs F
              ("address", AddressSchema)) as (x & X & G).
  { unfold UserRegisterSchema. simpl. tauto. }
  pose proof (parse_fields_no_issue _ _ _ _ P2 ("address", AddressSchema)) as NI.
  cbn [fst snd app] in X, G, NI.
  specialize (NI ltac:(unfold UserRegisterSchema; simpl; tauto)).
  destruct (get "address" o) as [| | | | | | |a] eqn:A; try discriminate.
  rewrite address_schema_object, zparse_object in X, NI.
  cbn [fst snd] in X, NI.
  destruct (fst (parse_fields (zparse lib dr) ["address"] a (shape_of AddressSchema)))
    as [afs|] eqn:FA; [|discriminate].
  injection X as <-.
  destruct (parse_fields_get _ _ _ _ address_shape_nodup afs FA
              ("zip_code", zip_schema)) as (xz & XZ & GZ).
  { unfold AddressSchema. simpl. tauto. }
  pose proof (parse_fields_no_issue _ _ _ _ NI ("zip_code", zip_schema)) as NZ.
  specialize (NZ ltac:(unfold AddressSchema; simpl; tauto)).
  cbn [fst snd] in XZ, GZ, NZ.
  rewrite zip_schema_parse in XZ, NZ.
  cbn [walk zip_path prop]. rewrite G, A. cbn [prop]. rewrite GZ.
  destruct (get "zip_code" a) as [| | | |s| | |]; try discriminate.
  - destruct (zod_default_parsed lib); [discriminate|].
    injection XZ as <-. exists "". auto.
  - cbn [fst snd] in XZ, NZ. injection XZ as <-. exists s. split; [reflexivity|].
    right. split; [reflexivity|]. destruct (re_zip s); [reflexivity|discriminate].
Qed.

(** *** From the parsed data to the stored record *)

Lemma transformForMongoose_get lib (data : value) (transformed : obj) (k : string) :
  transformForMongoose lib data = Ok transformed ->
  k <> "form_id" -> k <> "date_of_birth" -> k <> "contact_number" ->
  get k transformed = get k (spread data).
Proof.
  unfold transformForMongoose. intros H N1 N2 N3.
  set (t1 := if truthy (get "form_id" (spread data)) then _ else _) in H.
  assert (E1 : get k t1 = get k (spread data)).
  { unfold t1. destruct (truthy (get "form_id" (spread data)));
      [now apply get_del_neq|reflexivity]. }
  set (t2 := set "form_id" VNull t1) in H.
  assert (E2 : get k t2 = get k (spread data)).
  { unfold t2. now rewrite get_set_neq. }
  set (t3 := match get "date_of_birth" t2 with VStr d => _ | _ => t2 end) in H.
  assert (E3 : get k t3 = get k (spread data)).
  { unfold t3. destruct (get "date_of_birth" t2) as [| | | |d| | |]; auto.
    destruct (truthy (VStr d)); auto. now rewrite get_set_neq. }
  destruct (truthy (get "contact_number" t3)).
  - destruct (get "contact_number" t3); try discriminate.
    injection H as <-. now rewrite get_set_neq.
  - now injection H as <-.
Qed.

Lemma register_try_inv lib dr req_body db res db' :
  register_try lib dr req_body db = Ok (res, db') ->
  status res = 201%Z ->
  exists userData mongooseData user,
    validateUserRegister lib dr req_body = Ok userData
    /\ transformForMongoose lib userData = Ok mongooseData
    /\ UserModel_create lib dr (VObj (forced_data mongooseData)) db = Ok (user, db').
Proof.
  unfold register_try.
  destruct (validateUserRegister lib dr req_body) as [userData|]; cbn [bind]; [|discriminate].
  destruct (UserModel_findOne lib "email" _ db).
  { intros [= <- <-]. discriminate. }
  destruct (UserModel_findOne lib "contact_number" _ db).
  { intros [= <- <-]. discriminate. }
  destruct (transformForMongoose lib userData) as [mongooseData|] eqn:T; cbn [bind]; [|discriminate].
  fold (forced_data mongooseData).
  destruct (UserModel_create _ _ _ _) as [[user db1]|] eqn:C; cbn [bind]; [|discriminate].
  intros [= <- <-] _. eauto 6.
Qed.

Lemma register_inv lib dr req_body db res db' :
  register lib dr req_body db = (res, db') ->
  status res = 201%Z ->
  exists userData mongooseData user,
    validateUserRegister lib dr req_body = Ok userData
    /\ transformForMongoose lib userData = Ok mongooseData
    /\ UserModel_create lib dr (VObj (forced_data mongooseData)) db = Ok (user, db').
Proof.
  unfold register.
  destruct (register_try lib dr req_body db) as [[r d]|e] eqn:T.
  - intros [= <- <-] S. eapply register_try_inv; eauto.
  - intros [= <- <-] S. now apply register_catch_status in S.
Qed.

Lemma validate_none errors : validate errors = None -> errors = [].
Proof.
  unfold validate. destruct errors; [reflexivity|].
  cbn [List.length Nat.eqb negb].
  destruct (existsb _ _); intros; discriminate.
Qed.

Lemma stored_zip lib dr (userData : value) (mongooseData : obj) db user db' s :
  transformForMongoose lib userData = Ok mongooseData ->
  UserModel_create lib dr (VObj (forced_data mongooseData)) db = Ok (user, db') ->
  walk zip_path userData = VStr s ->
  db' = (db ++ [user])%list /\ walk zip_path (VObj user) = VStr s.
Proof.
  intros T C W.
  apply create_ok in C as (o & E & _ & -> & ->). split; [reflexivity|].
  cbn [walk zip_path prop]. rewrite get_pre_save by discriminate.
  set (p := path_ "address.zip_code" TString .> default (VStr "")).
  pose proof (new_document_walk lib dr (VObj (forced_data mongooseData)) p
                ltac:(subst p; in_schema)) as D.
  rewrite E in D.
  change (walk (segs_of p) (VObj o)) with (prop "zip_code" (get "address" o)) in D.
  rewrite D. unfold field_value.
  change (walk (segs_of p) (VObj (forced_data mongooseData)))
    with (prop "zip_code" (get "address" (forced_data mongooseData))).
  unfold forced_data. rewrite !get_set_neq by discriminate.
  rewrite (transformForMongoose_get lib userData mongooseData "address" T)
    by discriminate.
  destruct userData as [| | | | | | |fs]; try discriminate.
  cbn [walk zip_path prop spread] in *. rewrite W. reflexivity.
Qed.

(** *** A ZIP code that is supplied and is not four digits *)

Lemma run_stack_step lib t c it rest b inst :
  optional_ c && is_undefined inst = false ->
  exists b',
    snd (run_stack lib t c (it :: rest) b inst)
    = (snd (run_item lib t (field c) it inst)
       ++ snd (run_stack lib t c rest b' (fst (run_item lib t (field c) it inst))))%list.
Proof.
  intros O. cbn [run_stack]. rewrite O.
  destruct (run_item lib t (field c) it inst) as [nv errs]. cbn [fst snd].
  match goal with
  | |- context [run_stack lib t c rest ?b' nv] =>
      exists b'; destruct (run_stack lib t c rest b' nv)
  end.
  reflexivity.
Qed.

Lemma zip_chain_reports lib t (o : obj) (v : value) :
  has "address.zip_code" o = false ->
  walk zip_path (VObj o) = v ->
  is_undefined v = false ->
  match v with VArr _ => False | _ => True end ->
  re_zip (toString v) = false ->
  exists e, In e (snd (run_chain lib t zip_chain (VObj o)))
            /\ err_path e = "address.zip_code"
            /\ err_msg e = "ZIP code must be 4 digits".
Proof.
  intros H W D A R. unfold run_chain.
  change (split_dot (field zip_chain)) with zip_path.
  assert (I : lodash_get zip_path (VObj o) = v).
  { unfold lodash_get. change (join "." zip_path) with "address.zip_code".
    now rewrite H. }
  rewrite I.
  change (stack zip_chain)
    with [CustomSanitization default_empty;
          Validation (Matches re_zip) false (Some "ZIP code must be 4 digits");
          Sanitization Trim].
  assert (Dd : is_undefined (default_empty v) = false).
  { destruct v; auto. simpl. destruct (String.eqb s ""); auto. }
  assert (Ad : match default_empty v with VArr _ => False | _ => True end).
  { destruct v; auto. simpl. destruct (String.eqb s ""); auto. }
  assert (Sd : toString (default_empty v) = toString v).
  { destruct v; auto. simpl.
    destruct (String.eqb s "") eqn:E; auto.
    apply String.eqb_eq in E. now subst. }
  destruct (run_stack_step lib t zip_chain (CustomSanitization default_empty)
              [Validation (Matches re_zip) false (Some "ZIP code must be 4 digits");
               Sanitization Trim] (VObj o) v) as [b1 E1].
  { change (optional_ zip_chain) with true. now rewrite D. }
  rewrite E1. cbn [run_item fst snd app].
  destruct (run_stack_step lib t zip_chain
              (Validation (Matches re_zip) false (Some "ZIP code must be 4 digits"))
              [Sanitization Trim] b1 (default_empty v)) as [b2 E2].
  { change (optional_ zip_chain) with true. now rewrite Dd. }
  rewrite E2.
  assert (V : (match default_empty v with VArr l => l | _ => [default_empty v] end)
              = [default_empty v]) by (destruct (default_empty v); tauto).
  cbn [run_item snd]. rewrite V. cbn [flat_map std_validate].
  rewrite Sd, R.
  eexists. split; [left; reflexivity|]. split; reflexivity.
Qed.

Lemma supplied_zip_rejected lib dr (o : obj) (v : value) db :
  has "address.zip_code" o = false ->
  walk zip_path (VObj o) = v ->
  is_undefined v = false ->
  match v with VArr _ => False | _ => True end ->
  re_zip (toString v) = false ->
  status (fst (post_register lib dr (VObj o) db)) = 400%Z
  /\ snd (post_register lib dr (VObj o) db) = db.
Proof.
  intros H W D A R. unfold post_register.
  rewrite registerValidator_zip, run_chains_app.
  set (b1 := fst (run_chains lib (now dr) chains_before_zip (VObj o))).
  assert (R1 : reads zip_path v false VUndefined b1).
  { subst b1. apply run_chains_apart; [vm_compute; reflexivity|].
    exists o. repeat split; auto. now apply get_absent. }
  destruct R1 as (o1 & E1 & W1 & H1 & _).
  rewrite run_chains_cons. cbn [fst snd]. rewrite E1.
  destruct (zip_chain_reports lib (now dr) o1 v H1 W1 D A R) as (e & I & _).
  set (errors := (_ ++ _)%list).
  assert (N : errors <> []).
  { subst errors. intros Z. apply app_eq_nil in Z as [_ Z].
    apply app_eq_nil in Z as [Z _]. rewrite Z in I. contradiction. }
  destruct (validate errors) as [res|] eqn:V.
  - cbn [fst snd]. split; [now apply validate_status in V|reflexivity].
  - exfalso. apply N. now apply validate_none.
Qed.

(** What the schema aims at, and what holds under a Zod that returns a
    default as it stands: a payload without [address.zip_code] draws no
    error on that path from either validation, passes when nothing else is
    wrong, and is stored with [zip_code = ""]; every stored zip is empty or
    four digits; and a supplied value that is not four digits is answered
    400. *)
Theorem zip_code_optional_with_plain_default lib dr db :
  zod_default_parsed lib = false ->
  (forall o : obj,
      has "address.zip_code" o = false ->
      walk zip_path (VObj o) = VUndefined ->
      let sanitized := fst (run_chains lib (now dr) registerValidator (VObj o)) in
      let errors := snd (run_chains lib (now dr) registerValidator (VObj o)) in
      let issues := snd (zparse lib dr UserRegisterSchema [] sanitized) in
      (forall e, In e errors -> err_path e <> "address.zip_code")
      /\ (forall i, In i issues -> issue_path i <> zip_path)
      /\ (errors = [] -> issues = [] ->
          exists userData,
            validate errors = None
            /\ validateUserRegister lib dr sanitized = Ok userData
            /\ walk zip_path userData = VStr "")
      /\ (forall res db',
            post_register lib dr (VObj o) db = (res, db') ->
            status res = 201%Z ->
            exists user, db' = (db ++ [user])%list
                         /\ walk zip_path (VObj user) = VStr ""))
  /\ (forall req_body res db',
        post_register lib dr req_body db = (res, db') ->
        status res = 201%Z ->
        exists user s, db' = (db ++ [user])%list
                       /\ walk zip_path (VObj user) = VStr s
                       /\ (s = "" \/ re_zip s = true))
  /\ (forall (o : obj) (v : value),
        has "address.zip_code" o = false ->
        walk zip_path (VObj o) = v ->
        is_undefined v = false ->
        match v with VArr _ => False | _ => True end ->
        re_zip (toString v) = false ->
        status (fst (post_register lib dr (VObj o) db)) = 400%Z
        /\ snd (post_register lib dr (VObj o) db) = db).
Proof.
  intros F. split; [|split].
  - intros o H W sanitized errors issues.
    destruct (chains_zip_omitted lib (now dr) o H W) as [(o1 & E1 & W1 & _) NE].
    fold sanitized in E1. fold errors in NE.
    split; [exact NE|].
    assert (NI : forall i, In i issues -> issue_path i <> zip_path).
    { subst issues. rewrite E1. now apply zod_zip_no_issue. }
    split; [exact NI|]. split.
    + intros Ee Ei.
      destruct (parse_succeeds lib dr UserRegisterSchema sanitized Ei)
        as [userData P].
      exists userData. split; [rewrite Ee; reflexivity|]. split; [exact P|].
      destruct (parsed_zip lib dr sanitized userData P) as (s & Ws & [(_ & _ & ->)|[C _]]);
        [exact Ws|].
      rewrite E1, W1 in C. discriminate.
    + intros res db' P S.
      apply post_register_inv in P as [_ P]; [|exact S].
      fold sanitized in P.
      apply register_inv in P as (userData & md & user & V & T & C); [|exact S].
      destruct (parsed_zip lib dr sanitized userData V) as (s & Ws & [(_ & _ & ->)|[C' _]]).
      * exists user. eapply stored_zip; eauto.
      * rewrite E1, W1 in C'. discriminate.
  - intros req_body res db' P S.
    apply post_register_inv in P as [_ P]; [|exact S].
    apply register_inv in P as (userData & md & user & V & T & C); [|exact S].
    destruct (parsed_zip lib dr _ userData V) as (s & Ws & D).
    exists user, s.
    destruct (stored_zip lib dr userData md db user db' s T C Ws) as [-> Z].
    split; [reflexivity|]. split; [exact Z|].
    destruct D as [(_ & _ & ->)|[_ R]]; auto.
  - intros o v. apply supplied_zip_rejected.
Qed.

(** *** A ZIP code that is left out, under a Zod that parses the default *)

Lemma parse_fields_issue_in rec path o sh p i :
  In p sh ->
  In i (snd (rec (snd p) (path ++ [fst p])%list (get (fst p) o))) ->
  In i (snd (parse_fields rec path o sh)).
Proof.
  induction sh as [|q rest IH]; [contradiction|].
  intros I J. rewrite parse_fields_cons. cbn [snd]. apply in_or_app.
  destruct I as [->|I]; auto.
Qed.

Lemma zod_zip_issue lib dr (o a : obj) :
  zod_default_parsed lib = true ->
  get "address" o = VObj a ->
  get "zip_code" a = VUndefined ->
  In (mk_issue zip_path "ZIP code must be 4 digits")
     (snd (zparse lib dr UserRegisterSchema [] (VObj o))).
Proof.
  intros F A Z. rewrite register_schema_object, zparse_object. cbn [snd].
  apply (parse_fields_issue_in _ _ _ _ ("address", AddressSchema)).
  { unfold UserRegisterSchema. simpl. tauto. }
  cbn [fst snd app]. rewrite A, address_schema_object, zparse_object. cbn [snd].
  apply (parse_fields_issue_in _ _ _ _ ("zip_code", zip_schema)).
  { unfold AddressSchema. simpl. tauto. }
  cbn [fst snd app]. rewrite Z, zip_schema_parse, F. now left.
Qed.

Lemma omitted_zip_throws lib dr (o : obj) :
  zod_default_parsed lib = true ->
  walk zip_path (VObj o) = VUndefined ->
  snd (zparse lib dr UserRegisterSchema [] (VObj o)) <> []
  /\ validateUserRegister lib dr (VObj o)
     = Throw (ZodError (snd (zparse lib dr UserRegisterSchema [] (VObj o)))).
Proof.
  intros F W.
  pose proof (parsed_zip lib dr (VObj o)) as P.
  pose proof (zparse_aborted lib dr UserRegisterSchema [] (VObj o)) as A.
  unfold validateUserRegister, parse in *.
  destruct (zparse lib dr UserRegisterSchema [] (VObj o)) as [[v|] [|i r]];
    cbn [fst snd] in *.
  - destruct (P v eq_refl) as (s & _ & [(_ & F' & _)|[W' _]]); congruence.
  - split; [discriminate|reflexivity].
  - now destruct (A eq_refl).
  - split; [discriminate|reflexivity].
Qed.

Lemma register_refused lib dr req_body db issues :
  validateUserRegister lib dr req_body = Throw (ZodError issues) ->
  register lib dr req_body db
  = (respond 400 [("success", VBool false);
                  ("message", VStr "Validation failed");
                  ("errors", VArr (map issue_to_field issues))], db).
Proof.
  intros V. unfold register, register_try. rewrite V. reflexivity.
Qed.

(** C8: under a Zod that parses a default with the inner schema, as Zod 3
    does, the optional ZIP code that the schema attempts is missed: every
    payload without [address.zip_code] is answered 400 and nothing is
    stored.  When the request-field pass finds nothing wrong, the answer is
    the failure of the structural pass, which parses the default [""]
    with the pattern of four digits and reports "ZIP code must be 4
    digits" on [address.zip_code]. *)
Theorem omitted_zip_code_is_refused lib dr (o : obj) db :
  zod_default_parsed lib = true ->
  has "address.zip_code" o = false ->
  walk zip_path (VObj o) = VUndefined ->
  let sanitized := fst (run_chains lib (now dr) registerValidator (VObj o)) in
  let errors := snd (run_chains lib (now dr) registerValidator (VObj o)) in
  let issues := snd (zparse lib dr UserRegisterSchema [] sanitized) in
  status (fst (post_register lib dr (VObj o) db)) = 400%Z
  /\ snd (post_register lib dr (VObj o) db) = db
  /\ (errors = [] ->
      issues <> []
      /\ post_register lib dr (VObj o) db
         = (respond 400 [("success", VBool false);
                         ("message", VStr "Validation failed");
                         ("errors", VArr (map issue_to_field issues))], db)
      /\ forall a, prop "address" sanitized = VObj a ->
                   In (mk_issue zip_path "ZIP code must be 4 digits") issues).
Proof.
  intros F H W sanitized errors issues.
  destruct (chains_zip_omitted lib (now dr) o H W) as [(o1 & E1 & W1 & _) _].
  fold sanitized in E1.
  destruct (omitted_zip_throws lib dr o1 F W1) as [N T].
  rewrite <- E1 in N, T. fold issues in N, T.
  pose proof (register_refused lib dr sanitized db issues T) as R.
  assert (P : post_register lib dr (VObj o) db
              = match validate errors with
                | Some res => (res, db)
                | None => register lib dr sanitized db
                end).
  { unfold post_register, sanitized, errors.
    now destruct (run_chains lib (now dr) registerValidator (VObj o)). }
  split; [|split].
  - rewrite P. destruct (validate errors) as [res|] eqn:V.
    + now apply validate_status in V.
    + now rewrite R.
  - rewrite P. destruct (validate errors); [reflexivity|now rewrite R].
  - intros Ee. split; [exact N|]. split.
    + rewrite P, Ee. exact R.
    + intros a A. subst issues. rewrite E1 in A |- *. cbn [prop] in A.
      apply (zod_zip_issue lib dr o1 a F A).
      cbn [walk zip_path prop] in W1. rewrite A in W1. exact W1.
Qed.

(** The form of the application sends [zip_code: ""] when the field is
    left blank: that is refused whatever the Zod, by the request-field
    pass. *)
Lemma blank_zip_code_is_refused lib dr (o : obj) db :
  has "address.zip_code" o = false ->
  walk zip_path (VObj o) = VStr "" ->
  status (fst (post_register lib dr (VObj o) db)) = 400%Z
  /\ snd (post_register lib dr (VObj o) db) = db.
Proof.
  intros H W. now apply (supplied_zip_rejected lib dr o (VStr "") db).
Qed.

(** * Equality of values *)

Section value_induction.

Variable P : value -> Prop.
Hypothesis HUndefined : P VUndefined.
Hypothesis HNull : P VNull.
Hypothesis HBool : forall b, P (VBool b).
Hypothesis HNum : forall n, P (VNum n).
Hypothesis HStr : forall s, P (VStr s).
Hypothesis HDate : forall t, P (VDate t).
Hypothesis HArr : forall l, Forall P l -> P (VArr l).
Hypothesis HObj : forall o, Forall (fun p => P (snd p)) o -> P (VObj o).

Fixpoint value_nested_ind (v : value) : P v :=
  match v with
  | VUndefined => HUndefined
  | VNull => HNull
  | VBool b => HBool b
  | VNum n => HNum n
  | VStr s => HStr s
  | VDate t => HDate t
  | VArr l =>
      HArr l ((fix go (l : list value) : Forall P l :=
                 match l with
                 | [] => Forall_nil _
                 | x :: r => Forall_cons x (value_nested_ind x) (go r)
                 end) l)
  | VObj o =>
      HObj o ((fix go (o : obj) : Forall (fun p => P (snd p)) o :=
                 match o with
                 | [] => Forall_nil _
                 | p :: r => Forall_cons p (value_nested_ind (snd p)) (go r)
                 end) o)
  end.

End value_induction.

Lemma value_eqb_eq (a : value) : forall b, value_eqb a b = true -> a = b.
Proof.
  induction a as [| |x|x|x|x|l H|o H] using value_nested_ind;
    intros b; destruct b as [| |y|y|y|y|l'|o'];
    try (simpl; discriminate); try reflexivity;
    try (destruct x; simpl; discriminate).
  - simpl. intros E. apply Bool.eqb_prop in E. now subst.
  - simpl. intros E. apply Z.eqb_eq in E. now subst.
  - simpl. intros E. apply String.eqb_eq in E. now subst.
  - destruct x as [x|], y as [y|]; simpl; try discriminate; try reflexivity.
    intros E. apply Z.eqb_eq in E. now subst.
  - simpl. intros E. f_equal. revert l' E.
    induction H as [|x r Hx Hr IH]; intros [|y r'] E; try discriminate; auto.
    apply andb_true_iff in E as [E1 E2].
    f_equal; [now apply Hx|now apply IH].
  - simpl. intros E. f_equal. revert o' E.
    induction H as [|[k x] r Hx Hr IH]; intros [|[k' y] r'] E; try discriminate; auto.
    apply andb_true_iff in E as [E E3]. apply andb_true_iff in E as [E1 E2].
    apply String.eqb_eq in E1. subst.
    f_equal; [f_equal; now apply Hx|now apply IH].
Qed.

(** * An object around one of its keys *)

Lemma get_around_eq (k : string) (y : value) (pre post : obj) :
  has k pre = false -> get k (pre ++ (k, y) :: post)%list = y.
Proof.
  induction pre as [|[k' v] r IH]; simpl.
  - now rewrite String.eqb_refl.
  - destruct (String.eqb k k'); simpl; [discriminate|exact IH].
Qed.

Lemma has_around_eq (k : string) (y : value) (pre post : obj) :
  has k (pre ++ (k, y) :: post)%list = true.
Proof.
  induction pre as [|[k' v] r IH]; simpl.
  - now rewrite String.eqb_refl.
  - rewrite IH. apply orb_true_r.
Qed.

Lemma set_around_eq (k : string) (x y : value) (pre post : obj) :
  has k pre = false ->
  set k x (pre ++ (k, y) :: post)%list = (pre ++ (k, x) :: post)%list.
Proof.
  induction pre as [|[k' v] r IH]; simpl.
  - now rewrite String.eqb_refl.
  - destruct (String.eqb k k'); simpl; [discriminate|].
    intros H. now rewrite IH.
Qed.

Lemma get_around_neq (k k0 : string) (y : value) (pre post : obj) :
  k <> k0 ->
  get k (pre ++ (k0, y) :: post)%list = if has k pre then get k pre else get k post.
Proof.
  intros N. induction pre as [|[k' v] r IH]; simpl.
  - apply String.eqb_neq in N. now rewrite N.
  - destruct (String.eqb k k'); simpl; auto.
Qed.

Lemma has_app (k : string) (a b : obj) : has k (a ++ b)%list = has k a || has k b.
Proof.
  induction a as [|[k' v] r IH]; simpl; auto.
  rewrite IH. now rewrite orb_assoc.
Qed.

Lemma set_app (k : string) (x : value) (a b : obj) :
  set k x (a ++ b)%list
  = if has k a then (set k x a ++ b)%list else (a ++ set k x b)%list.
Proof.
  induction a as [|[k' v] r IH]; simpl; auto.
  destruct (String.eqb k k'); simpl; auto.
  rewrite IH. now destruct (has k r).
Qed.

Lemma set_around_neq (k k0 : string) (x y : value) (pre post : obj) :
  k <> k0 ->
  set k x (pre ++ (k0, y) :: post)%list
  = if has k pre then (set k x pre ++ (k0, y) :: post)%list
    else (pre ++ (k0, y) :: set k x post)%list.
Proof.
  intros N. rewrite set_app. destruct (has k pre); auto.
  simpl. apply String.eqb_neq in N. now rewrite N.
Qed.

(** Any object with the key [k] set is of that form. *)
Lemma set_around (k : string) (o : obj) :
  exists pre post, has k pre = false
                   /\ forall y, set k y o = (pre ++ (k, y) :: post)%list.
Proof.
  induction o as [|[k' v] r (pre & post & H & E)].
  - exists [], []. split; auto.
  - simpl. destruct (String.eqb k k') eqn:K.
    + exists [], r. split; auto.
    + exists ((k', v) :: pre), post. split.
      * simpl. now rewrite K.
      * intros y. now rewrite E.
Qed.

(** ** C10: the case of the e-mail address *)

Lemma validate_ext (es1 es2 : list field_error) :
  map err_key es1 = map err_key es2 -> validate es1 = validate es2.
Proof.
  intros E. unfold validate.
  assert (L : List.length es1 = List.length es2).
  { rewrite <- (length_map err_key es1), <- (length_map err_key es2). now rewrite E. }
  assert (X : existsb (fun err => String.eqb (err_type err) "field"
                                  && String.eqb (err_path err) "form_id") es1
              = existsb (fun err => String.eqb (err_type err) "field"
                                    && String.eqb (err_path err) "form_id") es2).
  { revert es2 E L. induction es1 as [|a r IH]; intros [|b r'] E L; try discriminate; auto.
    cbn [map] in E. unfold err_key at 1 3 in E. inversion E as [[T Pth Msg Er]].
    cbn [existsb]. rewrite T, Pth. f_equal. apply IH; auto. }
  assert (M : map (fun err =>
                     VObj [("field",
                            VStr (if String.eqb (err_type err) "field"
                                  then err_path err else err_type err));
                           ("message", VStr (err_msg err))]) es1
              = map (fun err =>
                       VObj [("field",
                              VStr (if String.eqb (err_type err) "field"
                                    then err_path err else err_type err));
                             ("message", VStr (err_msg err))]) es2).
  { clear X. revert es2 E L.
    induction es1 as [|a r IH]; intros [|b r'] E L; try discriminate; auto.
    cbn [map] in E. unfold err_key at 1 3 in E. inversion E as [[T Pth Msg Er]].
    cbn [map]. rewrite T, Pth, Msg. f_equal. apply IH; auto. }
  now rewrite L, X, M.
Qed.

Lemma lodash_get_top (k : string) (o : obj) : lodash_get [k] (VObj o) = get k o.
Proof. unfold lodash_get. cbn [join walk prop]. now destruct (has k o). Qed.

Lemma lodash_set_top (k : string) (x : value) (o : obj) :
  lodash_set [k] x (VObj o) = VObj (set k x o).
Proof. unfold lodash_set. cbn [join set_path]. now destruct (has k o). Qed.

(** *** A chain on another top-level field *)

Lemma run_stack_around lib t c (k k0 : string) (items : list item) :
  split_dot (field c) = [k] -> k <> k0 ->
  forall pre post inst,
    has k0 pre = false ->
    exists pre' post' errs,
      has k0 pre' = false
      /\ forall y, run_stack lib t c items (VObj (pre ++ (k0, y) :: post)%list) inst
                   = (VObj (pre' ++ (k0, y) :: post')%list, errs).
Proof.
  intros S N. induction items as [|it rest IH]; intros pre post inst H.
  - exists pre, post, []. auto.
  - cbn [run_stack]. destruct (optional_ c && is_undefined inst); [now apply IH|].
    destruct (run_item lib t (field c) it inst) as [nv errs].
    rewrite S.
    destruct (has k pre) eqn:Hk.
    + destruct (negb (value_eqb (get k pre) nv)) eqn:C.
      * destruct (IH (set k nv pre) post nv) as (pre' & post' & es & H' & E).
        { now rewrite has_set_neq by congruence. }
        exists pre', post', (errs ++ es)%list. split; [exact H'|].
        intros y. rewrite lodash_get_top, get_around_neq by exact N.
        rewrite Hk, C.
        rewrite lodash_set_top, set_around_neq by exact N. rewrite Hk.
        now rewrite E.
      * destruct (IH pre post nv H) as (pre' & post' & es & H' & E).
        exists pre', post', (errs ++ es)%list. split; [exact H'|].
        intros y. rewrite lodash_get_top, get_around_neq by exact N.
        rewrite Hk, C. now rewrite E.
    + destruct (negb (value_eqb (get k post) nv)) eqn:C.
      * destruct (IH pre (set k nv post) nv H) as (pre' & post' & es & H' & E).
        exists pre', post', (errs ++ es)%list. split; [exact H'|].
        intros y. rewrite lodash_get_top, get_around_neq by exact N.
        rewrite Hk, C.
        rewrite lodash_set_top, set_around_neq by exact N. rewrite Hk.
        now rewrite E.
      * destruct (IH pre post nv H) as (pre' & post' & es & H' & E).
        exists pre', post', (errs ++ es)%list. split; [exact H'|].
        intros y. rewrite lodash_get_top, get_around_neq by exact N.
        rewrite Hk, C. now rewrite E.
Qed.

Lemma run_chains_around lib t (k0 : string) (cs : list chain) :
  forallb (top_other k0) cs = true ->
  forall pre post,
    has k0 pre = false ->
    exists pre' post' errs,
      has k0 pre' = false
      /\ forall y, run_chains lib t cs (VObj (pre ++ (k0, y) :: post)%list)
                   = (VObj (pre' ++ (k0, y) :: post')%list, errs).
Proof.
  induction cs as [|c rest IH]; intros T pre post H.
  - exists pre, post, []. auto.
  - simpl in T. apply andb_true_iff in T as [Tc Tr].
    unfold top_other in Tc.
    destruct (split_dot (field c)) as [|k [|? ?]] eqn:S; try discriminate.
    apply negb_true_iff, String.eqb_neq in Tc.
    destruct (run_stack_around lib t c k k0 (stack c) S Tc pre post
                (if has k pre then get k pre else get k post) H)
      as (pre1 & post1 & es1 & H1 & E1).
    destruct (IH Tr pre1 post1 H1) as (pre2 & post2 & es2 & H2 & E2).
    exists pre2, post2, (es1 ++ es2)%list. split; [exact H2|].
    intros y. cbn [run_chains]. unfold run_chain. rewrite S.
    rewrite lodash_get_top, get_around_neq by exact Tc.
    now rewrite E1, E2.
Qed.

(** *** A chain on the field itself *)

Lemma run_stack_tracks lib t c (k : string) (items : list item) :
  split_dot (field c) = [k] -> optional_ c = false ->
  forall pre post cur,
    has k pre = false ->
    run_stack lib t c items (VObj (pre ++ (k, cur) :: post)%list) cur
    = (VObj (pre ++ (k, fst (trace lib t (field c) items cur)) :: post)%list,
       snd (trace lib t (field c) items cur)).
Proof.
  intros S O. induction items as [|it rest IH]; intros pre post cur H; [reflexivity|].
  cbn [run_stack trace]. rewrite O. cbn [andb].
  destruct (run_item lib t (field c) it cur) as [nv errs].
  rewrite S, lodash_get_top, get_around_eq by exact H.
  assert (B : (if negb (value_eqb cur nv)
               then lodash_set [k] nv (VObj (pre ++ (k, cur) :: post)%list)
               else VObj (pre ++ (k, cur) :: post)%list)
              = VObj (pre ++ (k, nv) :: post)%list).
  { destruct (value_eqb cur nv) eqn:E; cbn [negb].
    - apply value_eqb_eq in E. now subst.
    - now rewrite lodash_set_top, set_around_eq. }
  rewrite B, IH by exact H.
  now destruct (trace lib t (field c) rest nv).
Qed.

Lemma length_map_str (f : ascii -> ascii) (s : string) :
  String.length (map_str f s) = String.length s.
Proof. induction s; simpl; auto. Qed.

Section case_insensitive.

Variable lib : Lib.
Hypothesis isEmail_lower : forall s, isEmail lib (toLowerCase s) = isEmail lib s.
Hypothesis normalizeEmail_lower :
  forall s, option_map toLowerCase (normalizeEmail lib (toLowerCase s))
            = option_map toLowerCase (normalizeEmail lib s).

Lemma email_trace (t : Z) (e : string) :
  fst (trace lib t "email" (stack email_chain) (VStr (toLowerCase e)))
  = fst (trace lib t "email" (stack email_chain) (VStr e))
  /\ map err_key (snd (trace lib t "email" (stack email_chain) (VStr (toLowerCase e))))
     = map err_key (snd (trace lib t "email" (stack email_chain) (VStr e))).
Proof.
  cbn [email_chain stack body notEmpty withMessage isEmail_ normalizeEmail_
       toLowerCase_ trim_ push app rev set_last_message trace run_item
       flat_map std_validate std_sanitize toString message_or fst snd].
  assert (L : String.length (toLowerCase e) = String.length e)
    by apply length_map_str.
  rewrite L, isEmail_lower.
  pose proof (normalizeEmail_lower e) as N.
  destruct (normalizeEmail lib (toLowerCase e)) as [n1|],
           (normalizeEmail lib e) as [n2|]; simpl in N; try discriminate.
  - injection N as N. cbn [toString fst snd]. rewrite N.
    destruct (String.length e =? 0)%nat, (isEmail lib e); split; reflexivity.
  - destruct (String.length e =? 0)%nat, (isEmail lib e); split; reflexivity.
Qed.

Lemma chains_case_insensitive (t : Z) (before after : list chain) (o : obj) (e : string) :
  forallb (top_other "email") before = true ->
  exists sanitized errs1 errs2,
    run_chains lib t (before ++ email_chain :: after)
               (VObj (set "email" (VStr (toLowerCase e)) o)) = (sanitized, errs1)
    /\ run_chains lib t (before ++ email_chain :: after)
                  (VObj (set "email" (VStr e) o)) = (sanitized, errs2)
    /\ map err_key errs1 = map err_key errs2.
Proof.
  intros T.
  destruct (set_around "email" o) as (pre & post & H & E).
  destruct (run_chains_around lib t "email" before T pre post H)
    as (pre1 & post1 & es & H1 & E1).
  rewrite !E, !run_chains_app, !E1. cbn [fst snd].
  rewrite !run_chains_cons. unfold run_chain.
  change (split_dot (field email_chain)) with ["email"].
  rewrite !lodash_get_top, !get_around_eq by exact H1.
  rewrite !(run_stack_tracks lib t email_chain "email") by (auto; reflexivity).
  change (field email_chain) with "email".
  destruct (email_trace t e) as [F K]. rewrite F. cbn [fst snd].
  eexists _, _, _. split; [reflexivity|]. split; [reflexivity|].
  rewrite !map_app. now rewrite K.
Qed.

(** C10: registering or logging in with an e-mail and with its lowercased
    form give the same response and the same collection. *)
Theorem email_is_case_insensitive (dr : Draw) (o : obj) (e : string) (db : collection) :
  post_register lib dr (VObj (set "email" (VStr (toLowerCase e)) o)) db
  = post_register lib dr (VObj (set "email" (VStr e) o)) db
  /\ post_login lib dr (VObj (set "email" (VStr (toLowerCase e)) o)) db
     = post_login lib dr (VObj (set "email" (VStr e) o)) db.
Proof.
  split.
  - unfold post_register.
    change registerValidator
      with (firstn 4 registerValidator ++ email_chain :: skipn 5 registerValidator)%list.
    destruct (chains_case_insensitive (now dr) (firstn 4 registerValidator)
                (skipn 5 registerValidator) o e ltac:(reflexivity))
      as (sanitized & errs1 & errs2 & -> & -> & K).
    now rewrite (validate_ext errs1 errs2 K).
  - unfold post_login.
    change loginValidator
      with ([] ++ email_chain :: skipn 1 loginValidator)%list.
    destruct (chains_case_insensitive (now dr) [] (skipn 1 loginValidator) o e
                ltac:(reflexivity))
      as (sanitized & errs1 & errs2 & -> & -> & K).
    now rewrite (validate_ext errs1 errs2 K).
Qed.

End case_insensitive.

Module PickerFacts.
Import AddressPicker.

(** ** C9: the cascade of the address picker *)

Lemma consistent_initial : consistent initial.
Proof. unfold consistent, initial; simpl. intuition congruence. Qed.

Lemma react_consistent (a : action) (s s' : State) (cbs : list callback) :
  consistent s -> react a s = Some (s', cbs) -> consistent s'.
Proof.
  unfold consistent. intros (I1 & I2 & I3 & I4 & I5) R.
  destruct a; simpl in R.
  - destruct (negb (isLoading s) && _); [|discriminate].
    unfold onPress in R. destruct (step s) eqn:St.
    + inversion R; subst; simpl. intuition congruence.
    + inversion R; subst; simpl. intuition congruence.
    + inversion R; subst; simpl. intuition congruence.
    + unfold handleBarangaySelect in R.
      destruct (selectedRegion s) eqn:Er, (selectedProvince s) eqn:Ep,
        (selectedCity s) eqn:Ec;
        inversion R; subst; simpl; rewrite ?St, ?Er, ?Ep, ?Ec;
        intuition congruence.
  - unfold goBack in R. destruct (step s) eqn:St; try discriminate;
      inversion R; subst; simpl; intuition congruence.
  - destruct target; simpl in R.
    + inversion R; subst; simpl. intuition congruence.
    + destruct (selectedRegion s) eqn:E; [|discriminate].
      inversion R; subst; simpl. rewrite ?E. intuition congruence.
    + destruct (selectedProvince s) eqn:E; [|discriminate].
      inversion R; subst; simpl. rewrite ?E. intuition congruence.
    + destruct (selectedCity s) eqn:E; [|discriminate].
      inversion R; subst; simpl. rewrite ?E. intuition congruence.
  - inversion R; subst; simpl. intuition congruence.
  - inversion R; subst. intuition.
  - inversion R; subst; simpl. intuition.
  - inversion R; subst; simpl. intuition.
  - inversion R; subst. destruct level; simpl; intuition.
  - inversion R; subst; simpl. intuition.
  - inversion R; subst; simpl. intuition.
  - destruct (existsb _ _); [|discriminate].
    inversion R; subst; simpl. intuition congruence.
Qed.

Lemma run_reachable (acts : list action) (s s' : State) (cbs : list callback) :
  reachable s -> run acts s = Some (s', cbs) -> reachable s'.
Proof.
  revert s cbs. induction acts as [|a acts IH]; intros s cbs R H; simpl in H.
  - now injection H as <- _.
  - destruct (react a s) as [[s1 c1]|] eqn:E; [|discriminate].
    destruct (run acts s1) as [[s2 c2]|] eqn:F; [|discriminate].
    injection H as <- _. eapply IH; [|exact F].
    eapply reachable_react; eauto.
Qed.

Lemma reachable_consistent (s : State) : reachable s -> consistent s.
Proof.
  induction 1 as [|s a s' cbs _ IH R].
  - apply consistent_initial.
  - eapply react_consistent; eauto.
Qed.

Lemma only_barangay_emits (a : action) (s s' : State) (cbs : list callback)
    (address : Address) :
  react a s = Some (s', cbs) ->
  In (onSelect address) cbs ->
  exists b r p c,
    a = PressItem b /\ step s = barangay
    /\ selectedRegion s = Some r /\ selectedProvince s = Some p
    /\ selectedCity s = Some c
    /\ address = final_address r p c b
    /\ cbs = [onSelect address; onClose]
    /\ s' = setSelectedBarangay (Some b) s.
Proof.
  intros R I. destruct a; simpl in R.
  - destruct (negb (isLoading s) && _); [|discriminate].
    unfold onPress in R. destruct (step s) eqn:St;
      try (inversion R; subst; simpl in I; contradiction).
    unfold handleBarangaySelect in R.
    destruct (selectedRegion s) as [r|] eqn:Er;
      [destruct (selectedProvince s) as [p|] eqn:Ep;
       [destruct (selectedCity s) as [c|] eqn:Ec|]|];
      inversion R; subst; simpl in I; try contradiction.
    destruct I as [I|[I|[]]]; [|discriminate].
    injection I as <-.
    eexists _, r, p, c. repeat split; reflexivity.
  - unfold goBack in R. destruct (step s); try discriminate;
      inversion R; subst; contradiction.
  - destruct (match target with region => _ | _ => _ end); [|discriminate].
    inversion R; subst. contradiction.
  - inversion R; subst. contradiction.
  - inversion R; subst. destruct I as [I|[]]. discriminate.
  - inversion R; subst. contradiction.
  - inversion R; subst. contradiction.
  - inversion R; subst. contradiction.
  - inversion R; subst. contradiction.
  - inversion R; subst. contradiction.
  - destruct (existsb _ _); [|discriminate]. inversion R; subst. contradiction.
Qed.

Lemma barangay_press_emits (s : State) (b : AddressItem) :
  reachable s -> step s = barangay ->
  exists r p c,
    selectedRegion s = Some r /\ selectedProvince s = Some p
    /\ selectedCity s = Some c
    /\ onPress b s = (setSelectedBarangay (Some b) s,
                      [onSelect (final_address r p c b); onClose]).
Proof.
  intros R St. apply reachable_consistent in R as (I1 & I2 & I3 & _ & _).
  destruct (selectedRegion s) as [r|] eqn:Er; [|exfalso; apply I1; congruence].
  destruct (selectedProvince s) as [p|] eqn:Ep; [|exfalso; apply I2; auto].
  destruct (selectedCity s) as [c|] eqn:Ec; [|exfalso; apply I3; auto].
  exists r, p, c. repeat split; auto.
  unfold onPress, handleBarangaySelect. now rewrite St, Er, Ep, Ec.
Qed.

(** C9 (as amended): choosing a region, a province or a city clears the
    selections and the lists of every deeper level, empties the search text
    and moves one step down; choosing a barangay only records it.  The one
    action that calls [onSelect] is the press of a barangay with the three
    levels above it selected: it hands over the four names and then calls
    [onClose]; and in every state the component can be in, a press at the
    barangay step does so. *)
Theorem picker_cascade :
  (forall r s,
      let s' := fst (handleRegionSelect r s) in
      selectedRegion s' = Some r
      /\ selectedProvince s' = None /\ selectedCity s' = None
      /\ selectedBarangay s' = None
      /\ provinces s' = [] /\ cities s' = [] /\ barangays s' = []
      /\ searchQuery s' = "" /\ step s' = province
      /\ snd (handleRegionSelect r s) = [])
  /\ (forall p s,
        let s' := fst (handleProvinceSelect p s) in
        selectedProvince s' = Some p
        /\ selectedCity s' = None /\ selectedBarangay s' = None
        /\ cities s' = [] /\ barangays s' = []
        /\ searchQuery s' = "" /\ step s' = city
        /\ selectedRegion s' = selectedRegion s /\ provinces s' = provinces s
        /\ snd (handleProvinceSelect p s) = [])
  /\ (forall c s,
        let s' := fst (handleCitySelect c s) in
        selectedCity s' = Some c
        /\ selectedBarangay s' = None /\ barangays s' = []
        /\ searchQuery s' = "" /\ step s' = barangay
        /\ selectedRegion s' = selectedRegion s
        /\ selectedProvince s' = selectedProvince s
        /\ provinces s' = provinces s /\ cities s' = cities s
        /\ snd (handleCitySelect c s) = [])
  /\ (forall b s,
        fst (handleBarangaySelect b s) = setSelectedBarangay (Some b) s)
  /\ (forall a s s' cbs address,
        react a s = Some (s', cbs) ->
        In (onSelect address) cbs ->
        exists b r p c,
          a = PressItem b /\ step s = barangay
          /\ selectedRegion s = Some r /\ selectedProvince s = Some p
          /\ selectedCity s = Some c
          /\ address = final_address r p c b
          /\ cbs = [onSelect address; onClose]
          /\ s' = setSelectedBarangay (Some b) s)
  /\ (forall s b,
        reachable s -> step s = barangay ->
        exists r p c,
          selectedRegion s = Some r /\ selectedProvince s = Some p
          /\ selectedCity s = Some c
          /\ onPress b s = (setSelectedBarangay (Some b) s,
                            [onSelect (final_address r p c b); onClose])).
Proof.
  split; [intros; repeat split|].
  split; [intros; repeat split|].
  split; [intros; repeat split|].
  split.
  { intros b s. unfold handleBarangaySelect.
    now destruct (selectedRegion s), (selectedProvince s), (selectedCity s). }
  split; [apply only_barangay_emits|apply barangay_press_emits].
Qed.

(** The scenario of the specification ends with the four names handed to
    [onSelect] and the picker closed; the search text typed at the barangay
    step is still there. *)
Lemma barangay_keeps_search_text :
  run scenario initial
  = Some (scenario_end,
          [onSelect {| address_region := "Region I";
                       address_province := "Pangasinan";
                       address_city := "Dagupan City";
                       address_barangay := "Bonuan Binloc" |};
           onClose])
  /\ searchQuery scenario_end = "bin"
  /\ handleBarangaySelect (item "015518006" "Bonuan Boquig") scenario_end
     = (setSelectedBarangay (Some (item "015518006" "Bonuan Boquig")) scenario_end,
        [onSelect {| address_region := "Region I";
                     address_province := "Pangasinan";
                     address_city := "Dagupan City";
                     address_barangay := "Bonuan Boquig" |};
         onClose])
  /\ searchQuery (fst (handleBarangaySelect (item "015518006" "Bonuan Boquig")
                                            scenario_end)) = "bin".
Proof. repeat split; reflexivity. Qed.

Example scenario_end_reachable : reachable scenario_end /\ step scenario_end = barangay.
Proof.
  split; [|reflexivity].
  eapply (run_reachable scenario initial); [apply reachable_initial|].
  reflexivity.
Qed.

(** Choosing another province afterwards clears the city and the barangay
    and empties their lists. *)
Example province_reselected :
  let s := fst (handleProvinceSelect (item "0128" "Ilocos Norte") scenario_end) in
  selectedProvince s = Some (item "0128" "Ilocos Norte")
  /\ selectedCity s = None /\ selectedBarangay s = None
  /\ cities s = [] /\ barangays s = [] /\ searchQuery s = "" /\ step s = city.
Proof. repeat split; reflexivity. Qed.

End PickerFacts.

(** * The claims on the sample data *)

(** ** The sample environment *)

Lemma lower_char_idem (c : ascii) : lower_char (lower_char c) = lower_char c.
Proof. destruct c as [[] [] [] [] [] [] [] []]; reflexivity. Qed.

Lemma toLowerCase_idem (s : string) : toLowerCase (toLowerCase s) = toLowerCase s.
Proof.
  unfold toLowerCase. induction s as [|c s IH]; simpl; [reflexivity|].
  now rewrite lower_char_idem, IH.
Qed.

Lemma sample_isEmail_lower (s : string) :
  isEmail sample_lib (toLowerCase s) = isEmail sample_lib s.
Proof. simpl. now rewrite toLowerCase_idem. Qed.

Lemma sample_normalizeEmail_lower (s : string) :
  option_map toLowerCase (normalizeEmail sample_lib (toLowerCase s))
  = option_map toLowerCase (normalizeEmail sample_lib s).
Proof. simpl. now rewrite !toLowerCase_idem. Qed.

(** Registering the sample payload stores [sample_user]. *)
Example sample_registration_stored :
  UserModel_create sample_lib sample_draw sample_registration []
  = Ok (sample_user, [sample_user])
  /\ snd (post_register sample_lib sample_draw sample_registration [])
     = [sample_user]
  /\ status (fst (post_register sample_lib sample_draw sample_registration []))
     = 201%Z.
Proof. repeat split; vm_compute; reflexivity. Qed.

(** ** C1 *)

Lemma registration_forces_fields_witness :
  status (fst (post_register sample_lib sample_draw elevated_registration []))
  = 201%Z
  /\ exists user,
       snd (post_register sample_lib sample_draw elevated_registration [])
       = ([] ++ [user])%list
       /\ get "form_id" user = VNull
       /\ get "status" user = VStr "Pending"
       /\ get "role" user = VStr "User"
       /\ get "is_verified" user = VBool false
       /\ get "is_email_verified" user = VBool false.
Proof.
  assert (S : status (fst (post_register sample_lib sample_draw
                             elevated_registration [])) = 201%Z)
    by (vm_compute; reflexivity).
  split; [exact S|].
  exact (registration_forces_fields sample_lib sample_draw elevated_registration []
           _ _ (or_introl (surjective_pairing _)) S).
Defined.

(** The handler by itself, given a [form_id] as well. *)
Example handler_forces_fields :
  register sample_lib sample_draw elevated_registration_with_form_id []
  = post_register sample_lib sample_draw sample_registration []
  /\ snd (register sample_lib sample_draw elevated_registration_with_form_id [])
     = [sample_user].
Proof. split; vm_compute; reflexivity. Qed.

(** ** C2 *)

Lemma form_id_is_rejected_witness :
  post_register sample_lib sample_draw (VObj registration_with_form_id) [sample_user]
  = (form_id_rejected, [sample_user]).
Proof. apply form_id_is_rejected; reflexivity. Defined.

(** ** C3 *)

Lemma contact_number_stored_witness :
  exists c,
    get "contact_number" stale_user = VStr c
    /\ get "contact_number" sample_user = VStr (presave_contact c)
    /\ presave_contact c = c /\ transform_contact c = c
    /\ re_phone c = true /\ String.length c = 11
    /\ [sample_user]
       = map (fun d => if same_id sample_user d then sample_user else d)
             [sample_user]
    /\ In sample_user [sample_user]
    /\ (forall d, In d [sample_user] -> d = sample_user \/ In d [sample_user]).
Proof.
  apply (contact_number_stored sample_lib sample_draw false false []
           stale_user [sample_user] sample_user [sample_user]).
  vm_compute; reflexivity.
Defined.

(** A number that the hook would not bring to the pattern never reaches
    it: validation refuses the document, on an update and on a new
    document alike, and nothing is written. *)
Example short_number_not_stored :
  save sample_lib sample_draw false false []
       (set "contact_number" (VStr "123") sample_user) [sample_user]
  = Throw (ValidationError
             [("contact_number",
               "Phone number must start with 09 and have 11 digits total")])
  /\ UserModel_create sample_lib sample_draw
       (VObj (set "contact_number" (VStr "123") (spread sample_registration))) []
     = Throw (ValidationError
                [("contact_number",
                  "Phone number must start with 09 and have 11 digits total")]).
Proof. split; vm_compute; reflexivity. Qed.

(** An empty role is no member of the enumeration, and a [null] contact
    number fails the validator as well as [required]: the first failure of a
    path is the one reported. *)
Example empty_role_not_stored :
  save sample_lib sample_draw false false []
       (set "role" (VStr EmptyString) sample_user) [sample_user]
  = Throw (ValidationError
             [("role", "`` is not a valid enum value for path `role`.")])
  /\ save sample_lib sample_draw false false []
          (set "contact_number" VNull sample_user) [sample_user]
     = Throw (ValidationError [("contact_number", "Contact number is required")]).
Proof. split; vm_compute; reflexivity. Qed.

(** An update of a document that is not in the collection is refused. *)
Example absent_document_not_updated :
  save sample_lib sample_draw false false [] stale_user []
  = Throw DocumentNotFoundError.
Proof. vm_compute; reflexivity. Qed.

(** ** C4 *)


(** The boundary dates, for a server in Manila on 2023-02-28 10:00 and on
    the next day at the same hour. *)
Example age_birthday_today :
  Date_parse sample_lib "2000-02-28" = Some 951696000000%Z
  /\ years_old (tz sample_lib) (now sample_draw) 951696000000 = 23%Z.
Proof. split; vm_compute; reflexivity. Qed.

Example age_birthday_tomorrow :
  Date_parse sample_lib "2000-03-01" = Some 951868800000%Z
  /\ years_old (tz sample_lib) (now sample_draw) 951868800000 = 22%Z.
Proof. split; vm_compute; reflexivity. Qed.

Example age_leap_day_birth :
  Date_parse sample_lib "2000-02-29" = Some 951782400000%Z
  /\ years_old (tz sample_lib) (now sample_draw) 951782400000 = 22%Z
  /\ years_old (tz sample_lib) (now sample_draw + ms_per_day) 951782400000
     = 23%Z.
Proof. repeat split; vm_compute; reflexivity. Qed.

Example stale_age_overridden :
  save sample_lib sample_draw false false [] stale_user [sample_user]
  = Ok (sample_user, [sample_user]).
Proof. vm_compute; reflexivity. Qed.

(** The offset is the one of each instant: a date of birth of 1840-06-15
    (UTC) falls on the 14th of June in Manila, whose local time was then
    15:56 behind UTC, so that on the 14th of June 2023 the age is 183; one
    offset of eight hours for both instants would give 182. *)
Example age_under_an_earlier_offset :
  Date_parse sample_lib "1840-06-15" = Some (-4088102400000)%Z
  /\ local_civil (tz sample_lib) (-4088102400000) = (1840, 6, 14)%Z
  /\ local_civil (tz sample_lib) 1686708000000 = (2023, 6, 14)%Z
  /\ years_old (tz sample_lib) 1686708000000 (-4088102400000) = 183%Z
  /\ years_old (fun _ => 28800000%Z) 1686708000000 (-4088102400000) = 182%Z.
Proof. repeat split; vm_compute; reflexivity. Qed.

(** ** C5 *)

Lemma suspended_login_witness :
  status (fst (post_login sample_lib sample_draw sample_login [suspended_user]))
  = 403%Z
  /\ json (fst (post_login sample_lib sample_draw sample_login [suspended_user]))
     = VObj [("success", VBool false);
             ("message", VStr (status_message "Suspended"))]
  /\ walk ["data"; "token"]
          (json (fst (post_login sample_lib sample_draw sample_login
                                 [suspended_user])))
     = VUndefined
  /\ snd (post_login sample_lib sample_draw sample_login [suspended_user])
     = [suspended_user].
Proof.
  eapply (suspended_or_inactive_login_is_403 sample_lib sample_draw sample_login
            [suspended_user]).
  - vm_compute; reflexivity.
  - vm_compute; reflexivity.
  - vm_compute; reflexivity.
  - reflexivity.
  - left; reflexivity.
  - apply surjective_pairing.
Defined.

(** The password of [sample_login] is the right one. *)
Example sample_login_password_matches :
  comparePassword sample_lib suspended_user "s3cretpass" = true
  /\ status (fst (post_login sample_lib sample_draw sample_login [sample_user]))
     = 200%Z.
Proof. split; vm_compute; reflexivity. Qed.

(** ** C6 *)

Lemma login_failures_witness :
  status (fst (post_login sample_lib sample_draw unknown_email_login [sample_user]))
  = 401%Z
  /\ status (fst (post_login sample_lib sample_draw wrong_password_login
                             [sample_user])) = 401%Z
  /\ prop "message"
          (json (fst (post_login sample_lib sample_draw unknown_email_login
                                 [sample_user])))
     = VStr "Invalid email or password"
  /\ prop "message"
          (json (fst (post_login sample_lib sample_draw wrong_password_login
                                 [sample_user])))
     = VStr "Invalid email or password"
  /\ prop "field"
          (json (fst (post_login sample_lib sample_draw unknown_email_login
                                 [sample_user])))
     = VStr "email"
  /\ prop "field"
          (json (fst (post_login sample_lib sample_draw wrong_password_login
                                 [sample_user])))
     = VStr "password"
  /\ json (fst (post_login sample_lib sample_draw wrong_password_login
                           [sample_user]))
     = VObj (set "field" (VStr "password")
               (spread (json (fst (post_login sample_lib sample_draw
                                              unknown_email_login
                                              [sample_user]))))).
Proof.
  eapply (login_failures_differ_only_in_field sample_lib sample_draw [sample_user]
            unknown_email_login _ _ wrong_password_login).
  - vm_compute; reflexivity.
  - vm_compute; reflexivity.
  - vm_compute; reflexivity.
  - vm_compute; reflexivity.
  - vm_compute; reflexivity.
  - vm_compute; reflexivity.
  - reflexivity.
  - reflexivity.
  - vm_compute; reflexivity.
Defined.

(** A wrong password for a suspended account is answered 403, with another
    message and without [field]: the two failures are then told apart. *)
Lemma wrong_password_for_suspended_account :
  post_login sample_lib sample_draw unknown_email_login [suspended_user]
  = (respond 401 [("success", VBool false);
                  ("message", VStr "Invalid email or password");
                  ("field", VStr "email")],
     [suspended_user])
  /\ UserModel_findOne sample_lib "email" (VStr "maria.santos@example.com")
                       [suspended_user] = Some suspended_user
  /\ comparePassword sample_lib suspended_user "not-the-password" = false
  /\ post_login sample_lib sample_draw wrong_password_login [suspended_user]
     = (respond 403 [("success", VBool false);
                     ("message",
                      VStr "Your account has been suspended. Please contact support.")],
        [suspended_user]).
Proof. repeat split; vm_compute; reflexivity. Qed.

(** ** C8 *)

Lemma omitted_zip_code_is_refused_witness :
  status (fst (post_register sample_lib_zod3 sample_draw
                             (VObj registration_without_zip) [])) = 400%Z
  /\ snd (post_register sample_lib_zod3 sample_draw
                        (VObj registration_without_zip) []) = [].
Proof.
  destruct (omitted_zip_code_is_refused sample_lib_zod3 sample_draw
              registration_without_zip [] eq_refl eq_refl eq_refl)
    as (A & B & _).
  split; [exact A|exact B].
Defined.

(** Under a Zod that returns a default as it stands, the same payload is
    stored with an empty [zip_code]. *)
Example plain_default_zip_stored :
  zod_default_parsed sample_lib = false
  /\ status (fst (post_register sample_lib sample_draw
                                (VObj registration_without_zip) [])) = 201%Z
  /\ exists user,
       snd (post_register sample_lib sample_draw (VObj registration_without_zip) [])
       = ([] ++ [user])%list
       /\ walk zip_path (VObj user) = VStr "".
Proof.
  assert (Z : zod_default_parsed sample_lib = false) by reflexivity.
  assert (S : status (fst (post_register sample_lib sample_draw
                             (VObj registration_without_zip) [])) = 201%Z)
    by (vm_compute; reflexivity).
  split; [exact Z|]. split; [exact S|].
  destruct (zip_code_optional_with_plain_default sample_lib sample_draw [] Z)
    as [A _].
  destruct (A registration_without_zip eq_refl eq_refl) as (_ & _ & _ & B).
  exact (B _ _ (surjective_pairing _) S).
Qed.

(** The answer to the payload without a ZIP code, under a Zod that parses
    the default: the only failure reported is that of [address.zip_code]. *)
Example omitted_zip_with_parsed_default :
  post_register sample_lib_zod3 sample_draw (VObj registration_without_zip) []
  = (respond 400 [("success", VBool false);
                  ("message", VStr "Validation failed");
                  ("errors", VArr [
                     VObj [("field", VStr "address.zip_code");
                           ("message", VStr "ZIP code must be 4 digits")]])],
     []).
Proof. vm_compute; reflexivity. Qed.

(** The form of the application sends [zip_code: ""] when the field is left
    blank; the request-field validation refuses it. *)
Example blank_zip_is_refused :
  post_register sample_lib sample_draw
    (VObj (set "address"
             (VObj [("street", VStr "12 Rizal St");
                    ("barangay", VStr "Bonuan Binloc");
                    ("city_municipality", VStr "Dagupan City");
                    ("province", VStr "Pangasinan");
                    ("region", VStr "Region I");
                    ("zip_code", VStr EmptyString)])
             (spread sample_registration))) []
  = (respond 400 [("success", VBool false);
                  ("message", VStr "Validation failed");
                  ("errors", VArr [
                     VObj [("field", VStr "address.zip_code");
                           ("message", VStr "ZIP code must be 4 digits")]])],
     []).
Proof. vm_compute; reflexivity. Qed.

(** ** C10 *)

Lemma email_is_case_insensitive_witness :
  post_register sample_lib sample_draw
    (VObj (set "email" (VStr (toLowerCase "Maria.Santos@Example.com"))
               (spread sample_registration))) [sample_user]
  = post_register sample_lib sample_draw
      (VObj (set "email" (VStr "Maria.Santos@Example.com")
                 (spread sample_registration))) [sample_user]
  /\ post_login sample_lib sample_draw
       (VObj (set "email" (VStr (toLowerCase "Maria.Santos@Example.com"))
                  (spread sample_registration))) [sample_user]
     = post_login sample_lib sample_draw
         (VObj (set "email" (VStr "Maria.Santos@Example.com")
                    (spread sample_registration))) [sample_user].
Proof.
  exact (email_is_case_insensitive sample_lib sample_isEmail_lower
           sample_normalizeEmail_lower sample_draw (spread sample_registration)
           "Maria.Santos@Example.com" [sample_user]).
Defined.

(** The address of a stored account is taken, however it is capitalised. *)
Example capitalised_email_is_taken :
  fst (post_register sample_lib sample_draw
         (VObj (set "email" (VStr "MARIA.SANTOS@EXAMPLE.COM")
                  (set "contact_number" (VStr "09181234567")
                     (spread sample_registration)))) [sample_user])
  = email_taken.
Proof. vm_compute; reflexivity. Qed.

(** * Further properties *)

(** ** Strings of digits *)

Lemma prefix_empty (s : string) : String.prefix "" s = true.
Proof. now destruct s. Qed.

Lemma starts_with_char (s : string) (c : ascii) :
  startsWith s (String c EmptyString)
  = match s with
    | EmptyString => false
    | String a _ => Ascii.eqb c a
    end.
Proof.
  destruct s as [|a r]; [reflexivity|].
  unfold startsWith. simpl.
  destruct (ascii_dec c a) as [->|N].
  - now rewrite Ascii.eqb_refl, prefix_empty.
  - symmetry. now apply Ascii.eqb_neq.
Qed.

Lemma starts_with_two (s : string) (c d : ascii) :
  startsWith s (String c (String d EmptyString))
  = match s with
    | String a (String b _) => Ascii.eqb c a && Ascii.eqb d b
    | _ => false
    end.
Proof.
  destruct s as [|a [|b r]]; unfold startsWith; simpl.
  - reflexivity.
  - now destruct (ascii_dec c a).
  - destruct (ascii_dec c a) as [->|N].
    + rewrite Ascii.eqb_refl. simpl.
      destruct (ascii_dec d b) as [->|M].
      * now rewrite Ascii.eqb_refl, prefix_empty.
      * symmetry. now apply Ascii.eqb_neq.
    + apply Ascii.eqb_neq in N. now rewrite N.
Qed.

Lemma forallb_filter_str (f : ascii -> bool) (s : string) :
  forallb_str f (filter_str f s) = true.
Proof.
  induction s as [|c r IH]; simpl; [reflexivity|].
  destruct (f c) eqn:E; simpl; [now rewrite E|exact IH].
Qed.

Lemma forallb_substring (f : ascii -> bool) (s : string) :
  forallb_str f s = true ->
  forall n m, forallb_str f (String.substring n m s) = true.
Proof.
  induction s as [|c r IH]; intros H n m.
  - destruct n, m; reflexivity.
  - simpl in H. apply andb_true_iff in H as [Hc Hr].
    destruct n as [|n]; simpl.
    + destruct m as [|m]; simpl; [reflexivity|]. now rewrite Hc, IH.
    + now apply IH.
Qed.

Lemma length_substring_upto (n : nat) (s : string) :
  String.length (substring_upto n s) = Nat.min n (String.length s).
Proof.
  unfold substring_upto. revert n.
  induction s as [|c r IH]; intros [|n]; simpl; auto.
Qed.

Lemma forallb_append (f : ascii -> bool) (a b : string) :
  forallb_str f (a ++ b) = forallb_str f a && forallb_str f b.
Proof.
  induction a as [|c r IH]; simpl; [reflexivity|].
  now rewrite IH, andb_assoc.
Qed.

Lemma truncated (s : string) :
  (if (11 <? String.length s)%nat then substring_upto 11 s else s)
  = substring_upto 11 s.
Proof.
  destruct (Nat.ltb_spec 11 (String.length s)); [reflexivity|].
  unfold substring_upto. symmetry. now apply substring_all.
Qed.

(** ** The two normalisations of a contact number *)

(** X1: whatever string they are given, the pre-save hook yields between one
    and eleven digits and [transformForMongoose] yields at most eleven
    digits. *)
Theorem contact_normalisation_bounds (s : string) :
  forallb_str isDigit (presave_contact s) = true
  /\ 1 <= String.length (presave_contact s) <= 11
  /\ forallb_str isDigit (transform_contact s) = true
  /\ String.length (transform_contact s) <= 11.
Proof.
  pose proof (forallb_filter_str isDigit s) as D.
  fold (strip_non_digits s) in D.
  split; [|split; [|split]].
  - unfold presave_contact. rewrite truncated.
    apply forallb_substring.
    set (c0 := strip_non_digits s) in *.
    set (c1 := if negb (startsWith c0 "0") && negb (startsWith c0 "63")
               then "0" ++ c0 else c0).
    assert (D1 : forallb_str isDigit c1 = true).
    { unfold c1. destruct (negb _ && negb _); [|exact D]. simpl. exact D. }
    destruct (startsWith c1 "63" && _); [|exact D1].
    simpl. now apply forallb_substring.
  - unfold presave_contact. rewrite truncated, length_substring_upto.
    set (c0 := strip_non_digits s) in *.
    set (c1 := if negb (startsWith c0 "0") && negb (startsWith c0 "63")
               then "0" ++ c0 else c0).
    assert (L1 : 1 <= String.length c1).
    { unfold c1.
      destruct (negb (startsWith c0 "0") && negb (startsWith c0 "63")) eqn:E.
      - cbn [append String.length]. lia.
      - destruct c0; [discriminate E|]. cbn [String.length]. lia. }
    clearbody c1.
    destruct (startsWith c1 "63" && _); cbn [append String.length]; lia.
  - unfold transform_contact. unfold substring_upto. apply forallb_substring.
    set (c0 := strip_non_digits s) in *.
    set (c1 := if startsWith c0 "63" && (12 <=? String.length c0)%nat
               then "0" ++ substring_from 2 c0 else c0).
    assert (D1 : forallb_str isDigit c1 = true).
    { unfold c1. destruct (_ && _); [|exact D]. simpl. now apply forallb_substring. }
    destruct (negb _ && _); [|exact D1]. simpl. exact D1.
  - unfold transform_contact. rewrite length_substring_upto. lia.
Qed.

(** X2: a number whose digits are [9] and nine more, with or without the
    leading [0] or the country code [63], is brought to [09] and those nine
    digits by both normalisations, and that form matches the pattern. *)
Theorem contact_formats_canonical (s d : string) :
  String.length d = 9 ->
  forallb_str isDigit d = true ->
  strip_non_digits s = "9" ++ d
  \/ strip_non_digits s = "09" ++ d
  \/ strip_non_digits s = "639" ++ d ->
  presave_contact s = "09" ++ d
  /\ transform_contact s = "09" ++ d
  /\ re_phone ("09" ++ d) = true.
Proof.
  intros L D H.
  destruct d as [|d1 [|d2 [|d3 [|d4 [|d5 [|d6 [|d7 [|d8 [|d9 [|? ?]]]]]]]]]];
    try discriminate L.
  split; [|split].
  - unfold presave_contact. destruct H as [-> | [-> | ->]]; reflexivity.
  - unfold transform_contact. destruct H as [-> | [-> | ->]]; reflexivity.
  - simpl. simpl in D. exact D.
Qed.

Lemma contact_formats_canonical_witness :
  presave_contact "+63 917 123 4567" = "09171234567"
  /\ transform_contact "+63 917 123 4567" = "09171234567"
  /\ re_phone "09171234567" = true.
Proof.
  apply (contact_formats_canonical "+63 917 123 4567" "171234567");
    [reflexivity|reflexivity|right; right; reflexivity].
Defined.

(** ** The contact field of the form *)

Module ClientFormFacts.
Import ClientForm.

Lemma formatted_digits (text : string) (fieldErrors : obj) :
  fst (formatContactNumber text fieldErrors)
  = substring_upto 11
      (if (0 <? String.length (strip_non_digits text))%nat
          && negb (startsWith (strip_non_digits text) "0")
       then "0" ++ strip_non_digits text else strip_non_digits text).
Proof.
  unfold formatContactNumber. cbn [fst].
  rewrite truncated.
  set (c0 := strip_non_digits text).
  set (c1 := if (0 <? String.length c0)%nat && negb (startsWith c0 "0")
             then "0" ++ c0 else c0).
  assert (N : startsWith c1 "63" = false).
  { unfold c1.
    destruct ((0 <? String.length c0)%nat && negb (startsWith c0 "0")) eqn:E.
    - rewrite starts_with_two. cbn [append]. now destruct c0.
    - rewrite starts_with_two. rewrite starts_with_char in E.
      destruct c0 as [|a [|b r]]; try reflexivity.
      cbn [String.length Nat.ltb Nat.leb andb] in E.
      apply negb_false_iff, Ascii.eqb_eq in E. now subst a. }
  rewrite N. reflexivity.
Qed.

(** X3: [formatContactNumber] keeps the digits of the text, puts a [0] in
    front unless one is there, and cuts at eleven characters; its branch
    that removes the country code is never taken.  So a text whose digits
    begin with [63] always becomes a number that begins with [063], which
    [validatePhone] refuses; and formatting a formatted number changes
    nothing. *)
Theorem formatContactNumber_keeps_country_code (text : string) (fieldErrors : obj) :
  let formatted := fst (formatContactNumber text fieldErrors) in
  formatted
  = substring_upto 11
      (if (0 <? String.length (strip_non_digits text))%nat
          && negb (startsWith (strip_non_digits text) "0")
       then "0" ++ strip_non_digits text else strip_non_digits text)
  /\ forallb_str isDigit formatted = true
  /\ String.length formatted <= 11
  /\ fst (formatContactNumber formatted fieldErrors) = formatted
  /\ (startsWith (strip_non_digits text) "63" = true ->
      startsWith formatted "063" = true /\ validatePhone formatted = false).
Proof.
  cbv zeta. rewrite formatted_digits.
  pose proof (forallb_filter_str isDigit text) as D.
  fold (strip_non_digits text) in D.
  set (c0 := strip_non_digits text) in *.
  set (c1 := if (0 <? String.length c0)%nat && negb (startsWith c0 "0")
             then "0" ++ c0 else c0).
  assert (D1 : forallb_str isDigit c1 = true).
  { unfold c1. destruct (_ && _); [|exact D]. simpl. exact D. }
  assert (Z1 : c1 = "" \/ startsWith c1 "0" = true).
  { unfold c1.
    destruct ((0 <? String.length c0)%nat && negb (startsWith c0 "0")) eqn:E.
    - right. rewrite starts_with_char. reflexivity.
    - destruct c0 as [|a r]; [now left|]. right.
      cbn [String.length Nat.ltb Nat.leb andb] in E.
      now apply negb_false_iff in E. }
  assert (D2 : forallb_str isDigit (substring_upto 11 c1) = true)
    by (unfold substring_upto; now apply forallb_substring).
  assert (Z2 : substring_upto 11 c1 = ""
               \/ startsWith (substring_upto 11 c1) "0" = true).
  { destruct Z1 as [->|Z1]; [now left|]. right.
    rewrite starts_with_char in *. now destruct c1. }
  split; [reflexivity|]. split; [exact D2|].
  split; [rewrite length_substring_upto; lia|].
  split.
  - rewrite formatted_digits.
    assert (F : strip_non_digits (substring_upto 11 c1) = substring_upto 11 c1)
      by (apply filter_str_all; exact D2).
    rewrite !F.
    assert (E : (0 <? String.length (substring_upto 11 c1))%nat
                && negb (startsWith (substring_upto 11 c1) "0") = false).
    { destruct Z2 as [-> | ->]; [reflexivity|apply andb_false_r]. }
    rewrite E. unfold substring_upto. apply substring_all.
    fold (substring_upto 11 c1). rewrite length_substring_upto. lia.
  - intros S. rewrite starts_with_two in S.
    destruct c0 as [|a [|b r]]; try discriminate S.
    apply andb_true_iff in S as [Sa Sb].
    apply Ascii.eqb_eq in Sa, Sb. subst a b.
    unfold c1. cbn. split; [apply prefix_empty|reflexivity].
Qed.

End ClientFormFacts.

(** ** The store of the signed-in user *)

Module AuthStoreFacts.
Import AuthStore.

Lemma apply_coherent (a : action) (s : AuthState) : coherent s -> coherent (apply a s).
Proof.
  unfold coherent. destruct a; simpl; auto.
  destruct (user s), (token s); auto.
Qed.

Lemma run_coherent (acts : list action) (s : AuthState) :
  coherent s -> coherent (run acts s).
Proof.
  unfold run. revert s. induction acts as [|a acts IH]; intros s H; simpl; auto.
  apply IH. now apply apply_coherent.
Qed.

Lemma run_app (xs ys : list action) (s : AuthState) :
  run (xs ++ ys) s = run ys (run xs s).
Proof. unfold run. apply fold_left_app. Qed.

(** X4: after any sequence of actions the store has a user exactly when it
    has a token, and [isAuthenticated] is true exactly then; what it saves
    to the device has the same property; signing out always returns to the
    first state, and [updateUser] changes nothing while signed out. *)
Theorem auth_store_is_coherent (acts : list action) :
  let s := run acts initial in
  coherent s
  /\ (isAuthenticated s = true <-> exists u t, partialize s = (Some u, Some t, true))
  /\ (isAuthenticated s = false <-> partialize s = (None, None, false))
  /\ run (acts ++ [Logout]) initial = initial
  /\ (forall updatedUser,
        isAuthenticated s = false ->
        run (acts ++ [UpdateUser updatedUser]) initial = s).
Proof.
  cbv zeta.
  assert (C : coherent (run acts initial)) by (apply run_coherent; exact eq_refl).
  split; [exact C|].
  unfold coherent, partialize in *.
  destruct (run acts initial) as [u t a l e] eqn:R. cbn [user token isAuthenticated] in *.
  split; [|split; [|split]].
  - destruct u as [u|], t as [t|]; try contradiction; subst a; split.
    + eauto.
    + reflexivity.
    + discriminate.
    + intros (? & ? & [=]).
  - destruct u as [u|], t as [t|]; try contradiction; subst a; split;
      try reflexivity; try discriminate.
  - rewrite run_app, R. reflexivity.
  - intros updatedUser ->. rewrite run_app, R.
    destruct u as [u|], t as [t|]; try contradiction; try discriminate.
    reflexivity.
Qed.

(** The merge of [updateUser]: a key of the update wins, the other keys of
    the user stay. *)
Lemma get_merge_other (k : string) (b a : obj) :
  has k b = false -> get k (merge a b) = get k a.
Proof.
  unfold merge. revert a. induction b as [|[k' v] b IH]; intros a H; simpl;
    [reflexivity|].
  simpl in H. apply orb_false_iff in H as [N H].
  rewrite IH by exact H. apply get_set_neq. now apply String.eqb_neq.
Qed.

End AuthStoreFacts.

(** ** The middleware of the protected routes *)

Lemma value_eqb_refl (a : value) : value_eqb a a = true.
Proof.
  induction a as [| |b|n|s|t|l IH|o IH] using value_nested_ind; simpl;
    try reflexivity.
  - now destruct b.
  - apply Z.eqb_refl.
  - apply String.eqb_refl.
  - destruct t; [apply Z.eqb_refl|reflexivity].
  - induction IH as [|x l Hx _ IHl]; [reflexivity|]. now rewrite Hx, IHl.
  - induction IH as [|[k x] o Hx _ IHo]; [reflexivity|].
    cbn [snd] in Hx. now rewrite String.eqb_refl, Hx, IHo.
Qed.


Module AuthMiddlewareFacts.
Import AuthMiddleware.

Lemma replace_bearer (token : string) :
  replace "Bearer " "" ("Bearer " ++ token) = token.
Proof.
  cbn. rewrite prefix_empty. unfold substring_from. cbn.
  rewrite Nat.sub_0_r. apply substring_all. lia.
Qed.

Lemma authenticate_next env authorization db u :
  authenticate env authorization db = Next u ->
  exists header payload,
    authorization = Some header
    /\ jwt_verify env (replace "Bearer " "" header) = inl payload
    /\ get "_id" u = VStr (userId payload)
    /\ In u db
    /\ get "status" u = VStr "Active".
Proof.
  unfold authenticate.
  destruct authorization as [header|]; cbn [option_map]; [|discriminate].
  destruct (replace "Bearer " "" header) as [|c r] eqn:T; [discriminate|].
  destruct (jwt_verify env (String c r)) as [payload|e] eqn:V; [|discriminate].
  unfold findById. destruct (isValidObjectId env (userId payload)); [|discriminate].
  destruct (find _ db) as [user|] eqn:F; [|discriminate].
  destruct (is_str "Active" (get "status" user)) eqn:A; cbn [negb].
  - intros [= <-]. exists header, payload.
    apply find_some in F as [I Id].
    split; [reflexivity|]. split; [now rewrite T|].
    split; [|split; [exact I|]].
    + unfold is_str in Id. destruct (get "_id" user); try discriminate.
      apply String.eqb_eq in Id. now subst.
    + unfold is_str in A. destruct (get "status" user); try discriminate.
      apply String.eqb_eq in A. now subst.
  - destruct (get "status" user); discriminate.
Qed.

Lemma authorize_next roles (u : obj) :
  authorize roles (Some u) = None ->
  exists r, get "role" u = VStr r /\ In r roles.
Proof.
  unfold authorize.
  destruct (existsb _ roles) eqn:E; [|discriminate]. intros _.
  apply existsb_exists in E as (r & I & S).
  exists r. split; [|exact I].
  unfold is_str in S. destruct (get "role" u); try discriminate.
  apply String.eqb_eq in S. now subst.
Qed.

(** X5: a request passes [authenticate] and then [authorize(...roles)] only
    with a header whose token verifies, for a stored account of the token's
    id whose status is Active and whose stored role is one of [roles]; with
    no role listed, no request passes, and without [req.user] the answer
    is 401. *)
Theorem guarded_route_admits env roles authorization db u :
  authenticate env authorization db = Next u ->
  authorize roles (Some u) = None ->
  (exists header payload,
      authorization = Some header
      /\ jwt_verify env (replace "Bearer " "" header) = inl payload
      /\ get "_id" u = VStr (userId payload))
  /\ In u db
  /\ get "status" u = VStr "Active"
  /\ (exists r, get "role" u = VStr r /\ In r roles)
  /\ roles <> []
  /\ (exists res, authorize roles None = Some res /\ status res = 401%Z).
Proof.
  intros A Z.
  apply authenticate_next in A as (header & payload & -> & V & I & D & S).
  destruct (authorize_next roles u Z) as (r & R & Ir).
  split; [eauto|]. split; [exact D|]. split; [exact S|].
  split; [eauto|]. split.
  - intros ->. contradiction.
  - eexists. split; reflexivity.
Qed.

Lemma guarded_route_admits_witness :
  (exists header payload,
      Some "Bearer jwt.65f0c0ffee0000000000a001.User" = Some header
      /\ jwt_verify sample_env (replace "Bearer " "" header) = inl payload
      /\ get "_id" active_user = VStr (userId payload))
  /\ In active_user [active_user]
  /\ get "status" active_user = VStr "Active"
  /\ (exists r, get "role" active_user = VStr r /\ In r ["Admin"; "User"])
  /\ ["Admin"; "User"] <> []
  /\ (exists res, authorize ["Admin"; "User"] None = Some res
                  /\ status res = 401%Z).
Proof.
  apply (guarded_route_admits sample_env ["Admin"; "User"]
           (Some "Bearer jwt.65f0c0ffee0000000000a001.User") [active_user]
           active_user); vm_compute; reflexivity.
Defined.

(** The answers of [authenticate] that need no verified token. *)
Lemma authenticate_without_token env db :
  authenticate env None db = authenticate env (Some "") db
  /\ authenticate env (Some "") db = authenticate env (Some "Bearer ") db
  /\ authenticate env (Some "Bearer ") db
     = Responded (respond 401 [("success", VBool false);
                               ("message",
                                VStr "Access denied. No token provided.")]).
Proof. repeat split. Qed.

(** X6: an error of [jwt.verify] that is a [JsonWebTokenError] is answered
    "Invalid token" whether or not it is a [TokenExpiredError] as well; the
    token library derives [TokenExpiredError] from [JsonWebTokenError], so
    a token that has expired gets this answer and not "Token expired". *)
Theorem expired_token_is_invalid_token env header db c r expired :
  replace "Bearer " "" header = String c r ->
  jwt_verify env (String c r) = inr (JwtThrown true expired) ->
  authenticate env (Some header) db
  = Responded (respond 401 [("success", VBool false);
                            ("message", VStr "Invalid token")]).
Proof.
  intros T V. unfold authenticate. cbn [option_map]. now rewrite T, V.
Qed.

Lemma expired_token_is_invalid_token_witness :
  authenticate sample_env (Some "Bearer expired") [active_user]
  = Responded (respond 401 [("success", VBool false);
                            ("message", VStr "Invalid token")]).
Proof.
  apply (expired_token_is_invalid_token sample_env "Bearer expired" [active_user]
           "e" "xpired" true); reflexivity.
Defined.

(** The answer "Token expired" takes an error that is a [TokenExpiredError]
    and no [JsonWebTokenError]. *)
Lemma token_expired_answer env authorization db :
  authenticate env authorization db
  = Responded (respond 401 [("success", VBool false);
                            ("message", VStr "Token expired")]) ->
  exists t, jwt_verify env t = inr (JwtThrown false true).
Proof.
  unfold authenticate.
  destruct (option_map _ authorization) as [[|c r]|]; try discriminate.
  destruct (jwt_verify env (String c r)) as [payload|e] eqn:V.
  - unfold findById. destruct (isValidObjectId env (userId payload));
      [|discriminate].
    destruct (find _ db) as [user|]; [|discriminate].
    destruct (negb _); [|discriminate].
    destruct (get "status" user); discriminate.
  - destruct e as [[] []|]; try discriminate. eauto.
Qed.

End AuthMiddlewareFacts.

(** ** The indexes of the collection *)














(** The second account of the example is stored beside the first, while the
    sample registration itself is refused as a duplicate. *)
Example second_account_stored :
  List.length
    (snd (post_register sample_lib
            {| now := now sample_draw; salt := salt sample_draw;
               random5 := "Z7Q2M"; objectId := "65f0c0ffee0000000000a002" |}
            (VObj (set "email" (VStr "ana@example.com")
                     (set "contact_number" (VStr "09181234567")
                        (spread sample_registration))))
            [sample_user])) = 2
  /\ post_register sample_lib sample_draw sample_registration [sample_user]
     = (email_taken, [sample_user]).
Proof. split; vm_compute; reflexivity. Qed.

(** ** A login that succeeds *)







(** The sample account is Pending before its first login and Active after
    it. *)
Example first_login_activates :
  snd (post_login sample_lib sample_draw sample_login [sample_user])
  = [AuthMiddleware.active_user].
Proof. vm_compute; reflexivity. Qed.

(** ** The token of a new account *)

Lemma create_store lib dr data db user db' :
  UserModel_create lib dr data db = Ok (user, db') ->
  store true user db = Ok db'.
Proof.
  unfold UserModel_create.
  destruct (build_document _ _ _ _ _) as [doc ce].
  intros H. now apply save_ok in H as (_ & _ & S).
Qed.

Lemma created_id lib dr data db user db' :
  UserModel_create lib dr data db = Ok (user, db') ->
  get "_id" user = VStr (objectId dr).
Proof.
  intros H.
  apply create_ok in H as (o & E & _ & U & D).
  subst user. rewrite get_pre_save by discriminate.
  assert (W : walk ["_id"] (new_document lib dr data) = VStr (objectId dr)).
  { unfold new_document.
    destruct (build_document_walk_other lib dr data ["_id"] UserMongooseSchema
                (VObj [("_id", VStr (objectId dr))])) as [W _];
      [vm_compute; reflexivity|].
    rewrite W. reflexivity. }
  rewrite E in W. exact W.
Qed.

Lemma store_fresh (user : obj) (db db' : collection) :
  store true user db = Ok db' -> existsb (same_id user) db = false.
Proof.
  unfold store. destruct (duplicate_key user db); [discriminate|].
  destruct (existsb (same_id user) db); [discriminate|reflexivity].
Qed.

Lemma create_fresh lib dr data db user db' :
  UserModel_create lib dr data db = Ok (user, db') ->
  get "_id" user = VStr (objectId dr)
  /\ db' = (db ++ [user])%list
  /\ existsb (same_id user) db = false.
Proof.
  intros H. split; [eapply created_id; eauto|]. split.
  - apply create_store in H. now apply store_new in H.
  - apply create_store in H. now apply store_fresh in H.
Qed.

Lemma find_last {A} (f : A -> bool) (l : list A) (x : A) :
  (forall y, In y l -> f y = false) -> f x = true ->
  find f (l ++ [x]) = Some x.
Proof.
  induction l as [|a l IH]; intros H T; simpl.
  - now rewrite T.
  - rewrite (H a) by (simpl; auto). apply IH; [|exact T].
    intros; apply H; simpl; auto.
Qed.

Lemma get_forced_data (mongooseData : obj) :
  get "form_id" (forced_data mongooseData) = VNull
  /\ get "status" (forced_data mongooseData) = VStr "Pending"
  /\ get "role" (forced_data mongooseData) = VStr "User"
  /\ get "is_verified" (forced_data mongooseData) = VBool false
  /\ get "is_email_verified" (forced_data mongooseData) = VBool false.
Proof. unfold forced_data. repeat split; now get_simpl. Qed.

Module NewAccountFacts.
Import AuthMiddleware.

(** X9: the account that a registration stores is Pending, and
    [authenticate] admits Active accounts only: the token that the 201
    response carries is answered 403 "Account is pending" on a protected
    route for as long as the account has not logged in. *)
Theorem registered_account_is_not_yet_admitted lib dr env req_body db res db'
    token payload :
  post_register lib dr req_body db = (res, db') ->
  status res = 201%Z ->
  token <> "" ->
  jwt_verify env token = inl payload ->
  userId payload = objectId dr ->
  isValidObjectId env (objectId dr) = true ->
  authenticate env (Some ("Bearer " ++ token)) db'
  = Responded
      (respond 403 [("success", VBool false);
                    ("message",
                     VStr "Account is pending. Please contact support.")]).
Proof.
  intros H S T V U O.
  apply post_register_inv in H as [_ H]; [|exact S].
  apply register_inv in H as (userData & mongooseData & user & _ & _ & C);
    [|exact S].
  pose proof (create_fresh _ _ _ _ _ _ C) as (Id & -> & Fr).
  destruct (get_forced_data mongooseData) as (F1 & F2 & F3 & F4 & F5).
  pose proof (create_forced _ _ _ _ _ _ F1 F2 F3 F4 F5 C) as (_ & _ & St & _).
  unfold authenticate. cbn [option_map]. rewrite AuthMiddlewareFacts.replace_bearer.
  destruct token as [|c r]; [contradiction|].
  rewrite V. unfold findById. rewrite U, O.
  rewrite find_last.
  - rewrite St. reflexivity.
  - intros d I. 
    destruct (is_str (objectId dr) (get "_id" d)) eqn:E; [|reflexivity].
    assert (X : existsb (same_id user) db = true).
    { apply existsb_exists. exists d. split; [exact I|].
      unfold same_id. rewrite Id. unfold is_str in E.
      destruct (get "_id" d); try discriminate.
      apply String.eqb_eq in E. subst. apply value_eqb_refl. }
    congruence.
  - rewrite Id. cbn. apply String.eqb_refl.
Qed.

Lemma registered_account_is_not_yet_admitted_witness :
  authenticate sample_env (Some ("Bearer " ++ "jwt.65f0c0ffee0000000000a001.User"))
               (snd (post_register sample_lib sample_draw sample_registration []))
  = Responded
      (respond 403 [("success", VBool false);
                    ("message",
                     VStr "Account is pending. Please contact support.")]).
Proof.
  apply (registered_account_is_not_yet_admitted sample_lib sample_draw sample_env
           sample_registration [] _ _ "jwt.65f0c0ffee0000000000a001.User"
           {| userId := "65f0c0ffee0000000000a001"; role := "User" |}
           (surjective_pairing _)).
  - vm_compute; reflexivity.
  - discriminate.
  - reflexivity.
  - reflexivity.
  - reflexivity.
Defined.

(** The token of the example is the one the response carries. *)
Example sample_token :
  walk ["data"; "token"]
       (json (fst (post_register sample_lib sample_draw sample_registration [])))
  = VStr "jwt.65f0c0ffee0000000000a001.User".
Proof. vm_compute; reflexivity. Qed.

End NewAccountFacts.

(** ** The contact numbers of the collection *)

Lemma save_canonical lib dr isNew m cast_errors (user : obj) db user' db' :
  save lib dr isNew m cast_errors user db = Ok (user', db') ->
  canonical_contact user' = true
  /\ (forall d, In d db' -> d = user' \/ In d db).
Proof.
  intros H. apply save_ok in H as (V & -> & S).
  destruct (validated_contact cast_errors user V) as (c & G & N & C).
  apply contact_validator_phone in C.
  apply store_ok in S as (_ & _ & O). split; [|exact O].
  unfold canonical_contact.
  rewrite (pre_save_contact lib dr isNew m user c G N).
  rewrite presave_contact_valid by exact C.
  rewrite C, (re_phone_length c C). reflexivity.
Qed.

Lemma canonical_contacts_kept (user' : obj) (db db' : collection) :
  canonical_contact user' = true ->
  (forall d, In d db' -> d = user' \/ In d db) ->
  canonical_contacts db = true ->
  canonical_contacts db' = true.
Proof.
  unfold canonical_contacts. intros C O K.
  rewrite forallb_forall in *. intros d I.
  destruct (O d I) as [->|J]; auto.
Qed.

(** The collection after a request is the one before it, or that of one
    [save]. *)
Lemma register_saves lib dr req_body db :
  snd (register lib dr req_body db) = db
  \/ exists ce user user',
       save lib dr true true ce user db
       = Ok (user', snd (register lib dr req_body db)).
Proof.
  unfold register, register_try.
  destruct (validateUserRegister lib dr req_body) as [userData|];
    cbn [bind]; [|now left].
  destruct (UserModel_findOne lib "email" _ db); [now left|].
  destruct (UserModel_findOne lib "contact_number" _ db); [now left|].
  destruct (transformForMongoose lib userData) as [mongooseData|];
    cbn [bind]; [|now left].
  destruct (UserModel_create _ _ _ _) as [[user db1]|] eqn:C;
    cbn [bind]; [|now left].
  right. cbn [snd]. unfold UserModel_create in C.
  destruct (build_document _ _ _ _ _) as [doc ce]. eauto.
Qed.

Lemma login_saves lib dr req_body db :
  snd (login lib dr req_body db) = db
  \/ exists user user',
       save lib dr false false [] user db
       = Ok (user', snd (login lib dr req_body db)).
Proof.
  unfold login, login_try.
  destruct (parse lib dr UserLoginSchema req_body) as [loginData|];
    cbn [bind]; [|now left].
  destruct (UserModel_findOne lib "email" _ db) as [user|]; [|now left].
  destruct (is_str "Suspended" _); [now left|].
  destruct (is_str "Inactive" _); [now left|].
  destruct (negb _); [now left|].
  destruct (save _ _ _ _ _ _ _) as [[saved db1]|] eqn:S; cbn [bind]; [|now left].
  right. cbn [snd]. eauto.
Qed.

(** X10: when every account of the collection has a contact number of the
    pattern [^09\d{9}$] and of length 11, so has every account of the
    collection after any request to the register route and after any
    request to the login route. *)
Theorem stored_contacts_stay_canonical lib dr registration credentials db :
  canonical_contacts db = true ->
  canonical_contacts (snd (post_register lib dr registration db)) = true
  /\ canonical_contacts (snd (post_login lib dr credentials db)) = true.
Proof.
  intros K. split.
  - unfold post_register.
    destruct (run_chains _ _ _ _) as [sanitized errors].
    destruct (validate errors); [exact K|].
    destruct (register_saves lib dr sanitized db) as [->|(ce & u & u' & S)];
      [exact K|].
    apply save_canonical in S as [C O].
    eapply canonical_contacts_kept; eauto.
  - unfold post_login.
    destruct (run_chains _ _ _ _) as [sanitized errors].
    destruct (validate errors); [exact K|].
    destruct (login_saves lib dr sanitized db) as [->|(u & u' & S)];
      [exact K|].
    apply save_canonical in S as [C O].
    eapply canonical_contacts_kept; eauto.
Qed.

Lemma stored_contacts_stay_canonical_witness :
  canonical_contacts
    (snd (post_register sample_lib sample_draw sample_registration [])) = true
  /\ canonical_contacts
       (snd (post_login sample_lib sample_draw sample_login [])) = true.
Proof.
  apply (stored_contacts_stay_canonical sample_lib sample_draw
           sample_registration sample_login []).
  reflexivity.
Defined.

(** The collections of the example: one account after the registration,
    none after a login to an empty collection. *)
Example sample_collections :
  snd (post_register sample_lib sample_draw sample_registration [])
  = [sample_user]
  /\ snd (post_login sample_lib sample_draw sample_login []) = []
  /\ canonical_contacts [sample_user] = true
  /\ canonical_contacts
       (snd (post_login sample_lib sample_draw sample_login [sample_user]))
     = true.
Proof. repeat split; vm_compute; reflexivity. Qed.

(** ** The ZIP code of the registration form *)

Module ZipFormFacts.
Import ClientForm.

Lemma handleRegister_post lib today (f : Form) endpoint body :
  handleRegister lib today f = Post endpoint body ->
  endpoint = "/auth/register" /\ body = registerData f.
Proof.
  unfold handleRegister.
  repeat match goal with
         | |- (if ?b then _ else _) = _ -> _ => destruct b; [discriminate|]
         end.
  intros [= <- <-]. auto.
Qed.

(** X11: what the registration form posts carries the text of its ZIP
    field, trimmed, and [""] when that is blank; unless the trimmed text
    is four digits, the register route answers 400 and stores nothing.  A
    form whose ZIP field is left blank is therefore always refused. *)
Theorem form_zip_code_is_required lib dr today (f : Form) endpoint body db :
  handleRegister lib today f = Post endpoint body ->
  re_zip (trim (zipCode f)) = false ->
  endpoint = "/auth/register"
  /\ walk zip_path body = VStr (trim (zipCode f))
  /\ status (fst (post_register lib dr body db)) = 400%Z
  /\ snd (post_register lib dr body db) = db.
Proof.
  intros H Z. apply handleRegister_post in H as [-> ->].
  split; [reflexivity|].
  assert (W : walk zip_path (registerData f) = VStr (trim (zipCode f))).
  { cbn. unfold or_blank. destruct (trim (zipCode f)); reflexivity. }
  split; [exact W|].
  unfold registerData in *.
  apply (supplied_zip_rejected lib dr _ (VStr (trim (zipCode f))) db);
    auto; reflexivity.
Qed.

Lemma form_zip_code_is_required_witness :
  "/auth/register" = "/auth/register"
  /\ walk zip_path (registerData sample_form) = VStr (trim (zipCode sample_form))
  /\ status (fst (post_register sample_lib sample_draw (registerData sample_form)
                                [])) = 400%Z
  /\ snd (post_register sample_lib sample_draw (registerData sample_form) []) = [].
Proof.
  apply (form_zip_code_is_required sample_lib sample_draw (now sample_draw)
           sample_form).
  - vm_compute; reflexivity.
  - reflexivity.
Defined.

(** With "2400" in the ZIP field, the same form is accepted. *)
Example form_with_zip_is_accepted :
  status (fst (post_register sample_lib sample_draw
                 (registerData
                    {| email := email sample_form;
                       password := password sample_form;
                       firstName := firstName sample_form;
                       middleName := middleName sample_form;
                       lastName := lastName sample_form;
                       suffix := suffix sample_form;
                       sex := sex sample_form;
                       dateOfBirth := dateOfBirth sample_form;
                       contactNumber := contactNumber sample_form;
                       confirmPassword := confirmPassword sample_form;
                       street := street sample_form;
                       selectedRegion := selectedRegion sample_form;
                       selectedProvince := selectedProvince sample_form;
                       selectedCity := selectedCity sample_form;
                       selectedBarangay := selectedBarangay sample_form;
                       zipCode := "2400" |}) [])) = 201%Z.
Proof. vm_compute; reflexivity. Qed.

End ZipFormFacts.
